(** * Fruit Search Bot: the automation run controller of [app.py]

    A shallow embedding of the Flask backend's run controller: the shared
    [state] dictionary, the [/api/start] and [/api/stop] handlers, the
    [automation_worker] loop, the browser launcher and the JSON persistence
    helpers, followed by the properties of the specification that concern
    them.

    Conventions of the embedding.
    - The [state] dict has a fixed key set and is a record.
    - A Python [float] is the rational number it denotes ([Q]); where the
      code computes with floats (the progress, the pause between two
      searches) the result is rounded as binary64 arithmetic rounds it.
    - A Python [str] is a Rocq [string] holding its UTF-8 bytes.
    - Code that can raise returns a [res]; [try]/[except]/[finally] are
      written out on it.
    - Everything the process cannot decide by itself (the platform, the
      discovered Chrome profiles, whether a process starts, the longest
      pause [time.sleep] accepts, keystroke injection failures, the
      jitter drawn, what the other threads of the server write while the
      worker runs) is read from an environment record or from a world
      indexed by a clock. *)

From Stdlib Require Import Ascii String QArith Qround Qpower.
From stdpp Require Import gmap strings list pretty.

Local Open Scope string_scope.
Local Open Scope list_scope.

(** ** Python values *)

(** The exception classes that the modelled code can meet. All of them are
    subclasses of Python's [Exception]. *)
Inductive exn : Type :=
  | FailSafeException                (* pyautogui: mouse in the top-left corner *)
  | InputError (msg : string)        (* any other failure of a pyautogui call *)
  | KeyError (key : string)
  | ZeroDivisionError
  | IOError (msg : string)
  | JSONDecodeError
  | UnicodeDecodeError
  | OverflowError.                   (* time.sleep: timeout too large *)

Inductive res (A : Type) : Type :=
  | Val (a : A)
  | Exc (e : exn).
Arguments Val {A} a.
Arguments Exc {A} e.

(** Truth value of a list, a string and an optional string ([None] and the
    empty string are false). *)
Definition truthy {A} (l : list A) : bool :=
  match l with [] => false | _ :: _ => true end.

Definition truthy_str (s : string) : bool :=
  match s with EmptyString => false | String _ _ => true end.

Definition truthy_opt (o : option string) : bool :=
  match o with None => false | Some s => truthy_str s end.

(** [d.get(k, dflt)] on a dict literal. *)
Fixpoint dict_get (d : list (string * string)) (k dflt : string) : string :=
  match d with
  | [] => dflt
  | (k', v) :: d' => if String.eqb k' k then v else dict_get d' k dflt
  end.

(** [s.split()]: the maximal runs of non-blank characters. *)
Definition is_blank (c : ascii) : bool :=
  (N_of_ascii c =? 32)%N || ((9 <=? N_of_ascii c)%N && (N_of_ascii c <=? 13)%N).

Fixpoint split_from (cur s : string) : list string :=
  match s with
  | EmptyString => if truthy_str cur then [cur] else []
  | String c s' =>
      if is_blank c
      then (if truthy_str cur then cur :: split_from "" s' else split_from "" s')
      else split_from (cur +:+ String c "") s'
  end.

Definition split (s : string) : list string := split_from "" s.

(** [max(a, b)] on numbers: the first argument unless the second is larger. *)
Definition Qltb (a b : Q) : bool := negb (Qle_bool b a).

Definition py_max (a b : Q) : Q := if Qltb a b then b else a.

(** Floats are binary64 numbers. [round64 q] is the float nearest to
    [q], ties going to the even mantissa: with [e] the exponent of the
    binade of [q] ([2^52 <= |q| / 2^e < 2^53], and [e] not below the
    exponent of the subnormal numbers), it is [q / 2^e] rounded to an
    integer, times [2^e]. Numbers beyond the largest float do not arise
    where the code modelled computes. *)
Definition pow2 (e : Z) : Q := (2 ^ e)%Q.

Definition round_half_even (q : Q) : Z :=
  let f := Qfloor q in
  match Qcompare (q - inject_Z f) (1 # 2) with
  | Lt => f
  | Gt => (f + 1)%Z
  | Eq => if Z.even f then f else (f + 1)%Z
  end.

Definition binade (q : Q) : Z :=
  let e0 := (Z.log2 (Qnum q) - Z.log2 (Zpos (Qden q)) - 52)%Z in
  let e1 := if Qle_bool (pow2 (e0 + 52)) q then e0 else (e0 - 1)%Z in
  Z.max e1 (-1074).

Definition round64 (q : Q) : Q :=
  match Qnum q with
  | Z0 => 0%Q
  | Zpos _ =>
      let e := binade q in
      (inject_Z (round_half_even (q / pow2 e)) * pow2 e)%Q
  | Zneg _ =>
      let e := binade (- q) in
      (- (inject_Z (round_half_even ((- q) / pow2 e)) * pow2 e))%Q
  end.

(** [x * y] and [x + y] on floats. *)
Definition float_mul (x y : Q) : Q := round64 (x * y).

Definition float_add (x y : Q) : Q := round64 (x + y).

(** [a / b] on integers: the quotient, correctly rounded. *)
Definition truediv (a b : nat) : res Q :=
  match b with
  | O => Exc ZeroDivisionError
  | S _ => Val (round64 (inject_Z (Z.of_nat a) / inject_Z (Z.of_nat b)))
  end.

(** ** Data model *)

(** The process-wide [state] dictionary. *)
Record RunState : Type := mkRunState {
  is_running : bool;
  status : string;
  progress : Q;
  current_search : string;
  current_profile : string;
  completed : nat;
  total : nat
}.

Definition set_is_running (b : bool) (s : RunState) : RunState :=
  mkRunState b (status s) (progress s) (current_search s) (current_profile s)
             (completed s) (total s).
Definition set_status (v : string) (s : RunState) : RunState :=
  mkRunState (is_running s) v (progress s) (current_search s) (current_profile s)
             (completed s) (total s).
Definition set_progress (v : Q) (s : RunState) : RunState :=
  mkRunState (is_running s) (status s) v (current_search s) (current_profile s)
             (completed s) (total s).
Definition set_current_search (v : string) (s : RunState) : RunState :=
  mkRunState (is_running s) (status s) (progress s) v (current_profile s)
             (completed s) (total s).
Definition set_current_profile (v : string) (s : RunState) : RunState :=
  mkRunState (is_running s) (status s) (progress s) (current_search s) v
             (completed s) (total s).
Definition set_completed (v : nat) (s : RunState) : RunState :=
  mkRunState (is_running s) (status s) (progress s) (current_search s)
             (current_profile s) v (total s).
Definition set_total (v : nat) (s : RunState) : RunState :=
  mkRunState (is_running s) (status s) (progress s) (current_search s)
             (current_profile s) (completed s) v.

(** The value of [state] when the module is loaded. *)
Definition initial_state : RunState :=
  mkRunState false "Ready to start..." 0 "" "" 0 0.

(** A profile dict. [name = None] is a dict without the key ['name'], on
    which [profile['name']] raises [KeyError]; for the two other keys the
    code only uses [.get], which does not tell a missing key from [None]. *)
Record Profile : Type := mkProfile {
  name : option string;
  directory : option string;
  path : option string
}.

(** The arguments [automation_worker] is called with. *)
Record Thread : Type := mkThread {
  th_fruits : list string;
  th_delay : Q;
  th_browser : string;
  th_profiles : list Profile
}.

(** The module-level variables. *)
Record Globals : Type := mkGlobals {
  state : RunState;
  selected_profiles_memory : list Profile;
  worker_thread : option Thread
}.

(** ** Environment *)

Inductive Platform : Type := Windows | Darwin | Linux | OtherSystem.

(** A [subprocess.Popen] call: a command line (a string or an argument
    list) and the [shell] flag. *)
Inductive CmdLine : Type :=
  | Line (s : string)
  | Argv (l : list string).

Record Command : Type := mkCommand { cmdline : CmdLine; shell : bool }.

Inductive PopenOutcome : Type :=
  | Started
  | FileNotFound          (* FileNotFoundError *)
  | PopenFailed.          (* any other exception *)

Record Env : Type := mkEnv {
  system : Platform;                      (* platform.system() *)
  DISPLAY : option string;                (* os.environ.get('DISPLAY') *)
  available_profiles : list Profile;      (* ChromeProfileManager().get_available_profiles(),
                                             when the call returns *)
  popen : Command -> PopenOutcome;
  sleep_raises : Q -> bool                (* time.sleep(q) raises OverflowError: the
                                             timeout is beyond what the clock of the
                                             platform holds, some 9.2e9 seconds *)
}.

(** What the persistence helpers, the launcher and the worker print on
    the console when they catch an exception. *)
Inductive Message : Type :=
  | MsgSaveError (filename : string) (e : exn)   (* "Error saving to ..." *)
  | MsgLoadError (filename : string) (e : exn)   (* "Error loading from ..." *)
  | MsgFailsafe                                  (* "Automation stopped: Mouse moved ..." *)
  | MsgAutomationError (e : exn)                 (* "Automation error: ..." *)
  | MsgLaunchError (raised : PopenOutcome).      (* "Error launching browser: ..." *)

(** ** Persistence: [save_to_file] and [load_from_file] *)

(** A path of the working directory names a regular file with its bytes,
    or something on which [open] raises [IOError] (a directory, a file
    the process may not open). *)
Inductive Node : Type :=
  | File (bytes : string)
  | Unopenable.

(** Strict UTF-8, as the [utf-8] codec of a text-mode [open] decodes it:
    shortest forms only, no surrogates, nothing above U+10FFFF. *)
Definition byte_in (lo hi : N) (c : ascii) : bool :=
  ((lo <=? N_of_ascii c) && (N_of_ascii c <=? hi))%N.

Definition continuation (c : ascii) : bool := byte_in 0x80 0xBF c.

Definition lead3 (b0 b1 : ascii) : bool :=
  (byte_in 0xE0 0xE0 b0 && byte_in 0xA0 0xBF b1)
  || (byte_in 0xE1 0xEC b0 && continuation b1)
  || (byte_in 0xED 0xED b0 && byte_in 0x80 0x9F b1)
  || (byte_in 0xEE 0xEF b0 && continuation b1).

Definition lead4 (b0 b1 : ascii) : bool :=
  (byte_in 0xF0 0xF0 b0 && byte_in 0x90 0xBF b1)
  || (byte_in 0xF1 0xF3 b0 && continuation b1)
  || (byte_in 0xF4 0xF4 b0 && byte_in 0x80 0x8F b1).

Fixpoint utf8_valid (s : string) : bool :=
  match s with
  | EmptyString => true
  | String b0 r0 =>
      if byte_in 0x00 0x7F b0 then utf8_valid r0
      else
        match r0 with
        | EmptyString => false
        | String b1 r1 =>
            if byte_in 0xC2 0xDF b0 then continuation b1 && utf8_valid r1
            else
              match r1 with
              | EmptyString => false
              | String b2 r2 =>
                  if lead3 b0 b1 then continuation b2 && utf8_valid r2
                  else
                    match r2 with
                    | EmptyString => false
                    | String b3 r3 =>
                        lead4 b0 b1 && continuation b2 && continuation b3
                        && utf8_valid r3
                    end
              end
        end
  end.

(** [f.read()] on a file opened with [encoding='utf-8']. *)
Definition read_text (bytes : string) : res string :=
  if utf8_valid bytes then Val bytes else Exc UnicodeDecodeError.

(** [open(filename, 'r')] and [open(filename, 'w')]; the latter creates or
    truncates the file. *)
Definition open_read (disk : gmap string Node) (filename : string) : res string :=
  match disk !! filename with
  | Some (File bytes) => Val bytes
  | Some Unopenable => Exc (IOError "Permission denied")
  | None => Exc (IOError "No such file or directory")
  end.

Definition open_write (disk : gmap string Node) (filename : string)
  : res (gmap string Node) :=
  match disk !! filename with
  | Some Unopenable => Exc (IOError "Permission denied")
  | _ => Val (<[filename := File ""]> disk)
  end.

(** [os.path.exists(filename)] *)
Definition path_exists (disk : gmap string Node) (filename : string) : bool :=
  match disk !! filename with Some _ => true | None => false end.

Section Persistence.
(** The documents stored under a key, with the two functions of the
    [json] module the code calls on them: the text [json.dump(data, f,
    indent=2)] writes, and what [json.load] makes of a text ([None]:
    it raises [JSONDecodeError]). *)
Context {A : Type}.
Variable json_dumps : A -> string.
Variable json_loads : string -> option A.

Definition json_load (text : string) : res A :=
  match json_loads text with
  | Some v => Val v
  | None => Exc JSONDecodeError
  end.

Definition save_to_file (filename : string) (data : A) (disk : gmap string Node)
  : gmap string Node * list Message :=
  (* with state_lock: try: *)
  match open_write disk filename with
  | Val disk' => (<[filename := File (json_dumps data)]> disk', [])
  (* except IOError as e: *)
  | Exc (IOError msg) => (disk, [MsgSaveError filename (IOError msg)])
  | Exc _ => (disk, [])
  end.

(** The body of the [try] of [load_from_file]; [Val None] is falling
    out of the [if]. *)
Definition load_attempt (filename : string) (disk : gmap string Node)
  : res (option A) :=
  if path_exists disk filename then
    match open_read disk filename with
    | Exc e => Exc e
    | Val bytes =>
        match read_text bytes with
        | Exc e => Exc e
        | Val text =>
            match json_load text with
            | Exc e => Exc e
            | Val v => Val (Some v)
            end
        end
    end
  else Val None.

Definition load_from_file (filename : string) (disk : gmap string Node)
  : res (option A) * list Message :=
  match load_attempt filename disk with
  | Val r => (Val r, [])
  (* except (IOError, json.JSONDecodeError) as e: *)
  | Exc (IOError msg) => (Val None, [MsgLoadError filename (IOError msg)])
  | Exc JSONDecodeError => (Val None, [MsgLoadError filename JSONDecodeError])
  (* anything else propagates *)
  | Exc e => (Exc e, [])
  end.
End Persistence.

(** ** Browser launcher *)

Definition dquote : string := String (ascii_of_nat 34) EmptyString.

Definition windows_commands : list (string * string) :=
  [("chrome", "start chrome"); ("edge", "start msedge");
   ("firefox", "start firefox"); ("brave", "start brave");
   ("opera", "start opera");
   ("safari", "echo " +:+ dquote +:+ "Safari not available on Windows" +:+ dquote)].

Definition darwin_apps : list (string * string) :=
  [("chrome", "Google Chrome"); ("edge", "Microsoft Edge");
   ("firefox", "Firefox"); ("brave", "Brave Browser");
   ("opera", "Opera"); ("safari", "Safari")].

Definition linux_commands : list (string * string) :=
  [("chrome", "google-chrome"); ("firefox", "firefox");
   ("brave", "brave-browser"); ("opera", "opera");
   ("edge", "microsoft-edge")].

Definition chrome_cmds : list string :=
  ["google-chrome"; "google-chrome-stable"; "chromium-browser"; "chromium"].

Definition profile_flag (profile_dir : string) : string :=
  "--profile-directory=" +:+ profile_dir.

(** One [Popen] call inside the outer [try]: the handle when the process
    started, [None] when the call raised (the outer handler returns
    [None]); second component: the calls made. *)
Definition spawn (env : Env) (cmd : Command) : option Command * list Command :=
  match popen env cmd with
  | Started => (Some cmd, [cmd])
  | _ => (None, [cmd])
  end.

(** The [for chrome_cmd in chrome_cmds] loop of the Linux branch. *)
Fixpoint try_chrome_cmds (env : Env) (profile_dir : string) (cmds : list string)
  : option Command * list Command :=
  match cmds with
  | [] => (None, [])
  | chrome_cmd :: rest =>
      let cmd := mkCommand (Argv [chrome_cmd; profile_flag profile_dir]) false in
      match popen env cmd with
      | Started => (Some cmd, [cmd])
      | FileNotFound =>
          let (handle, tried) := try_chrome_cmds env profile_dir rest in
          (handle, cmd :: tried)
      | PopenFailed => (None, [cmd])
      end
  end.

Definition launch_browser (env : Env) (browser : string) (profile_dir : option string)
  : option Command * list Command :=
  let with_profile := String.eqb browser "chrome" && truthy_opt profile_dir in
  let dir := default "" profile_dir in
  match system env with
  | Windows =>
      if with_profile
      then spawn env (mkCommand (Argv ["start"; "chrome"; profile_flag dir]) true)
      else spawn env (mkCommand (Line (dict_get windows_commands browser "start chrome")) true)
  | Darwin =>
      if with_profile
      then spawn env (mkCommand
             (Argv ["open"; "-a"; "Google Chrome"; "--args"; profile_flag dir]) false)
      else spawn env (mkCommand
             (Argv ["open"; "-a"; dict_get darwin_apps browser "Google Chrome"]) false)
  | Linux =>
      if with_profile
      then try_chrome_cmds env dir chrome_cmds
      else spawn env (mkCommand
             (Argv (split (dict_get linux_commands browser "xdg-open http://google.com")))
             false)
  | OtherSystem => (None, [])
  end.

(** What the same call prints: the line "Error launching browser: ..."
    of the outer handler, when a [Popen] call raises an exception that
    reaches it. In the loop of the Linux branch [FileNotFoundError] does
    not: the loop goes on, and ends in silence when no program is found. *)
Definition spawn_prints (env : Env) (cmd : Command) : list Message :=
  match popen env cmd with
  | Started => []
  | raised => [MsgLaunchError raised]
  end.

Fixpoint try_chrome_cmds_prints (env : Env) (profile_dir : string) (cmds : list string)
  : list Message :=
  match cmds with
  | [] => []
  | chrome_cmd :: rest =>
      let cmd := mkCommand (Argv [chrome_cmd; profile_flag profile_dir]) false in
      match popen env cmd with
      | Started => []
      | FileNotFound => try_chrome_cmds_prints env profile_dir rest
      | PopenFailed => [MsgLaunchError PopenFailed]
      end
  end.

Definition launch_browser_prints (env : Env) (browser : string)
    (profile_dir : option string) : list Message :=
  let with_profile := String.eqb browser "chrome" && truthy_opt profile_dir in
  let dir := default "" profile_dir in
  match system env with
  | Windows =>
      if with_profile
      then spawn_prints env (mkCommand (Argv ["start"; "chrome"; profile_flag dir]) true)
      else spawn_prints env
             (mkCommand (Line (dict_get windows_commands browser "start chrome")) true)
  | Darwin =>
      if with_profile
      then spawn_prints env (mkCommand
             (Argv ["open"; "-a"; "Google Chrome"; "--args"; profile_flag dir]) false)
      else spawn_prints env (mkCommand
             (Argv ["open"; "-a"; dict_get darwin_apps browser "Google Chrome"]) false)
  | Linux =>
      if with_profile
      then try_chrome_cmds_prints env dir chrome_cmds
      else spawn_prints env (mkCommand
             (Argv (split (dict_get linux_commands browser "xdg-open http://google.com")))
             false)
  | OtherSystem => []
  end.

(** ** The stop request

    The state change of [stop_automation], one locked block. It is defined
    here because the worker below runs while such requests arrive. *)
Definition stop_state (s : RunState) : RunState :=
  if is_running s
  then set_status "Stopping automation..." (set_is_running false s)
  else s.

(** ** The worker thread *)

(** The calls into pyautogui. *)
Inductive InputAction : Type :=
  | Hotkey (keys : list string)
  | Typewrite (text : string) (interval : Q)
  | Press (key : string).

Inductive Effect : Type :=
  | ELaunch (browser : string) (profile_dir : option string) (calls : list Command)
  | ESleep (seconds : Q)
  | EInput (a : InputAction)
  | EPrint (msg : Message).

(** A pyautogui call that fails raises [FailSafeException] or some other
    exception of the library. *)
Inductive InputFault : Type :=
  | Failsafe
  | Fault (msg : string).

Definition exn_of_fault (f : InputFault) : exn :=
  match f with
  | Failsafe => FailSafeException
  | Fault msg => InputError msg
  end.

(** What a run of the worker cannot decide by itself, as functions of the
    clock (the number of steps the worker has made):
    - [interference k s]: the states that the other threads of the
      process publish, one per locked block, while the worker pauses
      after its step [k] on the shared state [s]. These threads are the
      handlers of [/api/stop] and [/api/start] and the other workers that
      are alive: a start request is accepted as soon as [is_running] is
      false, also while a stopped worker has not yet left its loops, so
      that two workers can run side by side on the one [state];
    - [fault k]: how the pyautogui call made at time [k] fails, if it
      does;
    - [uniform k]: the value [random.uniform(0.15, 0.6)] returns at time
      [k].
    A world may publish anything; each statement says what it needs of
    it. Requests served before the worker's first step are part of the
    state it is entered on. *)
Record World : Type := mkWorld {
  interference : nat -> RunState -> list RunState;
  fault : nat -> option InputFault;
  uniform : nat -> Q
}.

(** The worlds in which nothing but stop requests reaches the state while
    the worker runs: no start request is accepted before the worker has
    returned, and no other worker is alive. [stop_request k]: a
    [/api/stop] request is served right after the worker's step [k]. *)
Record Oracle : Type := mkOracle {
  stop_request : nat -> bool;
  input_failure : nat -> option InputFault;
  jitter : nat -> Q
}.

Definition of_oracle (oracle : Oracle) : World :=
  mkWorld (fun k s => if stop_request oracle k && is_running s
                      then [stop_state s] else [])
          (input_failure oracle) (jitter oracle).

Coercion of_oracle : Oracle >-> World.

(** The worker's view of the world: the shared [state], its local variable
    [completed], the successive values of [state] (latest first; one entry
    per locked block of the worker and per state another thread
    published), the effects so far (latest first) and the clock. *)
Record Machine : Type := mkMachine {
  shared : RunState;
  local_completed : nat;
  trace : list RunState;
  effects : list Effect;
  clock : nat
}.

Definition enter (s : RunState) : Machine := mkMachine s 0 [] [] 0.

Definition M (A : Type) : Type := Machine -> res A * Machine.

Definition ret {A} (a : A) : M A := fun m => (Val a, m).

Definition bind {A B} (c : M A) (k : A -> M B) : M B :=
  fun m =>
    match c m with
    | (Val a, m') => k a m'
    | (Exc e, m') => (Exc e, m')
    end.

Definition raise {A} (e : exn) : M A := fun m => (Exc e, m).

Definition lift {A} (r : res A) : M A := fun m => (r, m).

Declare Scope worker_scope.
Delimit Scope worker_scope with worker.
Notation "x <- c ;; k" := (bind c (fun x => k))
  (at level 100, c at next level, k at level 200, right associativity) : worker_scope.
Notation "c ;; k" := (bind c (fun _ => k))
  (at level 100, k at level 200, right associativity) : worker_scope.

Inductive Flow : Type := Next | Break.

(** [for x in l: body]; the body says whether it ran into [break]. *)
Fixpoint for_each {A} (body : A -> M Flow) (l : list A) : M unit :=
  match l with
  | [] => ret tt
  | x :: l' =>
      bind (body x) (fun f => match f with Break => ret tt | Next => for_each body l' end)
  end.

Definition dummy_profile : Profile := mkProfile (Some "Default") None None.

Section Worker.
Variable env : Env.
Variable world : World.

Local Open Scope worker_scope.

(** The other threads get a turn: the states they publish follow one
    another on the shared state, the last one staying. *)
Definition env_turn (m : Machine) : Machine :=
  let published := interference world (clock m) (shared m) in
  mkMachine (List.last published (shared m)) (local_completed m)
            (reverse published ++ trace m) (effects m) (S (clock m)).

(** A step of the worker after which the other threads may run, whether
    the step returned or raised. *)
Definition yielding {A} (c : M A) : M A :=
  fun m => let (r, m') := c m in (r, env_turn m').

Definition assign (f : RunState -> RunState) : M unit :=
  fun m => (Val tt, mkMachine (f (shared m)) (local_completed m) (trace m)
                              (effects m) (clock m)).

Definition snapshot (m : Machine) : Machine :=
  mkMachine (shared m) (local_completed m) (shared m :: trace m) (effects m) (clock m).

(** [with state_lock: body]: the block runs without interference; the
    lock is released, and the new state becomes visible, also when the
    block raises. *)
Definition locked {A} (body : M A) : M A :=
  fun m => let (r, m') := body m in (r, snapshot m').

Definition with_lock {A} (body : M A) : M A := yielding (locked body).

Definition emit (e : Effect) : M unit :=
  fun m => (Val tt, mkMachine (shared m) (local_completed m) (trace m)
                              (e :: effects m) (clock m)).

(** [state['is_running']], read without the lock. *)
Definition read_is_running : M bool :=
  yielding (fun m => (Val (is_running (shared m)), m)).

(** [time.sleep(seconds)]; a pause too long for the clock raises
    [OverflowError], which ends the body of the worker like any other
    exception. *)
Definition sleep (seconds : Q) : M unit :=
  yielding (if sleep_raises env seconds
            then raise OverflowError
            else emit (ESleep seconds)).

Definition pyautogui (a : InputAction) : M unit :=
  yielding (fun m =>
    match fault world (clock m) with
    | Some f => (Exc (exn_of_fault f), m)
    | None => emit (EInput a) m
    end).

Definition random_uniform : M Q :=
  fun m => (Val (uniform world (clock m)), m).

Fixpoint print_all (msgs : list Message) : M unit :=
  match msgs with
  | [] => ret tt
  | msg :: rest => emit (EPrint msg) ;; print_all rest
  end.

(** [launch_browser(browser, profile_dir)]; the handle is dropped. *)
Definition launch (browser : string) (profile_dir : option string) : M unit :=
  yielding (emit (ELaunch browser profile_dir
                    (snd (launch_browser env browser profile_dir))) ;;
            print_all (launch_browser_prints env browser profile_dir)).

Definition get_completed : M nat := fun m => (Val (local_completed m), m).

Definition set_local_completed (n : nat) : M unit :=
  fun m => (Val tt, mkMachine (shared m) n (trace m) (effects m) (clock m)).

(** [profile['name']] *)
Definition getitem_name (profile : Profile) : M string :=
  match name profile with
  | Some n => ret n
  | None => raise (KeyError "name")
  end.

(** The body of [for fruit in fruits]. *)
Definition search (delay : Q) (total_searches : nat) (fruit : string) : M Flow :=
  running <- read_is_running ;;
  if negb running then ret Break
  else
    with_lock (assign (set_current_search fruit) ;;
               assign (set_status ("Searching for: " +:+ fruit))) ;;
    pyautogui (Hotkey ["ctrl"; "t"]) ;;
    sleep 0.5 ;;
    pyautogui (Hotkey ["ctrl"; "l"]) ;;
    sleep 0.3 ;;
    pyautogui (Typewrite fruit 0.05) ;;
    sleep 0.2 ;;
    pyautogui (Press "enter") ;;
    c <- get_completed ;;
    set_local_completed (c + 1) ;;
    with_lock (c' <- get_completed ;;
               assign (set_completed c') ;;
               q <- lift (truediv c' total_searches) ;;
               assign (set_progress (float_mul q 100))) ;;
    j <- random_uniform ;;
    sleep (py_max 0.1 (float_add delay j)) ;;
    ret Next.

(** The body of [for profile in profiles]. *)
Definition visit (fruits : list string) (delay : Q) (browser : string)
    (total_searches : nat) (profile : Profile) : M Flow :=
  running <- read_is_running ;;
  if negb running then ret Break
  else
    profile_name <- getitem_name profile ;;
    let profile_dir := directory profile in
    with_lock (assign (set_current_profile profile_name) ;;
               assign (set_status ("Opening browser for profile: " +:+ profile_name))) ;;
    launch browser profile_dir ;;
    sleep 3 ;;
    for_each (search delay total_searches) fruits ;;
    ret Next.

(** [except pyautogui.FailSafeException: ... except Exception as e: ...] *)
Definition handler (e : exn) : M unit :=
  match e with
  | FailSafeException => emit (EPrint MsgFailsafe)
  | _ => emit (EPrint (MsgAutomationError e))
  end.

(** [finally:] the clean-up block; the thread ends when it leaves it. *)
Definition cleanup (total_searches : nat) : M unit :=
  locked (c <- get_completed ;;
             assign (set_is_running false) ;;
             assign (set_status (if Nat.eqb c total_searches
                                 then "Automation completed"
                                 else "Automation stopped")) ;;
             assign (set_current_search "") ;;
             assign (set_current_profile "")).

(** [try: body except ...: handler finally: final]; every exception of
    the model is an [Exception], so the handler takes all of them. *)
Definition try_except_finally (body : M unit) (final : M unit) : M unit :=
  fun m =>
    match body m with
    | (Val _, m') => final m'
    | (Exc e, m') => (handler e ;; final) m'
    end.

Definition effective_profiles (profiles : list Profile) : list Profile :=
  if truthy profiles then profiles else [dummy_profile].

Definition worker_total (fruits : list string) (profiles : list Profile) : nat :=
  length fruits * length (effective_profiles profiles).

Definition automation_worker (fruits : list string) (delay : Q) (browser : string)
    (profiles : list Profile) : M unit :=
  let profiles := effective_profiles profiles in
  let total_searches := length fruits * length profiles in
  set_local_completed 0 ;;
  with_lock (assign (set_total total_searches) ;;
             assign (set_completed 0) ;;
             assign (set_progress 0.0)) ;;
  try_except_finally
    (for_each (visit fruits delay browser total_searches) profiles)
    (cleanup total_searches).

(** The run of a worker thread entered on state [s]. *)
Definition run_thread (th : Thread) (s : RunState) : Machine :=
  snd (automation_worker (th_fruits th) (th_delay th) (th_browser th)
                         (th_profiles th) (enter s)).
End Worker.

(** ** Control API *)

(** JSON bodies of the responses. *)
Inductive Body : Type :=
  | ErrorBody (error : string)
  | StartedBody (message : string) (total_searches : nat)
                (profiles_in_use : option (list string)) (warning : option string)
  | MessageBody (message : string)
  | FruitsBody (fruits : list string).

Record Response : Type := mkResponse { code : nat; body : Body }.

(** The JSON body of [POST /api/start]; an absent [fruits] or
    [selectedProfiles] reads as the empty list, an absent
    [useDefaultIfNoProfile] as [False]. *)
Record StartRequest : Type := mkStartRequest {
  fruits : list string;
  delay : option Q;
  browser : option string;
  selectedProfiles : list Profile;
  useDefaultIfNoProfile : bool
}.

(** What a call of [start_automation] leaves behind: the reply (or the
    exception that escapes the handler), the module-level variables, and
    the thread it started, if any. *)
Record StartOutcome : Type := mkStartOutcome {
  reply : res Response;
  globals_after : Globals;
  spawned : option Thread
}.

Definition refuse (g : Globals) (error : string) : StartOutcome :=
  mkStartOutcome (Val (mkResponse 400 (ErrorBody error))) g None.

(** [[p['name'] for p in profiles]] *)
Fixpoint names_of (profiles : list Profile) : res (list string) :=
  match profiles with
  | [] => Val []
  | p :: rest =>
      match name p with
      | None => Exc (KeyError "name")
      | Some n =>
          match names_of rest with
          | Val ns => Val (n :: ns)
          | Exc e => Exc e
          end
      end
  end.

Definition is_default (p : Profile) : bool :=
  match directory p with
  | Some d => String.eqb d "Default"
  | None => false
  end.

(** Lines 471-485: the profiles a start request runs on. *)
Definition resolve_profiles (env : Env) (g : Globals) (browser : string)
    (request_profiles : list Profile) (use_default : bool) : list Profile :=
  if String.eqb browser "chrome" then
    (* Priority: request body > memory > default *)
    if truthy request_profiles then request_profiles
    else if truthy (selected_profiles_memory g) then selected_profiles_memory g
    else if use_default then
      match List.find is_default (available_profiles env) with
      | Some dflt => [dflt]
      | None => []
      end
    else []
  else [].

Definition start_automation (env : Env) (data : StartRequest) (g : Globals)
  : StartOutcome :=
  (* Check if already running *)
  if is_running (state g) then refuse g "Automation is already running"
  else
    let fruits := fruits data in
    let delay := default 3.0%Q (delay data) in
    let browser := default "chrome" (browser data) in
    let request_profiles := selectedProfiles data in
    let use_default := useDefaultIfNoProfile data in
    (* Validate inputs *)
    if negb (truthy fruits) then refuse g "No fruits provided"
    else
      let '(delay, warning) :=
        if Qltb delay 0.5
        then (3.0%Q, Some "Delay was below minimum (0.5s), set to 3.0s")
        else (delay, None) in
      (* Handle Chrome profile selection *)
      let profiles_to_use := resolve_profiles env g browser request_profiles use_default in
      if String.eqb browser "chrome" && negb (truthy profiles_to_use)
      then refuse g ("No Chrome profiles selected. Provide selectedProfiles in "
                     +:+ "request body or call /api/apply-profiles first.")
      else
        (* Check for GUI availability *)
        let warning :=
          match system env with
          | Linux =>
              if negb (truthy_opt (DISPLAY env))
              then Some "Warning: No display detected. Automation may fail on headless systems."
              else warning
          | _ => warning
          end in
        (* Update state and start worker *)
        let st :=
          set_total (length fruits *
                     (if truthy profiles_to_use then length profiles_to_use else 1))
            (set_completed 0
               (set_progress 0
                  (set_status "Starting automation..."
                     (set_is_running true (state g))))) in
        let th := mkThread fruits delay browser profiles_to_use in
        let g' := mkGlobals st (selected_profiles_memory g) (Some th) in
        let in_use :=
          if truthy profiles_to_use && String.eqb browser "chrome"
          then match names_of profiles_to_use with
               | Val ns => Val (Some ns)
               | Exc e => Exc e
               end
          else Val None in
        let warning := if truthy_opt warning then warning else None in
        match in_use with
        | Val names =>
            mkStartOutcome
              (Val (mkResponse 202
                      (StartedBody "Automation started" (total st) names warning)))
              g' (Some th)
        | Exc e => mkStartOutcome (Exc e) g' (Some th)
        end.

(** Whether a start request reaches the discovery of lines 481-482: no
    run is active, terms are given, the browser is Chrome, neither the
    body nor the memory holds a selection, and the body asks for the
    default profile. *)
Definition reaches_discovery (data : StartRequest) (g : Globals) : bool :=
  negb (is_running (state g))
  && truthy (fruits data)
  && String.eqb (default "chrome" (browser data)) "chrome"
  && negb (truthy (selectedProfiles data))
  && negb (truthy (selected_profiles_memory g))
  && useDefaultIfNoProfile data.

(** [start_automation] when [get_available_profiles] may raise instead of
    returning [available_profiles env] (it does on some [Local State]
    files, see the discovery below). [raised] is the exception of the
    call of line 482, if it raises: it leaves the handler there, before
    the state is written and a thread is started. *)
Definition start_automation_served (raised : option exn) (env : Env)
    (data : StartRequest) (g : Globals) : StartOutcome :=
  match raised with
  | Some e =>
      if reaches_discovery data g
      then mkStartOutcome (Exc e) g None
      else start_automation env data g
  | None => start_automation env data g
  end.

Definition stop_automation (g : Globals) : Response * Globals :=
  (mkResponse 200 (MessageBody "Stopping"),
   mkGlobals (stop_state (state g)) (selected_profiles_memory g) (worker_thread g)).

(** The requests that reach the two handlers while a worker is alive, and
    the world they make for it. [handle] is the state a handler publishes,
    if it writes the state at all: a stop request writes when a run is
    active, a start request when it is accepted. The thread that an
    accepted start request begins is one more worker; its own writes would
    add states to those published here and take none away, and are left
    out. *)
Inductive Request : Type :=
  | PostStop
  | PostStart (data : StartRequest).

Definition handle (env : Env) (memory : list Profile) (r : Request) (s : RunState)
  : option RunState :=
  let g := mkGlobals s memory None in
  match r with
  | PostStop => if is_running s then Some (state (snd (stop_automation g))) else None
  | PostStart data =>
      let out := start_automation env data g in
      match spawned out with
      | Some _ => Some (state (globals_after out))
      | None => None
      end
  end.

Fixpoint serve (env : Env) (memory : list Profile) (requests : list Request)
    (s : RunState) : list RunState :=
  match requests with
  | [] => []
  | r :: rest =>
      match handle env memory r s with
      | Some s' => s' :: serve env memory rest s'
      | None => serve env memory rest s
      end
  end.

Definition server (env : Env) (memory : list Profile) (requests : nat -> list Request)
    (fault : nat -> option InputFault) (uniform : nat -> Q) : World :=
  mkWorld (fun k s => serve env memory (requests k) s) fault uniform.

Section Fruits.
(** The [json] functions on lists of terms. *)
Variable json_dumps : list string -> string.
Variable json_loads : string -> option (list string).

Definition save_fruits (fruits : list string) (disk : gmap string Node)
  : Response * gmap string Node :=
  let (disk', _) := save_to_file json_dumps "fruits.json" fruits disk in
  (mkResponse 200 (MessageBody ("Saved " +:+ pretty (length fruits) +:+ " fruits")),
   disk').

Definition load_fruits (disk : gmap string Node) : res Response :=
  match fst (load_from_file json_loads "fruits.json" disk) with
  | Exc e => Exc e
  | Val (Some fruits) => Val (mkResponse 200 (FruitsBody fruits))
  | Val None => Val (mkResponse 200 (FruitsBody []))
  end.

(** [next((p for p in available if p['name'] == name), None)] *)
Definition has_name (n : string) (p : Profile) : bool :=
  match name p with
  | Some n' => String.eqb n' n
  | None => false
  end.

Fixpoint pick_profiles (available : list Profile) (profile_names : list string)
  : list Profile :=
  match profile_names with
  | [] => []
  | n :: rest =>
      match List.find (has_name n) available with
      | Some p => p :: pick_profiles available rest
      | None => pick_profiles available rest
      end
  end.

(** CLI mode. The result is [None] when the function returns before
    calling the worker, and otherwise the arguments of the call with the
    machine the (synchronous) call ends in. *)
Definition search_from_file (env : Env) (oracle : Oracle) (disk : gmap string Node)
    (s : RunState) (filename : string) (delay : Q) (browser : string)
    (profile_names : option (list string)) : res (option (Thread * Machine)) :=
  match fst (load_from_file json_loads filename disk) with
  | Exc e => Exc e
  | Val loaded =>
      let fruits := default [] loaded in
      if negb (truthy fruits) then Val None
      else
        let profiles :=
          if String.eqb browser "chrome" && truthy (default [] profile_names)
          then pick_profiles (available_profiles env) (default [] profile_names)
          else [] in
        let th := mkThread fruits delay browser profiles in
        Val (Some (th, run_thread env oracle th s))
  end.
End Fruits.

(** ** Observations used in the statements *)

(** The [warning] field of a response, when it has one. *)
Definition response_warning (r : Response) : option string :=
  match body r with
  | StartedBody _ _ _ w => w
  | _ => None
  end.

(** The states of a run in the order in which they became visible. *)
Definition history (m : Machine) : list RunState := reverse (trace m).

(** The calls of [launch_browser], the terms typed and the number of
    searches submitted (the [enter] key pressed), read off the effects. *)
Fixpoint launches (es : list Effect) : list (string * option string * list Command) :=
  match es with
  | [] => []
  | ELaunch b d calls :: es' => (b, d, calls) :: launches es'
  | _ :: es' => launches es'
  end.

Fixpoint typed_terms (es : list Effect) : list string :=
  match es with
  | [] => []
  | EInput (Typewrite t _) :: es' => t :: typed_terms es'
  | _ :: es' => typed_terms es'
  end.

Fixpoint submitted (es : list Effect) : nat :=
  match es with
  | [] => 0
  | EInput (Press _) :: es' => S (submitted es')
  | _ :: es' => submitted es'
  end.

(** A command that selects a Chrome profile carries a
    [--profile-directory=...] word. *)
Definition words (c : Command) : list string :=
  match cmdline c with
  | Line s => split s
  | Argv l => l
  end.

Definition selects_profile (c : Command) : bool :=
  existsb (String.prefix "--profile-directory=") (words c).

(** The paths on which [automation_worker] is called. *)
Inductive worker_call (th : Thread) : Prop :=
  | call_from_start (env : Env) (data : StartRequest) (g : Globals) :
      spawned (start_automation env data g) = Some th -> worker_call th
  | call_from_cli (json_loads : string -> option (list string)) (env : Env)
      (oracle : Oracle) (disk : gmap string Node) (s : RunState) (filename : string)
      (delay : Q) (browser : string) (profile_names : option (list string))
      (m : Machine) :
      search_from_file json_loads env oracle disk s filename delay browser profile_names
        = Val (Some (th, m)) ->
      worker_call th.

(** ** A program logic for the worker

    [triple P c Qv Qe]: run from a machine satisfying [P], the computation
    [c] either returns a value and a machine satisfying [Qv], or raises an
    exception with a machine satisfying [Qe]. The computations being total
    functions, a triple is a statement of total correctness. *)
Definition triple {A} (P : Machine -> Prop) (c : M A)
    (Qv : A -> Machine -> Prop) (Qe : exn -> Machine -> Prop) : Prop :=
  forall m, P m ->
    match c m with
    | (Val a, m') => Qv a m'
    | (Exc e, m') => Qe e m'
    end.

(** [carries_with Inv E b c b']: the computation [c] takes the invariant
    [Inv] from bound [b] to bound [b'], whether it returns or raises, and
    raises only exceptions that satisfy [E]. *)
Definition carries_with {A} (Inv : nat -> Machine -> Prop) (E : exn -> Prop)
    (b : nat) (c : M A) (b' : nat) : Prop :=
  triple (Inv b) c (fun _ => Inv b') (fun e m => Inv b' m /\ E e).

(** The machine on which the [finally] block of the worker runs: after the
    body, and after the handler when the body raised. *)
Definition caught (body : M unit) (m : Machine) : Machine :=
  match body m with
  | (Val _, m') => m'
  | (Exc e, m') => snd (handler e m')
  end.

(** The machine after the reset block at the entry of the worker. *)
Definition reset (world : World) (total_searches : nat) (m : Machine) : Machine :=
  env_turn world
    (snapshot (mkMachine (set_progress 0.0 (set_completed 0
                            (set_total total_searches (shared m))))
                         0 (trace m) (effects m) (clock m))).

(** The machine after [completed += 1; state['completed'] = completed]. *)
Definition bump (m : Machine) : Machine :=
  mkMachine (set_completed (local_completed m + 1) (shared m))
            (local_completed m + 1) (trace m) (effects m) (clock m).

(** Assignments that leave the two counters alone, and effects other
    than the lines the worker's handler prints and the [enter] key that
    submits a search. *)
Definition neutral (f : RunState -> RunState) : Prop :=
  forall s, completed (f s) = completed s /\ total (f s) = total s.

Definition passive (e : Effect) : Prop :=
  match e with
  | EPrint (MsgLaunchError _) => True
  | EPrint _ => False
  | EInput (Press _) => False
  | _ => True
  end.

(** [chain T c tr]: every state of the trace [tr] (latest first) has total
    [T], and their [completed] fields decrease towards the past from at
    most [c]. *)
Fixpoint chain (T c : nat) (tr : list RunState) : Prop :=
  match tr with
  | [] => True
  | s :: tr' => total s = T /\ completed s <= c /\ chain T (completed s) tr'
  end.

(** The counting invariant of a run with total [T]: the shared counters
    agree with the worker's local ones, at most [b] searches are counted,
    the trace is a chain, and the searches counted are those submitted. *)
Definition counting (T b : nat) (m : Machine) : Prop :=
  total (shared m) = T
  /\ completed (shared m) = local_completed m
  /\ local_completed m <= b
  /\ chain T (local_completed m) (trace m)
  /\ submitted (effects m) = local_completed m.

(** No division error has been reported on the console. *)
Definition no_division_error (m : Machine) : Prop :=
  ~ In (EPrint (MsgAutomationError ZeroDivisionError)) (effects m).

(** A run nobody interrupts: no stop request arrives and no pyautogui
    call fails. *)
Definition quiet (oracle : Oracle) : Prop :=
  (forall k, stop_request oracle k = false)
  /\ (forall k, input_failure oracle k = None).

(** What a statement may ask of a world: that no other thread writes the
    state while the worker runs; that the only writes of other threads
    are those of stop requests; that no pyautogui call fails. *)
Definition alone (world : World) : Prop :=
  forall k s, interference world k s = [].

Definition only_stops (world : World) : Prop :=
  forall k s, interference world k s = []
              \/ (is_running s = true /\ interference world k s = [stop_state s]).

Definition unfailing (world : World) : Prop :=
  forall k, fault world k = None.

(** Every pause of a run with the given delay is one [time.sleep]
    accepts. *)
Definition pauses_return (env : Env) (world : World) (delay : Q) : Prop :=
  sleep_raises env 3 = false
  /\ sleep_raises env 0.5 = false
  /\ sleep_raises env 0.3 = false
  /\ sleep_raises env 0.2 = false
  /\ forall k, sleep_raises env (py_max 0.1 (float_add delay (uniform world k))) = false.

(** The clock advances. *)
Definition tick (m : Machine) : Machine :=
  mkMachine (shared m) (local_completed m) (trace m) (effects m) (S (clock m)).

(** [advance done m m']: from [m] to [m'] the worker stayed running on
    the same profile, launched nothing, typed and submitted the terms
    [done] in order, and every state it published shows that profile. *)
Definition advance (done : list string) (m m' : Machine) : Prop :=
  is_running (shared m') = true
  /\ current_profile (shared m') = current_profile (shared m)
  /\ launches (effects m') = launches (effects m)
  /\ typed_terms (effects m') = reverse done ++ typed_terms (effects m)
  /\ submitted (effects m') = length done + submitted (effects m)
  /\ exists new,
       trace m' = new ++ trace m
       /\ Forall (fun x => current_profile x = current_profile (shared m)) new.

(** ** Applying and restoring a profile selection *)

(** [", ".join(l)] *)
Fixpoint join (sep : string) (l : list string) : string :=
  match l with
  | [] => ""
  | [x] => x
  | x :: rest => x +:+ sep +:+ join sep rest
  end.

(** The body of the reply of [POST /api/apply-profiles]. *)
Record ApplyReply : Type := mkApplyReply {
  ap_message : string;
  ap_selected : list Profile;
  ap_warning : option string
}.

(** [profile.get('directory') in available_dirs], where [available_dirs]
    is the set of the directories of the discovered profiles. *)
Definition known_directory (available : list Profile) (profile : Profile) : bool :=
  bool_decide (directory profile ∈ map directory available).

(** The validation loop: the profiles kept and the names of those
    ignored, each list in the order of the request. *)
Fixpoint validate (available selected : list Profile)
    (valid_profiles : list Profile) (invalid_profiles : list string)
  : list Profile * list string :=
  match selected with
  | [] => (valid_profiles, invalid_profiles)
  | profile :: rest =>
      if known_directory available profile
      then validate available rest (valid_profiles ++ [profile]) invalid_profiles
      else validate available rest valid_profiles
             (invalid_profiles ++ [default "Unknown" (name profile)])
  end.

Section Selection.
(** The [json] functions on lists of profiles. *)
Variable json_dumps : list Profile -> string.
Variable json_loads : string -> option (list Profile).

Definition apply_profiles (env : Env) (selected : list Profile) (g : Globals)
    (disk : gmap string Node) : ApplyReply * Globals * gmap string Node :=
  let available := available_profiles env in
  let '(valid_profiles, invalid_profiles) := validate available selected [] [] in
  let g' := mkGlobals (state g) valid_profiles (worker_thread g) in
  (* Persist to file *)
  let disk' := fst (save_to_file json_dumps "selected_profiles.json" valid_profiles disk) in
  let warning :=
    if truthy invalid_profiles
    then Some ("Invalid profiles ignored: " +:+ join ", " invalid_profiles)
    else None in
  (mkApplyReply ("Applied " +:+ pretty (length valid_profiles) +:+ " profiles")
                valid_profiles warning,
   g', disk').

(** [GET /api/selected-profiles] *)
Definition get_selected_profiles (g : Globals) : list Profile :=
  selected_profiles_memory g.

(** Server mode of [main], up to [app.run]: the selection persisted by an
    earlier process is loaded into [selected_profiles_memory], which is
    empty when the module is loaded. *)
Definition startup (disk : gmap string Node) : res Globals :=
  match fst (load_from_file json_loads "selected_profiles.json" disk) with
  | Exc e => Exc e
  | Val persisted =>
      if truthy (default [] persisted)
      then Val (mkGlobals initial_state (default [] persisted) None)
      else Val (mkGlobals initial_state [] None)
  end.
End Selection.

(** ** Further observations on runs *)

(** The console output among the effects, and in it the lines of the
    worker's exception handler. *)
Fixpoint prints (es : list Effect) : list Message :=
  match es with
  | [] => []
  | EPrint msg :: es' => msg :: prints es'
  | _ :: es' => prints es'
  end.

Definition handler_line (msg : Message) : bool :=
  match msg with
  | MsgFailsafe => true
  | MsgAutomationError _ => true
  | _ => false
  end.

Definition handler_lines (es : list Effect) : list Message :=
  List.filter handler_line (prints es).

(** Effects other than a line of the handler, and assignments that touch
    the status and the two [current_...] fields only. *)
Definition silent (e : Effect) : Prop :=
  match e with
  | EPrint msg => handler_line msg = false
  | _ => True
  end.

Definition benign (f : RunState -> RunState) : Prop :=
  forall s, is_running (f s) = is_running s
            /\ completed (f s) = completed s
            /\ total (f s) = total s
            /\ progress (f s) = progress s.

(** A property of the machine that the steps around the counting of a
    search keep: the turns of the foreground thread, silent effects,
    benign assignments, and the publication of the state. *)
Definition ambient (world : World) (P : Machine -> Prop) : Prop :=
  (forall m, P m -> P (env_turn world m))
  /\ (forall e m, silent e -> P m -> P (snd (emit e m)))
  /\ (forall f m, benign f -> P m -> P (snd (assign f m)))
  /\ (forall m, P m -> P (snapshot m)).

(** The machines right after [completed += 1], reached from one that
    satisfies [P]. *)
Definition stepped (P : Machine -> Prop) (m1 : Machine) : Prop :=
  exists m, P m
            /\ m1 = mkMachine (shared m) (local_completed m + 1) (trace m)
                             (effects m) (clock m).

(** [ahead T k m]: the handler has printed nothing so far, and at least
    [k] of the [T] searches of the run are still to be counted. *)
Definition ahead (T k : nat) (m : Machine) : Prop :=
  handler_lines (effects m) = [] /\ local_completed m + k <= T.

(** [settled tr]: in the trace [tr] (latest first), a state that follows
    one with [is_running] false has [is_running] false too, and at most
    one search more counted. *)
Fixpoint settled (tr : list RunState) : Prop :=
  match tr with
  | [] => True
  | s :: tr' =>
      Forall (fun s' => is_running s' = false ->
                        is_running s = false /\ completed s <= completed s' + 1) tr'
      /\ settled tr'
  end.

(** [winding_down slack m]: once a published state had [is_running]
    false, the shared state has it false as well, and the worker has
    counted at most [slack] searches more than that state shows. *)
Definition winding_down (slack : nat) (m : Machine) : Prop :=
  completed (shared m) = local_completed m
  /\ Forall (fun s' => is_running s' = false ->
                       is_running (shared m) = false
                       /\ local_completed m <= completed s' + slack) (trace m)
  /\ settled (trace m).

(** [(completed / total) * 100] in floats, and the states whose
    [progress] is that number. *)
Definition percent (completed total : nat) : Q :=
  float_mul (round64 (inject_Z (Z.of_nat completed) / inject_Z (Z.of_nat total))) 100.

Definition fits (s : RunState) : Prop :=
  (progress s == percent (completed s) (total s))%Q.

Definition proportional (T : nat) (m : Machine) : Prop :=
  total (shared m) = T /\ fits (shared m) /\ Forall fits (trace m).



(** ** Discovery of the Chrome profiles: [ChromeProfileManager] *)

Module ChromeProfileManager.

(** The values [json.load] returns. A JSON object becomes a dict, given
    here by its items; the value of a key is that of the first item that
    has it. [JNull] is [None]. *)
Inductive PyFloat : Type :=
  | Finite (q : Q)
  | Infinite (negative : bool)
  | NaN.

#[warnings="-register-all"] Inductive Json : Type :=
  | JNull
  | JBool (b : bool)
  | JInt (z : Z)
  | JFloat (f : PyFloat)
  | JStr (s : string)
  | JList (l : list Json)
  | JDict (items : list (string * Json)).

(** [bool(v)] *)
Definition truth (v : Json) : bool :=
  match v with
  | JNull => false
  | JBool b => b
  | JInt z => negb (z =? 0)%Z
  | JFloat (Finite q) => negb (Qeq_bool q 0)
  | JFloat _ => true
  | JStr s => truthy_str s
  | JList l => truthy l
  | JDict items => truthy items
  end.

(** [type(v).__name__] *)
Definition type_name (v : Json) : string :=
  match v with
  | JNull => "NoneType"
  | JBool _ => "bool"
  | JInt _ => "int"
  | JFloat _ => "float"
  | JStr _ => "str"
  | JList _ => "list"
  | JDict _ => "dict"
  end.

(** The exceptions of the discovery code: those of the rest of the
    program, and the two that a document of an unexpected shape causes. *)
Inductive Raised : Type :=
  | Builtin (e : exn)
  | AttributeError (msg : string)
  | TypeError (msg : string).

Inductive outcome (A : Type) : Type :=
  | Returns (a : A)
  | Raises (e : Raised).
Arguments Returns {A} a.
Arguments Raises {A} e.

Fixpoint item (items : list (string * Json)) (key : string) : option Json :=
  match items with
  | [] => None
  | (k, v) :: rest => if String.eqb k key then Some v else item rest key
  end.

(** [v.get(key, dflt)]: only a dict has the method. *)
Definition get (v : Json) (key : string) (dflt : Json) : outcome Json :=
  match v with
  | JDict items => Returns (default dflt (item items key))
  | _ => Raises (AttributeError ("'" +:+ type_name v +:+ "' object has no attribute 'get'"))
  end.

(** [key in s] on strings: [key] occurs in [s]. *)
Fixpoint occurs (key s : string) : bool :=
  String.prefix key s
  || match s with
     | EmptyString => false
     | String _ s' => occurs key s'
     end.

(** [x == key] for a string [key]. *)
Definition equals_str (key : string) (x : Json) : bool :=
  match x with
  | JStr s => String.eqb s key
  | _ => false
  end.

(** [key in v] for a string [key]: a key of a dict, an element of a list,
    a part of a string; the other values are not containers. *)
Definition contains (v : Json) (key : string) : outcome bool :=
  match v with
  | JDict items => Returns (match item items key with Some _ => true | None => false end)
  | JList l => Returns (existsb (equals_str key) l)
  | JStr s => Returns (occurs key s)
  | _ => Raises (TypeError ("argument of type '" +:+ type_name v +:+ "' is not iterable"))
  end.

(** [v[key]] for a string [key]. *)
Definition getitem (v : Json) (key : string) : outcome Json :=
  match v with
  | JDict items =>
      match item items key with
      | Some x => Returns x
      | None => Raises (Builtin (KeyError key))
      end
  | JList _ => Raises (TypeError "list indices must be integers or slices, not str")
  | JStr _ => Raises (TypeError "string indices must be integers, not 'str'")
  | _ => Raises (TypeError ("'" +:+ type_name v +:+ "' object is not subscriptable"))
  end.

(** The paths of [pathlib]: [Path(s)], [p / s] and [str(p)]. *)
Class Pathlib (Path : Type) : Type := mkPathlib {
  Path_of : string -> Path;
  joinpath : Path -> string -> Path;
  str : Path -> string
}.

Declare Scope path_scope.
Delimit Scope path_scope with path.
Infix "/" := joinpath : path_scope.

(** What a path leads to: a directory, with the names [iterdir] yields in
    the order of the operating system ([None]: listing it raises
    [OSError]), or a regular file. *)
Inductive Entry : Type :=
  | Directory (listing : option (list string))
  | Regular (content : Node).

(** The world the manager looks at. The queries [exists] and [is_dir]
    answer from [entry]; [Path.home()] returns. *)
Record World (Path : Type) : Type := mkWorld {
  system_name : Platform;             (* platform.system() *)
  LOCALAPPDATA : option string;       (* os.environ.get('LOCALAPPDATA') *)
  home : Path;                        (* Path.home() *)
  entry : Path -> option Entry
}.
Arguments mkWorld {Path}.
Arguments system_name {Path}.
Arguments LOCALAPPDATA {Path}.
Arguments home {Path}.
Arguments entry {Path}.

Record Manager (Path : Type) : Type := mkManager {
  platform : Platform;
  user_data_dir : option Path
}.
Arguments mkManager {Path}.
Arguments platform {Path}.
Arguments user_data_dir {Path}.

(** An entry of the list [get_available_profiles] returns; the name is
    whatever the metadata holds under the key, a string or not. *)
Record Discovered : Type := mkDiscovered {
  name : Json;
  directory : string;
  path : string
}.

(** The lines printed on the console. *)
Inductive Notice : Type :=
  | NoticeNotFound (dir : string)     (* "Chrome user data directory not found: ..." *)
  | NoticeLocalState (e : exn).       (* "Warning: Could not read Local State: ..." *)

Section Manager.
Context {Path : Type} `{Pathlib Path}.
Variable json_loads : string -> option Json.
Variable w : World Path.

Local Open Scope path_scope.

Definition exists_ (p : Path) : bool :=
  match entry w p with Some _ => true | None => false end.

Definition is_dir (p : Path) : bool :=
  match entry w p with Some (Directory _) => true | _ => false end.

Definition iterdir (p : Path) : outcome (list string) :=
  match entry w p with
  | Some (Directory (Some names)) => Returns names
  | Some (Directory None) => Raises (Builtin (IOError "Permission denied"))
  | Some (Regular _) => Raises (Builtin (IOError "Not a directory"))
  | None => Raises (Builtin (IOError "No such file or directory"))
  end.

(** [with open(p, 'r', encoding='utf-8') as f: json.load(f)] *)
Definition load_json (p : Path) : res Json :=
  match entry w p with
  | Some (Regular (File bytes)) =>
      match read_text bytes with
      | Exc e => Exc e
      | Val text => json_load json_loads text
      end
  | Some (Regular Unopenable) => Exc (IOError "Permission denied")
  | Some (Directory _) => Exc (IOError "Is a directory")
  | None => Exc (IOError "No such file or directory")
  end.

Definition _find_chrome_user_data_dir (self_platform : Platform) : option Path :=
  let home := home w in
  match self_platform with
  | Windows =>
      (* Windows: %LOCALAPPDATA%\Google\Chrome\User Data *)
      match LOCALAPPDATA w with
      | Some local_appdata =>
          if truthy_str local_appdata then
            let chrome_dir := Path_of local_appdata / "Google" / "Chrome" / "User Data" in
            if exists_ chrome_dir then Some chrome_dir else None
          else None
      | None => None
      end
  | Darwin =>
      (* macOS: ~/Library/Application Support/Google/Chrome *)
      let chrome_dir := home / "Library" / "Application Support" / "Google" / "Chrome" in
      if exists_ chrome_dir then Some chrome_dir else None
  | Linux =>
      (* Linux: Try multiple possible locations *)
      let possible_dirs :=
        [home / ".config" / "google-chrome";
         home / ".config" / "chromium";
         home / ".config" / "chrome"] in
      List.find exists_ possible_dirs
  | OtherSystem => None
  end.

(** [ChromeProfileManager()] *)
Definition init : Manager Path :=
  let self_platform := system_name w in
  mkManager self_platform (_find_chrome_user_data_dir self_platform).

(** The [profile_info_cache] after the attempt to read [Local State]. *)
Definition read_info_cache (base : Path) : outcome Json * list Notice :=
  let local_state_file := base / "Local State" in
  if exists_ local_state_file then
    match load_json local_state_file with
    | Val local_state =>
        match get local_state "profile" (JDict []) with
        | Returns profile =>
            match get profile "info_cache" (JDict []) with
            | Returns info_cache => (Returns info_cache, [])
            | Raises e => (Raises e, [])
            end
        | Raises e => (Raises e, [])
        end
    (* except (json.JSONDecodeError, KeyError, IOError) as e: *)
    | Exc JSONDecodeError => (Returns (JDict []), [NoticeLocalState JSONDecodeError])
    | Exc (KeyError k) => (Returns (JDict []), [NoticeLocalState (KeyError k)])
    | Exc (IOError msg) => (Returns (JDict []), [NoticeLocalState (IOError msg)])
    | Exc e => (Raises (Builtin e), [])
    end
  else (Returns (JDict []), []).

(** [item.is_dir() and item.name.startswith('Profile ')] *)
Definition profile_directory (base : Path) (item_name : string) : bool :=
  is_dir (base / item_name) && String.prefix "Profile " item_name.

(** [for item in self.user_data_dir.iterdir(): ...] *)
Fixpoint scan_items (base : Path) (items : list string) (profile_dirs : list string)
  : list string :=
  match items with
  | [] => profile_dirs
  | item_name :: rest =>
      scan_items base rest
        (if profile_directory base item_name
         then profile_dirs ++ [item_name]
         else profile_dirs)
  end.

(** Scan for profile directories. *)
Definition scan (base : Path) : outcome (list string) :=
  (* Always check for Default profile *)
  let default_dir := base / "Default" in
  let profile_dirs :=
    if exists_ default_dir && is_dir default_dir then ["Default"] else [] in
  (* Look for Profile 1, Profile 2, etc. *)
  match iterdir base with
  | Returns items => Returns (scan_items base items profile_dirs)
  | Raises e => Raises e
  end.

(** 1. Try Local State info_cache; [JNull] is the initial [name = None]. *)
Definition cache_name (profile_info_cache : Json) (profile_dir : string) : outcome Json :=
  match contains profile_info_cache profile_dir with
  | Raises e => Raises e
  | Returns false => Returns JNull
  | Returns true =>
      match getitem profile_info_cache profile_dir with
      | Raises e => Raises e
      | Returns cache_info =>
          match cache_info with
          | JDict _ =>
              match get cache_info "gaia_name" JNull with
              | Raises e => Raises e
              | Returns gaia_name => get cache_info "name" gaia_name
              end
          | _ => Returns JNull
          end
      end
  end.

(** 2. Try reading Preferences file *)
Definition prefs_name (profile_path : Path) (name : Json) : outcome Json :=
  if negb (truth name) then
    let prefs_file := profile_path / "Preferences" in
    if exists_ prefs_file then
      match load_json prefs_file with
      | Val prefs =>
          match get prefs "profile" (JDict []) with
          | Raises e => Raises e
          | Returns profile_info =>
              match get profile_info "name" JNull with
              | Raises e => Raises e
              | Returns n =>
                  if truth n then Returns n else get profile_info "gaia_name" JNull
              end
          end
      (* except (json.JSONDecodeError, IOError): pass *)
      | Exc JSONDecodeError => Returns name
      | Exc (IOError _) => Returns name
      | Exc e => Raises (Builtin e)
      end
    else Returns name
  else Returns name.

(** Build profile information *)
Fixpoint build (base : Path) (profile_info_cache : Json) (profile_dirs : list string)
    (profiles : list Discovered) : outcome (list Discovered) :=
  match profile_dirs with
  | [] => Returns profiles
  | profile_dir :: rest =>
      let profile_path := base / profile_dir in
      match cache_name profile_info_cache profile_dir with
      | Raises e => Raises e
      | Returns name =>
          match prefs_name profile_path name with
          | Raises e => Raises e
          | Returns name =>
              (* 3. Fallback to directory name *)
              let name := if negb (truth name) then JStr profile_dir else name in
              build base profile_info_cache rest
                    (profiles ++ [mkDiscovered name profile_dir (str profile_path)])
          end
      end
  end.

(** The part of [get_available_profiles] after [Local State] was read. *)
Definition collect (base : Path) (profile_info_cache : Json) : outcome (list Discovered) :=
  match scan base with
  | Raises e => Raises e
  | Returns profile_dirs => build base profile_info_cache profile_dirs []
  end.

Definition get_available_profiles (self : Manager Path)
  : outcome (list Discovered) * list Notice :=
  match user_data_dir self with
  | None => (Returns [], [NoticeNotFound "None"])
  | Some base =>
      if negb (exists_ base) then (Returns [], [NoticeNotFound (str base)])
      else
        (* Try to read Local State for profile info *)
        match read_info_cache base with
        | (Raises e, notices) => (Raises e, notices)
        | (Returns profile_info_cache, notices) =>
            (collect base profile_info_cache, notices)
        end
  end.

(** [GET /api/profiles] and [POST /api/profiles/refresh]: the list in the
    reply, or the exception that escapes the handler. *)
Definition get_profiles : outcome (list Discovered) * list Notice :=
  let manager := init in
  get_available_profiles manager.
End Manager.
End ChromeProfileManager.

(** ** Sample inputs

    Concrete environments, requests and states on which the statements
    below are instantiated. *)

Definition default_profile : Profile :=
  mkProfile (Some "Me") (Some "Default") (Some "/home/u/.config/google-chrome/Default").

Definition work_profile : Profile :=
  mkProfile (Some "Work") (Some "Profile 1")
            (Some "/home/u/.config/google-chrome/Profile 1").

Definition sample_env : Env :=
  mkEnv Linux (Some ":0") [work_profile; default_profile] (fun _ => Started)
        (fun q => Qle_bool 9223372037 q).

Definition sample_request : StartRequest :=
  mkStartRequest ["apple"; "banana"] (Some 0.2%Q) None [] true.

Definition busy_globals : Globals :=
  mkGlobals (mkRunState true "Searching for: kiwi" 50 "kiwi" "Me" 1 2)
            [] (Some (mkThread ["kiwi"; "plum"] 3.0%Q "firefox" [])).

Definition idle_globals : Globals := mkGlobals initial_state [] None.

Definition sample_reply : Response :=
  mkResponse 202
    (StartedBody "Automation started" 2 (Some ["Me"])
       (Some "Delay was below minimum (0.5s), set to 3.0s")).

Definition sample_thread : Thread :=
  mkThread ["apple"; "banana"] 3.0%Q "chrome" [default_profile].

(** A run on Firefox, hence without profiles, and the state an accepted
    start request for it leaves. *)
Definition firefox_thread : Thread :=
  mkThread ["apple"; "banana"] 3.0%Q "firefox" [].

Definition started_state : RunState :=
  mkRunState true "Starting automation..." 0 "" "" 0 2.

(** Nothing interferes, or a stop request is served right after the first
    search is counted (the worker's step 14), before the pause that
    follows it. *)
Definition undisturbed : Oracle :=
  mkOracle (fun _ => false) (fun _ => None) (fun _ => 0.3%Q).

Definition stop_after_first_search : Oracle :=
  mkOracle (fun k => Nat.eqb k 14) (fun _ => None) (fun _ => 0.3%Q).

(** A working directory whose [fruits.json] holds the single byte 0xFF,
    which is not UTF-8. *)
Definition corrupt_disk : gmap string Node :=
  {[ "fruits.json" := File (String (ascii_of_nat 255) EmptyString) ]}.

(** The Firefox run with that stop request. *)
Definition stopped_run : Machine :=
  run_thread sample_env stop_after_first_search firefox_thread started_state.

(** A profile dict without the key ['name'], as a request body may hold. *)
Definition nameless_profile : Profile := mkProfile None (Some "Profile 7") None.

Definition nameless_request : StartRequest :=
  mkStartRequest ["apple"] None None [nameless_profile] false.

Definition firefox_request : StartRequest :=
  mkStartRequest ["apple"; "banana"] (Some 0.2%Q) (Some "firefox") [work_profile] true.

(** The sample environment without [DISPLAY]. *)
Definition headless_env : Env :=
  mkEnv Linux None [work_profile; default_profile] (fun _ => Started)
        (fun q => Qle_bool 9223372037 q).

Definition headless_reply : Response :=
  mkResponse 202
    (StartedBody "Automation started" 2 (Some ["Me"])
       (Some "Warning: No display detected. Automation may fail on headless systems.")).

(** A printer for lists of terms that need no escaping, in the layout of
    [json.dump(..., indent=2)], and a parser that knows two documents. *)
Definition newline : string := String (ascii_of_nat 10) EmptyString.

Definition print_terms (l : list string) : string :=
  match l with
  | [] => "[]"
  | _ =>
      "[" +:+ newline
      +:+ join ("," +:+ newline) (map (fun t => "  " +:+ dquote +:+ t +:+ dquote) l)
      +:+ newline +:+ "]"
  end.

Definition sample_loads (text : string) : option (list string) :=
  if String.eqb text (print_terms ["apple"; "banana"]) then Some ["apple"; "banana"]
  else if String.eqb text "[]" then Some []
  else None.

(** Stand-ins for the [json] functions on profile lists: the document of
    one selection, and a parser that knows it. *)
Definition selection_text : string := "[work]".

Definition sample_profiles_dumps (l : list Profile) : string := selection_text.

Definition sample_profiles_loads (text : string) : option (list Profile) :=
  if String.eqb text selection_text then Some [work_profile] else None.

Definition stale_profile : Profile :=
  mkProfile (Some "Old") (Some "Profile 9") None.

Definition locked_disk : gmap string Node := {[ "fruits.json" := Unopenable ]}.

(** A stored list of terms for CLI mode. *)
Definition fruits_disk : gmap string Node :=
  {[ "fruits.json" := File (print_terms ["apple"; "banana"]) ]}.


(** The failsafe is triggered by the third pyautogui call of the first
    search, at the worker's step 11. *)
Definition failsafe_at_typing : Oracle :=
  mkOracle (fun _ => false) (fun k => if Nat.eqb k 11 then Some Failsafe else None)
           (fun _ => 0.3%Q).

(** POSIX paths written as strings, and a user data directory of Chrome
    on Linux with two profiles; the files stand for their JSON content,
    which the stand-in for [json.load] knows. *)
Instance posix_paths : ChromeProfileManager.Pathlib string :=
  ChromeProfileManager.mkPathlib string (fun s => s) (fun p s => p +:+ "/" +:+ s)
                                 (fun p => p).

Definition chrome_dir : string := "/home/u/.config/google-chrome".

Definition sample_tree (local_state : Node) : gmap string ChromeProfileManager.Entry :=
  list_to_map
    [(chrome_dir,
      ChromeProfileManager.Directory
        (Some ["Local State"; "Profile 1"; "Default"; "Crashpad"; "Profile.txt"]));
     (chrome_dir +:+ "/Local State", ChromeProfileManager.Regular local_state);
     (chrome_dir +:+ "/Default", ChromeProfileManager.Directory (Some ["Preferences"]));
     (chrome_dir +:+ "/Default/Preferences",
      ChromeProfileManager.Regular (File "{prefs of Default}"));
     (chrome_dir +:+ "/Profile 1", ChromeProfileManager.Directory (Some ["Preferences"]));
     (chrome_dir +:+ "/Profile 1/Preferences",
      ChromeProfileManager.Regular (File "{prefs of Profile 1}"));
     (chrome_dir +:+ "/Crashpad", ChromeProfileManager.Directory (Some []));
     (chrome_dir +:+ "/Profile.txt", ChromeProfileManager.Regular (File ""))].

Definition sample_world (local_state : Node) : ChromeProfileManager.World string :=
  ChromeProfileManager.mkWorld Linux None "/home/u"
    (fun p => sample_tree local_state !! p).

Definition sample_json (text : string) : option ChromeProfileManager.Json :=
  if String.eqb text "{local state}" then
    Some (ChromeProfileManager.JDict
            [("profile",
              ChromeProfileManager.JDict
                [("info_cache",
                  ChromeProfileManager.JDict
                    [("Default",
                      ChromeProfileManager.JDict
                        [("name", ChromeProfileManager.JStr "Me")])])])])
  else if String.eqb text "{prefs of Profile 1}" then
    Some (ChromeProfileManager.JDict
            [("profile",
              ChromeProfileManager.JDict
                [("name", ChromeProfileManager.JStr "");
                 ("gaia_name", ChromeProfileManager.JStr "Work")])])
  else if String.eqb text "[]" then Some (ChromeProfileManager.JList [])
  else None.

(** A run on three terms, whose progress is not a float exactly. *)
Definition three_terms_thread : Thread :=
  mkThread ["apple"; "banana"; "cherry"] 3.0%Q "firefox" [].

(** While the first worker pauses after its first search (its step 15),
    the server takes a stop request and then a start request for one
    term on Firefox: the stop clears [is_running], so the start passes
    the guard although the first worker is still alive. *)
Definition second_request : StartRequest :=
  mkStartRequest ["kiwi"] None (Some "firefox") [] false.

Definition overlapping_start : World :=
  server sample_env []
         (fun k => if Nat.eqb k 15 then [PostStop; PostStart second_request] else [])
         (fun _ => None) (fun _ => 0.3%Q).

(** A stop request served during the first search, after its first
    key stroke (the worker's step 8). *)
Definition stop_during_first_search : Oracle :=
  mkOracle (fun k => Nat.eqb k 8) (fun _ => None) (fun _ => 0.3%Q).

(** * Properties *)

(** ** Starting and stopping *)

Lemma truthy_length {A} (l : list A) :
  (if truthy l then length l else 1) = Nat.max 1 (length l).
Proof. destruct l as [|x [|y l]]; reflexivity. Qed.

Lemma truthy_nonempty {A} (l : list A) : truthy l = true <-> l <> [].
Proof. destruct l; simpl; split; congruence. Qed.

Lemma Qltb_lt (a b : Q) : Qltb a b = true <-> (a < b)%Q.
Proof.
  unfold Qltb. rewrite negb_true_iff, <- not_true_iff_false, Qle_bool_iff.
  split; [apply Qnot_le_lt | apply Qlt_not_le].
Qed.

Lemma Qltb_ge (a b : Q) : Qltb a b = false <-> (b <= a)%Q.
Proof. unfold Qltb. rewrite negb_false_iff. apply Qle_bool_iff. Qed.

(** C4. A start request received while a run is active is answered with
    the 400 error "Automation is already running"; the state, the
    remembered profile selection and the worker-thread reference are
    unchanged and no thread is started. *)
Theorem start_while_running (env : Env) (data : StartRequest) (g : Globals) :
  is_running (state g) = true ->
  start_automation env data g
  = mkStartOutcome (Val (mkResponse 400 (ErrorBody "Automation is already running")))
                   g None.
Proof. intros Hrun. unfold start_automation. rewrite Hrun. reflexivity. Qed.

Lemma start_while_running_witness :
  is_running (state busy_globals) = true
  /\ globals_after (start_automation sample_env sample_request busy_globals) = busy_globals
  /\ spawned (start_automation sample_env sample_request busy_globals) = None.
Proof.
  split; [reflexivity|].
  rewrite (start_while_running sample_env sample_request busy_globals); [|reflexivity].
  split; reflexivity.
Defined.

(** C7. Stopping is idempotent: a stop request always answers "Stopping";
    on an active run it clears [is_running] and sets the status
    "Stopping automation...", on an idle controller it changes nothing;
    every further request changes nothing and answers the same. *)
Theorem stop_idempotent (g : Globals) (n : nat) :
  let ack := mkResponse 200 (MessageBody "Stopping") in
  let g1 := snd (stop_automation g) in
  let repeated := Nat.iter n (fun x => snd (stop_automation x)) g1 in
  fst (stop_automation g) = ack
  /\ fst (stop_automation repeated) = ack
  /\ snd (stop_automation repeated) = g1
  /\ is_running (state g1) = false
  /\ g1 = (if is_running (state g)
           then mkGlobals (set_status "Stopping automation..."
                             (set_is_running false (state g)))
                          (selected_profiles_memory g) (worker_thread g)
           else g).
Proof.
  cbv zeta.
  assert (Hstopped : is_running (state (snd (stop_automation g))) = false).
  { destruct g as [[run st pr cs cp c t] mem w]. destruct run; reflexivity. }
  assert (Hfix : forall x, is_running (state x) = false -> snd (stop_automation x) = x).
  { intros [[run st pr cs cp c t] mem w]. cbn. intros ->. reflexivity. }
  assert (Hiter : Nat.iter n (fun x => snd (stop_automation x)) (snd (stop_automation g))
                  = snd (stop_automation g)).
  { induction n as [|n IH]; [reflexivity|]. rewrite Nat.iter_succ, IH.
    apply Hfix, Hstopped. }
  rewrite Hiter. repeat split.
  - apply Hfix, Hstopped.
  - exact Hstopped.
  - destruct g as [[run st pr cs cp c t] mem w]. destruct run; reflexivity.
Qed.

(** The delay a request runs with, and the profiles it resolves to. *)
Lemma start_spawned (env : Env) (data : StartRequest) (g : Globals) (th : Thread) :
  spawned (start_automation env data g) = Some th ->
  let d := default 3.0%Q (delay data) in
  let b := default "chrome" (browser data) in
  let ps := resolve_profiles env g b (selectedProfiles data) (useDefaultIfNoProfile data) in
  is_running (state g) = false
  /\ truthy (fruits data) = true
  /\ (String.eqb b "chrome" = true -> truthy ps = true)
  /\ th = mkThread (fruits data) (if Qltb d 0.5 then 3.0%Q else d) b ps
  /\ worker_thread (globals_after (start_automation env data g)) = Some th
  /\ selected_profiles_memory (globals_after (start_automation env data g))
     = selected_profiles_memory g
  /\ state (globals_after (start_automation env data g))
     = mkRunState true "Starting automation..." 0 (current_search (state g))
         (current_profile (state g)) 0
         (length (fruits data) * (if truthy ps then length ps else 1)).
Proof.
  unfold start_automation.
  destruct (is_running (state g)) eqn:Hrun; [discriminate|].
  destruct (truthy (fruits data)) eqn:Hfruits; [|discriminate].
  cbn [negb].
  destruct (Qltb (default 3.0%Q (delay data)) 0.5) eqn:Hlow;
    (destruct (String.eqb (default "chrome" (browser data)) "chrome"
               && negb (truthy (resolve_profiles env g (default "chrome" (browser data))
                                  (selectedProfiles data) (useDefaultIfNoProfile data))))
       eqn:Hsel; [discriminate|]);
    (match goal with
     | |- context [match ?x with Val _ => _ | Exc _ => _ end] => destruct x
     end);
    cbn; intros [= <-]; repeat split; try reflexivity;
    intros Hb; rewrite Hb in Hsel; cbn in Hsel; apply negb_false_iff in Hsel; exact Hsel.
Qed.

Lemma start_reply_warning (env : Env) (data : StartRequest) (g : Globals)
    (resp : Response) :
  reply (start_automation env data g) = Val resp -> code resp = 202 ->
  (exists th, spawned (start_automation env data g) = Some th)
  /\ (Qltb (default 3.0%Q (delay data)) 0.5 = true ->
      exists w, response_warning resp = Some w).
Proof.
  unfold start_automation.
  destruct (is_running (state g)); [intros [= <-]; discriminate|].
  destruct (truthy (fruits data)); cbn [negb]; [|intros [= <-]; discriminate].
  destruct (Qltb (default 3.0%Q (delay data)) 0.5) eqn:Hlow;
    (destruct (String.eqb (default "chrome" (browser data)) "chrome"
               && negb (truthy (resolve_profiles env g (default "chrome" (browser data))
                                  (selectedProfiles data) (useDefaultIfNoProfile data))));
     [intros [= <-]; discriminate|]);
    (match goal with
     | |- context [match ?x with Val _ => _ | Exc _ => _ end] => destruct x
     end);
    cbn; try discriminate; intros [= <-] _; (split; [eauto|]); try discriminate;
    intros _; destruct (system env); cbn; eauto;
    destruct (truthy_opt (DISPLAY env)); cbn; eauto.
Qed.

(** C5. When a start request is accepted and its delay is below 0.5
    seconds, the run it starts uses 3.0 seconds and the response carries a
    warning; when its delay is at least 0.5 the run uses that delay. *)
Theorem delay_below_floor (env : Env) (data : StartRequest) (g : Globals)
    (d : Q) (resp : Response) :
  delay data = Some d ->
  reply (start_automation env data g) = Val resp ->
  code resp = 202 ->
  exists th,
    spawned (start_automation env data g) = Some th
    /\ if Qlt_le_dec d 0.5
       then th_delay th = 3.0%Q /\ exists w, response_warning resp = Some w
       else th_delay th = d.
Proof.
  intros Hd Hreply Hcode.
  destruct (start_reply_warning env data g resp Hreply Hcode) as [[th Hth] Hwarn].
  exists th. split; [exact Hth|].
  destruct (start_spawned env data g th Hth) as (_ & _ & _ & -> & _).
  rewrite Hd in *. cbn [default from_option th_delay] in *. unfold id in *.
  destruct (Qlt_le_dec d 0.5) as [Hlt|Hge].
  - apply Qltb_lt in Hlt. rewrite Hlt. split; [reflexivity|]. apply Hwarn, Hlt.
  - apply Qltb_ge in Hge. rewrite Hge. reflexivity.
Qed.

Lemma delay_below_floor_witness :
  delay sample_request = Some 0.2%Q
  /\ reply (start_automation sample_env sample_request idle_globals) = Val sample_reply
  /\ code sample_reply = 202
  /\ exists th,
       spawned (start_automation sample_env sample_request idle_globals) = Some th
       /\ if Qlt_le_dec 0.2 0.5
          then th_delay th = 3.0%Q /\ exists w, response_warning sample_reply = Some w
          else th_delay th = 0.2%Q.
Proof.
  split; [reflexivity|]. split; [reflexivity|]. split; [reflexivity|].
  apply (delay_below_floor sample_env sample_request idle_globals 0.2%Q sample_reply);
    reflexivity.
Defined.

Lemma start_accepts (env : Env) (data : StartRequest) (g : Globals) :
  let d := default 3.0%Q (delay data) in
  let b := default "chrome" (browser data) in
  let ps := resolve_profiles env g b (selectedProfiles data) (useDefaultIfNoProfile data) in
  is_running (state g) = false ->
  truthy (fruits data) = true ->
  String.eqb b "chrome" && negb (truthy ps) = false ->
  spawned (start_automation env data g)
  = Some (mkThread (fruits data) (if Qltb d 0.5 then 3.0%Q else d) b ps).
Proof.
  cbv zeta. intros Hrun Hfruits Hsel. unfold start_automation.
  rewrite Hrun, Hfruits. cbn [negb].
  destruct (Qltb (default 3.0%Q (delay data)) 0.5); rewrite Hsel;
    (match goal with
     | |- context [match ?x with Val _ => _ | Exc _ => _ end] => destruct x
     end); reflexivity.
Qed.

Lemma start_refuses_no_profiles (env : Env) (data : StartRequest) (g : Globals) :
  let b := default "chrome" (browser data) in
  let ps := resolve_profiles env g b (selectedProfiles data) (useDefaultIfNoProfile data) in
  is_running (state g) = false ->
  truthy (fruits data) = true ->
  String.eqb b "chrome" && negb (truthy ps) = true ->
  start_automation env data g
  = refuse g ("No Chrome profiles selected. Provide selectedProfiles in "
              +:+ "request body or call /api/apply-profiles first.").
Proof.
  cbv zeta. intros Hrun Hfruits Hsel. unfold start_automation.
  rewrite Hrun, Hfruits. cbn [negb].
  destruct (Qltb (default 3.0%Q (delay data)) 0.5); rewrite Hsel; reflexivity.
Qed.

Lemma is_default_spec (p : Profile) :
  is_default p = true <-> directory p = Some "Default".
Proof.
  unfold is_default. destruct (directory p) as [d|]; [|split; discriminate].
  rewrite String.eqb_eq. split; congruence.
Qed.

(** C6. Profile resolution of a start request for Chrome that passes the
    two earlier checks (no run active, some terms given): a non-empty
    [selectedProfiles] of the body is used; else a non-empty remembered
    selection; else, with [useDefaultIfNoProfile], a discovered profile
    whose directory is "Default", alone; and when none of these yields a
    profile the request is refused with the 400 error "No Chrome profiles
    selected...", nothing being changed or started. *)
Theorem profile_priority (env : Env) (data : StartRequest) (g : Globals) :
  is_running (state g) = false ->
  fruits data <> [] ->
  default "chrome" (browser data) = "chrome" ->
  let out := start_automation env data g in
  let used ps := exists th, spawned out = Some th /\ th_profiles th = ps in
  (selectedProfiles data <> [] -> used (selectedProfiles data))
  /\ (selectedProfiles data = [] -> selected_profiles_memory g <> [] ->
      used (selected_profiles_memory g))
  /\ (selectedProfiles data = [] -> selected_profiles_memory g = [] ->
      useDefaultIfNoProfile data = true ->
      (exists p, In p (available_profiles env) /\ directory p = Some "Default") ->
      exists p, In p (available_profiles env) /\ directory p = Some "Default"
                /\ used [p])
  /\ (selectedProfiles data = [] -> selected_profiles_memory g = [] ->
      (useDefaultIfNoProfile data = false
       \/ forall p, In p (available_profiles env) -> directory p <> Some "Default") ->
      out = mkStartOutcome
              (Val (mkResponse 400
                      (ErrorBody ("No Chrome profiles selected. Provide selectedProfiles in "
                                  +:+ "request body or call /api/apply-profiles first."))))
              g None).
Proof.
  intros Hrun Hfruits Hb out used. apply truthy_nonempty in Hfruits.
  assert (Hused : forall ps,
             resolve_profiles env g "chrome" (selectedProfiles data)
               (useDefaultIfNoProfile data) = ps ->
             truthy ps = true -> used ps).
  { intros ps Hps Hne. eexists. split.
    - apply start_accepts; [assumption..|].
      rewrite Hb, Hps, Hne. reflexivity.
    - cbn. rewrite Hb. exact Hps. }
  repeat split.
  - intros Hreq. apply truthy_nonempty in Hreq. apply Hused; [|exact Hreq].
    unfold resolve_profiles. cbn. rewrite Hreq. reflexivity.
  - intros Hreq Hmem. apply truthy_nonempty in Hmem. apply Hused; [|exact Hmem].
    unfold resolve_profiles. cbn. rewrite Hreq, Hmem. reflexivity.
  - intros Hreq Hmem Hdef [p [Hin Hdir]].
    destruct (List.find is_default (available_profiles env)) as [p'|] eqn:Hfind.
    + destruct (find_some _ _ Hfind) as [Hin' Hdir']. apply is_default_spec in Hdir'.
      exists p'. repeat split; [assumption..|]. apply Hused; [|reflexivity].
      unfold resolve_profiles. cbn. rewrite Hreq, Hmem, Hdef, Hfind. reflexivity.
    + apply is_default_spec in Hdir.
      rewrite (find_none _ _ Hfind p Hin) in Hdir. discriminate.
  - intros Hreq Hmem Hnone. subst out.
    rewrite start_refuses_no_profiles; [reflexivity|assumption..|].
    rewrite Hb. unfold resolve_profiles. cbn. rewrite Hreq, Hmem. cbn.
    destruct Hnone as [->|Hnone]; [reflexivity|].
    destruct (useDefaultIfNoProfile data); [|reflexivity].
    destruct (List.find is_default (available_profiles env)) as [p'|] eqn:Hfind;
      [|reflexivity].
    destruct (find_some _ _ Hfind) as [Hin' Hdir']. apply is_default_spec in Hdir'.
    destruct (Hnone p' Hin' Hdir').
Qed.

Lemma profile_priority_witness :
  is_running (state idle_globals) = false
  /\ fruits sample_request <> []
  /\ default "chrome" (browser sample_request) = "chrome"
  /\ exists th,
       spawned (start_automation sample_env sample_request idle_globals) = Some th
       /\ th_profiles th = [default_profile].
Proof.
  split; [reflexivity|]. split; [discriminate|]. split; [reflexivity|].
  destruct (profile_priority sample_env sample_request idle_globals)
    as (_ & _ & Hdefault & _); [reflexivity|discriminate|reflexivity|].
  destruct Hdefault as (p & Hin & Hdir & th & Hth & Hps);
    [reflexivity..| |].
  - exists default_profile. split; [right; left; reflexivity|reflexivity].
  - exists th. split; [exact Hth|]. rewrite Hps.
    destruct Hin as [<-|[<-|[]]]; [discriminate Hdir|reflexivity].
Defined.

(** ** Rules of the program logic *)

Lemma triple_ret {A} (a : A) (Qv : A -> Machine -> Prop) (Qe : exn -> Machine -> Prop) :
  triple (Qv a) (ret a) Qv Qe.
Proof. intros m Hm. exact Hm. Qed.

Lemma triple_raise {A} (e : exn) (Qv : A -> Machine -> Prop)
    (Qe : exn -> Machine -> Prop) :
  triple (Qe e) (raise e) Qv Qe.
Proof. intros m Hm. exact Hm. Qed.

Lemma triple_bind {A B} (P : Machine -> Prop) (R : A -> Machine -> Prop)
    (c : M A) (k : A -> M B) (Qv : B -> Machine -> Prop) (Qe : exn -> Machine -> Prop) :
  triple P c R Qe ->
  (forall a, triple (R a) (k a) Qv Qe) ->
  triple P (bind c k) Qv Qe.
Proof.
  intros Hc Hk m Hm. unfold bind. specialize (Hc m Hm).
  destruct (c m) as [[a|e] m']; [apply Hk, Hc | exact Hc].
Qed.

Lemma triple_conseq {A} (P P' : Machine -> Prop) (c : M A)
    (Qv Qv' : A -> Machine -> Prop) (Qe Qe' : exn -> Machine -> Prop) :
  triple P' c Qv' Qe' ->
  (forall m, P m -> P' m) ->
  (forall a m, Qv' a m -> Qv a m) ->
  (forall e m, Qe' e m -> Qe e m) ->
  triple P c Qv Qe.
Proof.
  intros Hc HP HQv HQe m Hm. specialize (Hc m (HP m Hm)).
  destruct (c m) as [[a|e] m']; auto.
Qed.

(** The loop rule: [J l] holds when the elements [l] remain to be
    visited; the loop ends in [Q] when the list is exhausted or the body
    breaks. *)
Lemma triple_for_each {A} (J : list A -> Machine -> Prop) (Q : Machine -> Prop)
    (Qe : exn -> Machine -> Prop) (body : A -> M Flow) (l : list A) :
  (forall x l', triple (J (x :: l')) (body x)
                  (fun f m => match f with Next => J l' m | Break => Q m end) Qe) ->
  (forall m, J [] m -> Q m) ->
  triple (J l) (for_each body l) (fun _ => Q) Qe.
Proof.
  intros Hbody Hend. induction l as [|x l IH]; cbn [for_each].
  - intros m Hm. apply Hend, Hm.
  - eapply triple_bind; [apply Hbody|].
    intros [|]; [exact IH | intros m Hm; exact Hm].
Qed.

(** The [finally] block always runs, on the machine [caught] describes. *)
Lemma try_except_finally_caught (body final : M unit) (m : Machine) :
  try_except_finally body final m = final (caught body m).
Proof.
  unfold try_except_finally, caught.
  destruct (body m) as [[[]|e] m']; [reflexivity|].
  unfold bind. destruct e; reflexivity.
Qed.

Lemma automation_worker_unfold (env : Env) (world : World) (fruits : list string)
    (delay : Q) (browser : string) (profiles : list Profile) (m : Machine) :
  let T := worker_total fruits profiles in
  automation_worker env world fruits delay browser profiles m
  = cleanup T
      (caught (for_each (visit env world fruits delay browser T)
                        (effective_profiles profiles))
              (reset world T m)).
Proof.
  cbv zeta. unfold automation_worker. fold (worker_total fruits profiles).
  unfold bind at 1. cbn [set_local_completed].
  unfold bind at 1. rewrite <- try_except_finally_caught. reflexivity.
Qed.

(** The launcher prints its own line only. *)
Lemma try_chrome_cmds_prints_passive (env : Env) (dir : string) (cmds : list string) :
  Forall (fun msg => passive (EPrint msg)) (try_chrome_cmds_prints env dir cmds).
Proof.
  induction cmds as [|c cmds IH]; cbn; [constructor|].
  destruct (popen env _); [constructor|exact IH|repeat constructor].
Qed.

Lemma launch_prints_passive (env : Env) (browser : string) (dir : option string) :
  Forall (fun msg => passive (EPrint msg)) (launch_browser_prints env browser dir).
Proof.
  unfold launch_browser_prints, spawn_prints.
  destruct (system env); [| | |constructor];
    destruct (String.eqb browser "chrome" && truthy_opt dir);
    try apply try_chrome_cmds_prints_passive;
    destruct (popen env _); repeat constructor.
Qed.

(** ** Invariants of a run

    [Inv b] is a property of the machine, indexed by a bound [b] on the
    number of searches counted so far, that every step of the worker
    keeps, and [E] a property of the exceptions the body can raise. The
    lemmas of this section carry such a pair through the two loops; it is
    instantiated twice below. *)
Section Invariants.
Variable env : Env.
Variable world : World.
Variable Inv : nat -> Machine -> Prop.
Variable E : exn -> Prop.
Variable T : nat.

Hypothesis Inv_mono : forall b b' m, b <= b' -> Inv b m -> Inv b' m.
Hypothesis Inv_turn : forall b m, Inv b m -> Inv b (env_turn world m).
Hypothesis Inv_snapshot : forall b m, Inv b m -> Inv b (snapshot m).
Hypothesis Inv_emit : forall b e m, passive e -> Inv b m -> Inv b (snd (emit e m)).
Hypothesis Inv_assign : forall b f m, neutral f -> Inv b m -> Inv b (snd (assign f m)).
Hypothesis Inv_submit : forall b key m,
  Inv b m -> Inv (S b) (bump (env_turn world (snd (emit (EInput (Press key)) m)))).
Hypothesis Inv_handler : forall b e m, E e -> Inv b m -> Inv b (snd (handler e m)).
Hypothesis E_fault : forall f, E (exn_of_fault f).
Hypothesis E_key : forall k, E (KeyError k).
Hypothesis E_div : T = 0 -> E ZeroDivisionError.
Hypothesis E_overflow : E OverflowError.

Local Abbreviation carries := (carries_with Inv E).

Lemma carries_bind {A B} (b b1 b' : nat) (c : M A) (k : A -> M B) :
  b1 <= b' ->
  carries b c b1 -> (forall a, carries b1 (k a) b') -> carries b (bind c k) b'.
Proof.
  intros Hle Hc Hk. eapply triple_bind; [|exact Hk].
  eapply triple_conseq; [exact Hc|auto..].
  intros e m [Hm He]. split; [eapply Inv_mono; eassumption|exact He].
Qed.

Lemma carries_weaken {A} (b b1 b' : nat) (c : M A) :
  b1 <= b' -> carries b c b1 -> carries b c b'.
Proof.
  intros Hle Hc. eapply triple_conseq; [exact Hc|auto..].
  - intros a m Hm. eapply Inv_mono; eassumption.
  - intros e m [Hm He]. split; [eapply Inv_mono; eassumption|exact He].
Qed.

Lemma carries_ret {A} (b : nat) (a : A) : carries b (ret a) b.
Proof. intros m Hm. exact Hm. Qed.

Lemma carries_read (b : nat) : carries b (read_is_running world) b.
Proof. intros m Hm. cbn. apply Inv_turn, Hm. Qed.

Lemma carries_sleep (b : nat) (q : Q) : carries b (sleep env world q) b.
Proof.
  intros m Hm. unfold sleep, yielding. destruct (sleep_raises env q); cbn.
  - split; [apply Inv_turn, Hm | apply E_overflow].
  - apply Inv_turn, (Inv_emit b (ESleep q) m I Hm).
Qed.

Lemma carries_print_all (b : nat) (msgs : list Message) (m : Machine) :
  Forall (fun msg => passive (EPrint msg)) msgs ->
  Inv b m ->
  fst (print_all msgs m) = Val tt /\ Inv b (snd (print_all msgs m)).
Proof.
  intros Hmsgs. revert m. induction Hmsgs as [|msg rest Hmsg _ IH]; intros m Hm.
  - split; [reflexivity|exact Hm].
  - cbn [print_all]. unfold bind. cbn [emit].
    apply IH. apply (Inv_emit b (EPrint msg) m Hmsg Hm).
Qed.

Lemma carries_pyautogui (b : nat) (a : InputAction) :
  passive (EInput a) -> carries b (pyautogui world a) b.
Proof.
  intros Ha m Hm. unfold pyautogui, yielding.
  destruct (fault world (clock m)) as [f|].
  - split; [apply Inv_turn, Hm | apply E_fault].
  - apply Inv_turn, (Inv_emit b (EInput a) m Ha Hm).
Qed.

Lemma carries_launch (b : nat) (browser : string) (dir : option string) :
  carries b (launch env world browser dir) b.
Proof.
  intros m Hm. unfold launch, yielding, bind. cbn [emit].
  destruct (carries_print_all b (launch_browser_prints env browser dir) _
              (launch_prints_passive env browser dir)
              (Inv_emit b (ELaunch browser dir (snd (launch_browser env browser dir)))
                        m I Hm)) as [Hval Hinv].
  destruct (print_all _ _) as [[[]|e] m']; [|discriminate].
  apply Inv_turn, Hinv.
Qed.

Lemma carries_random (b : nat) : carries b (random_uniform world) b.
Proof. intros m Hm. exact Hm. Qed.

Lemma carries_name (b : nat) (p : Profile) : carries b (getitem_name p) b.
Proof.
  intros m Hm. unfold getitem_name.
  destruct (name p); cbn; [exact Hm | split; [exact Hm | apply E_key]].
Qed.

(** A locked block of two neutral assignments. *)
Lemma carries_lock2 (b : nat) (f g : RunState -> RunState) :
  neutral f -> neutral g ->
  carries b (with_lock world (bind (assign f) (fun _ => assign g))) b.
Proof.
  intros Hf Hg m Hm. cbn.
  apply Inv_turn, Inv_snapshot.
  apply (Inv_assign b g (snd (assign f m)) Hg), (Inv_assign b f m Hf), Hm.
Qed.

(** [completed += 1] and the locked block publishing it, from the machine
    the [enter] key leaves. *)
Lemma count_block (b : nat) :
  triple (fun m => Inv (S b) (bump m))
    (bind get_completed (fun c =>
     bind (set_local_completed (c + 1)) (fun _ =>
     with_lock world
       (bind get_completed (fun c' =>
        bind (assign (set_completed c')) (fun _ =>
        bind (lift (truediv c' T)) (fun q =>
        assign (set_progress (float_mul q 100)))))))))
    (fun _ => Inv (S b)) (fun e m => Inv (S b) m /\ E e).
Proof.
  intros m Hm.
  unfold bind, get_completed, set_local_completed, with_lock, yielding, lift.
  cbn. fold (bump m).
  destruct T as [|n] eqn:HT; cbn.
  - split; [apply Inv_turn, Inv_snapshot, Hm | apply E_div; reflexivity].
  - apply Inv_turn, Inv_snapshot.
    apply (Inv_assign (S b) (set_progress _) (bump m)); [|exact Hm].
    intros s. split; reflexivity.
Qed.

(** Pressing [enter], counting the search, and going on. *)
Lemma carries_submit_then {B} (b b' : nat) (key : string) (k : M B) :
  S b <= b' ->
  carries (S b) k b' ->
  carries b
    (bind (pyautogui world (Press key)) (fun _ =>
     bind get_completed (fun c =>
     bind (set_local_completed (c + 1)) (fun _ =>
     bind (with_lock world
             (bind get_completed (fun c' =>
              bind (assign (set_completed c')) (fun _ =>
              bind (lift (truediv c' T)) (fun q =>
              assign (set_progress (float_mul q 100)))))))
          (fun _ => k)))))
    b'.
Proof.
  intros Hle Hk.
  apply triple_bind with (R := fun _ m => Inv (S b) (bump m)).
  - intros m Hm. unfold pyautogui, yielding.
    destruct (fault world (clock m)) as [f|].
    + split; [|apply E_fault].
      apply Inv_mono with (b := b); [lia|]. apply Inv_turn, Hm.
    + cbn. apply Inv_submit, Hm.
  - intros _.
    assert (Hcount : triple (fun m => Inv (S b) (bump m))
              (bind get_completed (fun c =>
               bind (set_local_completed (c + 1)) (fun _ =>
               with_lock world
                 (bind get_completed (fun c' =>
                  bind (assign (set_completed c')) (fun _ =>
                  bind (lift (truediv c' T)) (fun q =>
                  assign (set_progress (float_mul q 100)))))))))
              (fun _ => Inv (S b)) (fun e m => Inv b' m /\ E e)).
    { eapply triple_conseq; [apply (count_block b)|auto..].
      intros e m [Hm He]. split; [|exact He].
      apply Inv_mono with (b := S b); assumption. }
    pose proof (triple_bind _ _ _ (fun _ => k) _ _ Hcount (fun _ => Hk)) as H.
    intros m Hm. specialize (H m Hm). exact H.
Qed.

Lemma neutral_status (v : string) : neutral (set_status v).
Proof. intros s. split; reflexivity. Qed.

Lemma neutral_current_search (v : string) : neutral (set_current_search v).
Proof. intros s. split; reflexivity. Qed.

Lemma neutral_current_profile (v : string) : neutral (set_current_profile v).
Proof. intros s. split; reflexivity. Qed.

Lemma neutral_is_running (v : bool) : neutral (set_is_running v).
Proof. intros s. split; reflexivity. Qed.

Lemma carries_search (b : nat) (delay : Q) (fruit : string) :
  carries b (search env world delay T fruit) (S b).
Proof.
  unfold search.
  eapply carries_bind; [|apply carries_read|]; [lia|]. intros running.
  destruct running; cbn [negb];
    [|apply carries_weaken with (b1 := b); [lia|apply carries_ret]].
  eapply carries_bind;
    [|apply carries_lock2; [apply neutral_current_search|apply neutral_status]|];
    [lia|]. intros _.
  eapply carries_bind; [|apply carries_pyautogui; exact I|]; [lia|]. intros _.
  eapply carries_bind; [|apply carries_sleep|]; [lia|]. intros _.
  eapply carries_bind; [|apply carries_pyautogui; exact I|]; [lia|]. intros _.
  eapply carries_bind; [|apply carries_sleep|]; [lia|]. intros _.
  eapply carries_bind; [|apply carries_pyautogui; exact I|]; [lia|]. intros _.
  eapply carries_bind; [|apply carries_sleep|]; [lia|]. intros _.
  apply carries_submit_then; [lia|].
  eapply carries_bind; [|apply carries_random|]; [lia|]. intros j.
  eapply carries_bind; [|apply carries_sleep|]; [lia|]. intros _.
  apply carries_ret.
Qed.

(** The inner loop counts at most one search per term. *)
Lemma carries_fruits (b : nat) (delay : Q) (fruits : list string) :
  carries b (for_each (search env world delay T) fruits) (b + length fruits).
Proof.
  unfold carries_with.
  apply triple_conseq with
    (P' := (fun m => exists b0, b0 + length fruits = b + length fruits /\ Inv b0 m))
    (Qv' := fun _ => Inv (b + length fruits))
    (Qe' := fun e m => Inv (b + length fruits) m /\ E e); auto;
    [|intros m Hm; exists b; auto].
  apply (triple_for_each
           (fun l m => exists b0, b0 + length l = b + length fruits /\ Inv b0 m)).
  - intros x l' m (b0 & Hb0 & Hm). cbn [length] in Hb0.
    pose proof (carries_search b0 delay x m Hm) as Hs.
    destruct (search env world delay T x m) as [[[|]|e] m'].
    + exists (S b0). split; [lia|exact Hs].
    + apply Inv_mono with (b := S b0); [lia|exact Hs].
    + destruct Hs as [Hs He]. split; [|exact He].
      apply Inv_mono with (b := S b0); [lia|exact Hs].
  - intros m (b0 & Hb0 & Hm). cbn [length] in Hb0.
    apply Inv_mono with (b := b0); [lia|exact Hm].
Qed.

Lemma carries_visit (b : nat) (fruits : list string) (delay : Q) (browser : string)
    (profile : Profile) :
  carries b (visit env world fruits delay browser T profile) (b + length fruits).
Proof.
  unfold visit.
  eapply carries_bind; [|apply carries_read|]; [lia|]. intros running.
  destruct running; cbn [negb];
    [|apply carries_weaken with (b1 := b); [lia|apply carries_ret]].
  eapply carries_bind; [|apply carries_name|]; [lia|]. intros profile_name.
  eapply carries_bind;
    [|apply carries_lock2; [apply neutral_current_profile|apply neutral_status]|];
    [lia|]. intros _.
  eapply carries_bind; [|apply carries_launch|]; [lia|]. intros _.
  eapply carries_bind; [|apply carries_sleep|]; [lia|]. intros _.
  eapply carries_bind; [|apply carries_fruits|]; [lia|]. intros _.
  apply carries_ret.
Qed.

(** The outer loop counts at most [length fruits] searches per profile. *)
Lemma carries_profiles (b : nat) (fruits : list string) (delay : Q) (browser : string)
    (profiles : list Profile) :
  carries b (for_each (visit env world fruits delay browser T) profiles)
          (b + length profiles * length fruits).
Proof.
  set (B := b + length profiles * length fruits). unfold carries_with.
  apply triple_conseq with
    (P' := (fun m => exists b0, b0 + length profiles * length fruits = B /\ Inv b0 m))
    (Qv' := fun _ => Inv B)
    (Qe' := fun e m => Inv B m /\ E e); auto;
    [|intros m Hm; exists b; auto].
  apply (triple_for_each
           (fun l m => exists b0, b0 + length l * length fruits = B /\ Inv b0 m)).
  - intros x l' m (b0 & Hb0 & Hm). cbn [length] in Hb0.
    pose proof (carries_visit b0 fruits delay browser x m Hm) as Hs.
    destruct (visit env world fruits delay browser T x m) as [[[|]|e] m'].
    + exists (b0 + length fruits). split; [lia|exact Hs].
    + apply Inv_mono with (b := b0 + length fruits); [lia|exact Hs].
    + destruct Hs as [Hs He]. split; [|exact He].
      apply Inv_mono with (b := b0 + length fruits); [lia|exact Hs].
  - intros m (b0 & Hb0 & Hm). cbn [length] in Hb0.
    apply Inv_mono with (b := b0); [lia|exact Hm].
Qed.

(** The whole worker, from the machine its reset block leaves: the
    invariant holds when the [finally] block is entered and when the
    worker returns. *)
Lemma carries_caught (b : nat) (body : M unit) (b' : nat) (m : Machine) :
  carries b body b' -> Inv b m -> Inv b' (caught body m).
Proof.
  intros Hbody Hm. unfold caught. specialize (Hbody m Hm).
  destruct (body m) as [[[]|e] m']; [exact Hbody|].
  destruct Hbody as [Hm' He]. apply Inv_handler; assumption.
Qed.

Lemma carries_cleanup (b : nat) (total_searches : nat) :
  carries b (cleanup total_searches) b.
Proof.
  intros m Hm. cbn. apply Inv_snapshot.
  apply (Inv_assign b (set_current_profile "")
           (snd (assign (set_current_search "")
              (snd (assign (set_status _) (snd (assign (set_is_running false) m))))))
           (neutral_current_profile _)).
  apply (Inv_assign b (set_current_search "")
           (snd (assign (set_status _) (snd (assign (set_is_running false) m))))
           (neutral_current_search _)).
  apply (Inv_assign b (set_status _) (snd (assign (set_is_running false) m))
           (neutral_status _)).
  apply (Inv_assign b (set_is_running false) m (neutral_is_running _)), Hm.
Qed.

Lemma worker_invariant (fruits : list string) (delay : Q) (browser : string)
    (profiles : list Profile) (m : Machine) :
  T = worker_total fruits profiles ->
  Inv 0 (reset world T m) ->
  Inv T (caught (for_each (visit env world fruits delay browser T)
                          (effective_profiles profiles))
                (reset world T m))
  /\ Inv T (snd (automation_worker env world fruits delay browser profiles m)).
Proof.
  intros HT Hreset.
  assert (Hcaught : Inv T (caught (for_each (visit env world fruits delay browser T)
                                            (effective_profiles profiles))
                                  (reset world T m))).
  { eapply carries_caught; [|exact Hreset].
    apply carries_weaken with
      (b1 := 0 + length (effective_profiles profiles) * length fruits);
      [unfold worker_total in HT; lia|].
    apply carries_profiles. }
  split; [exact Hcaught|].
  rewrite automation_worker_unfold. cbv zeta. rewrite <- HT.
  pose proof (carries_cleanup T T _ Hcaught) as Hc.
  destruct (cleanup T _) as [[[]|e] m']; [exact Hc|apply Hc].
Qed.
End Invariants.

(** ** The counting invariant *)

Lemma chain_mono (T c c' : nat) (tr : list RunState) :
  c <= c' -> chain T c tr -> chain T c' tr.
Proof.
  destruct tr as [|s tr]; cbn; [trivial|].
  intros Hle (Ht & Hc & Hrest). repeat split; [assumption|lia|assumption].
Qed.

Lemma chain_bounded (T c : nat) (tr : list RunState) :
  c <= T -> chain T c tr -> Forall (fun s => completed s <= total s) tr.
Proof.
  revert c. induction tr as [|s tr IH]; cbn; intros c Hle; [constructor|].
  intros (Ht & Hc & Hrest). constructor; [lia|].
  apply (IH (completed s)); [lia|exact Hrest].
Qed.

(** Along a chain (latest first), later entries count at least as much as
    earlier ones. *)
Lemma chain_sorted (T c : nat) (tr : list RunState) (i j : nat) (a b : RunState) :
  chain T c tr -> i <= j -> tr !! i = Some a -> tr !! j = Some b ->
  completed b <= completed a /\ completed a <= c.
Proof.
  revert c i j a b. induction tr as [|s tr IH]; intros c i j a b Hch Hij Ha Hb;
    [discriminate|].
  destruct Hch as (Ht & Hc & Hrest).
  destruct i as [|i].
  - injection Ha as <-. split; [|exact Hc].
    destruct j as [|j]; [injection Hb as <-; lia|].
    cbn in Hb. destruct (IH (completed s) j j b b Hrest (le_n j) Hb Hb) as [_ H].
    exact H.
  - destruct j as [|j]; [lia|]. cbn in Ha, Hb.
    destruct (IH (completed s) i j a b Hrest ltac:(lia) Ha Hb) as [H1 H2].
    split; [exact H1|lia].
Qed.

Lemma counting_mono (T b b' : nat) (m : Machine) :
  b <= b' -> counting T b m -> counting T b' m.
Proof.
  intros Hle (Ht & Hc & Hl & Hch & Hsub). repeat split; first [assumption | lia].
Qed.

(** The turns of the worlds that a statement singles out. *)
Lemma env_turn_alone (world : World) (m : Machine) :
  alone world -> env_turn world m = tick m.
Proof. intros Hw. unfold env_turn. rewrite Hw. reflexivity. Qed.

Lemma env_turn_only_stops (world : World) (m : Machine) :
  only_stops world ->
  env_turn world m = tick m
  \/ (is_running (shared m) = true
      /\ env_turn world m
         = mkMachine (stop_state (shared m)) (local_completed m)
                     (stop_state (shared m) :: trace m) (effects m) (S (clock m))).
Proof.
  intros Hw. unfold env_turn.
  destruct (Hw (clock m) (shared m)) as [->|[Hrun ->]]; [left; reflexivity|right].
  split; [exact Hrun|reflexivity].
Qed.

Lemma env_turn_oracle (oracle : Oracle) (m : Machine) :
  env_turn oracle m
  = if stop_request oracle (clock m) && is_running (shared m)
    then mkMachine (stop_state (shared m)) (local_completed m)
                   (stop_state (shared m) :: trace m) (effects m) (S (clock m))
    else tick m.
Proof.
  unfold env_turn. cbn [interference of_oracle].
  destruct (stop_request oracle (clock m) && is_running (shared m)); reflexivity.
Qed.

Lemma only_stops_oracle (oracle : Oracle) : only_stops oracle.
Proof.
  intros k s. cbn [interference of_oracle].
  destruct (stop_request oracle k); cbn [andb]; [|left; reflexivity].
  destruct (is_running s) eqn:Hrun; [right|left]; auto.
Qed.


Lemma quiet_alone (oracle : Oracle) : quiet oracle -> alone oracle /\ unfailing oracle.
Proof.
  intros [Hstop Hfail]. split.
  - intros k s. cbn [interference of_oracle]. rewrite Hstop. reflexivity.
  - intros k. apply Hfail.
Qed.

Lemma counting_turn (world : World) (T b : nat) (m : Machine) :
  only_stops world -> counting T b m -> counting T b (env_turn world m).
Proof.
  intros Hw (Ht & Hc & Hl & Hch & Hsub).
  destruct (env_turn_only_stops world m Hw) as [->|[Hrun ->]];
    [repeat split; assumption|].
  unfold stop_state. rewrite Hrun. unfold counting. cbn.
  repeat split; rewrite ?Hc; first [assumption | lia].
Qed.

Lemma counting_snapshot (T b : nat) (m : Machine) :
  counting T b m -> counting T b (snapshot m).
Proof.
  intros (Ht & Hc & Hl & Hch & Hsub). unfold counting, snapshot. cbn.
  repeat split; rewrite ?Hc; first [assumption | lia].
Qed.

Lemma counting_emit (T b : nat) (e : Effect) (m : Machine) :
  passive e -> counting T b m -> counting T b (snd (emit e m)).
Proof.
  intros He (Ht & Hc & Hl & Hch & Hsub). unfold counting. cbn.
  repeat split; try assumption.
  destruct e as [| |[]|[]]; cbn in He |- *; first [exact Hsub | destruct He].
Qed.

Lemma counting_assign (T b : nat) (f : RunState -> RunState) (m : Machine) :
  neutral f -> counting T b m -> counting T b (snd (assign f m)).
Proof.
  intros Hf (Ht & Hc & Hl & Hch & Hsub). destruct (Hf (shared m)) as [Hfc Hft].
  unfold counting. cbn. repeat split; try assumption; congruence.
Qed.

Lemma counting_submit (world : World) (T b : nat) (key : string) (m : Machine) :
  only_stops world ->
  counting T b m ->
  counting T (S b) (bump (env_turn world (snd (emit (EInput (Press key)) m)))).
Proof.
  intros Hw (Ht & Hc & Hl & Hch & Hsub).
  assert (Hpressed : total (shared (snd (emit (EInput (Press key)) m))) = T
            /\ completed (shared (snd (emit (EInput (Press key)) m)))
               = local_completed (snd (emit (EInput (Press key)) m))
            /\ local_completed (snd (emit (EInput (Press key)) m)) <= b
            /\ chain T (local_completed (snd (emit (EInput (Press key)) m)))
                     (trace (snd (emit (EInput (Press key)) m)))
            /\ submitted (effects (snd (emit (EInput (Press key)) m)))
               = S (local_completed (snd (emit (EInput (Press key)) m)))).
  { cbn. repeat split; try assumption. rewrite Hsub. reflexivity. }
  revert Hpressed. generalize (snd (emit (EInput (Press key)) m)). clear - Hw.
  intros m (Ht & Hc & Hl & Hch & Hsub).
  assert (Hturned : total (shared (env_turn world m)) = T
            /\ completed (shared (env_turn world m))
               = local_completed (env_turn world m)
            /\ local_completed (env_turn world m) <= b
            /\ chain T (local_completed (env_turn world m))
                     (trace (env_turn world m))
            /\ submitted (effects (env_turn world m))
               = S (local_completed (env_turn world m))).
  { destruct (env_turn_only_stops world m Hw) as [->|[Hrun ->]];
      [repeat split; assumption|].
    unfold stop_state. rewrite Hrun. cbn.
    repeat split; rewrite ?Hc; first [assumption | lia]. }
  revert Hturned. generalize (env_turn world m). clear.
  intros m (Ht & Hc & Hl & Hch & Hsub). unfold counting, bump. cbn.
  repeat split; try assumption; try lia.
  apply chain_mono with (c := local_completed m); [lia|exact Hch].
Qed.

Lemma counting_handler (T b : nat) (e : exn) (m : Machine) :
  counting T b m -> counting T b (snd (handler e m)).
Proof. intros H. destruct e; exact H. Qed.

Lemma counting_reset (world : World) (T : nat) (s : RunState) :
  only_stops world -> counting T 0 (reset world T (enter s)).
Proof.
  intros Hw. unfold reset. apply counting_turn; [exact Hw|].
  unfold counting, snapshot. cbn. repeat split; lia.
Qed.

(** The invariant holds with bound [T] when the worker enters its
    [finally] block and when it returns. *)
Lemma worker_counting (env : Env) (world : World) (fruits : list string)
    (delay : Q) (browser : string) (profiles : list Profile) (s : RunState) :
  only_stops world ->
  let T := worker_total fruits profiles in
  counting T T (caught (for_each (visit env world fruits delay browser T)
                                 (effective_profiles profiles))
                       (reset world T (enter s)))
  /\ counting T T (snd (automation_worker env world fruits delay browser profiles
                                          (enter s))).
Proof.
  intros Hw T.
  apply (worker_invariant env world (counting T) (fun _ => True) T).
  - intros b b' m. apply counting_mono.
  - intros b m. apply counting_turn, Hw.
  - intros b m. apply counting_snapshot.
  - intros b e m. apply counting_emit.
  - intros b f m. apply counting_assign.
  - intros b key m. apply counting_submit, Hw.
  - intros b e m _. apply counting_handler.
  - trivial.
  - trivial.
  - trivial.
  - trivial.
  - reflexivity.
  - apply counting_reset, Hw.
Qed.

Lemma cleanup_trace (T : nat) (m : Machine) :
  trace (snd (cleanup T m)) <> [].
Proof. unfold cleanup, locked. cbn. discriminate. Qed.

(** C2. The claim fails on the code when a start request is accepted
    while a stopped worker is still alive. The guard of [start_automation]
    reads [is_running] only, which a stop request clears at once; the
    worker notices at its next check, after the pause it is in. On the
    sample run of two terms, a stop and a second start (for one term)
    are served during the pause after the first search: the start resets
    [completed] to 0 and sets [total] to 1 under the first worker, which
    finds [is_running] true, searches its second term, and publishes its
    own count 2. Over the visible states of that one run [completed]
    goes 0, 0, 0, 1, 1, 0, 0, 2, 2: it decreases, and ends above
    [total]. Whatever the state, the handler accepts this start request
    once a stop request has been served. Runs that no accepted start
    request and no other worker disturb keep the claim
    ([completed_monotone_bounded] below). *)
Theorem overlapping_start_breaks_counters :
  let h := history (run_thread sample_env overlapping_start firefox_thread
                               started_state) in
  map (fun x => (is_running x, completed x, total x)) h
  = [(true, 0, 2); (true, 0, 2); (true, 0, 2); (true, 1, 2); (false, 1, 2);
     (true, 0, 1); (true, 0, 1); (true, 2, 1); (false, 2, 1)]
  /\ (exists i j a b, i <= j /\ h !! i = Some a /\ h !! j = Some b
                      /\ completed b < completed a)
  /\ Exists (fun x => total x < completed x) h
  /\ (forall s, exists s',
        handle sample_env [] (PostStart second_request) (stop_state s) = Some s'
        /\ is_running s' = true /\ completed s' = 0 /\ total s' = 1).
Proof.
  cbv zeta. split; [vm_compute; reflexivity|]. split; [|split].
  - eexists 4, 5, _, _. split; [lia|].
    split; [vm_compute; reflexivity|]. split; [vm_compute; reflexivity|].
    cbn. lia.
  - match goal with
    | |- Exists _ ?l => let l' := eval vm_compute in l in change l with l'
    end.
    do 7 apply List.Exists_cons_tl. apply List.Exists_cons_hd. cbn. lia.
  - intros s. unfold handle, start_automation, stop_state.
    destruct (is_running s) eqn:Hrun; cbn; rewrite ?Hrun; cbn;
      eexists; repeat split.
Qed.

(** X25. In a run of the worker that nothing but stop requests disturbs
    (no start request is accepted and no other worker is alive between
    its reset block and its clean-up), whatever input failures occur,
    [completed] never decreases from one visible state to a later one and
    never exceeds [total]. *)
Theorem completed_monotone_bounded (env : Env) (world : World) (th : Thread)
    (s : RunState) :
  only_stops world ->
  let h := history (run_thread env world th s) in
  (forall i j a b, i <= j -> h !! i = Some a -> h !! j = Some b ->
                   completed a <= completed b)
  /\ Forall (fun x => completed x <= total x) h
  /\ h <> [].
Proof.
  intros Hw.
  destruct th as [fruits delay browser profiles]. unfold run_thread, history.
  cbn [th_fruits th_delay th_browser th_profiles].
  destruct (worker_counting env world fruits delay browser profiles s Hw)
    as [_ (Ht & Hc & Hl & Hch & Hsub)].
  repeat split.
  - intros i j a b Hij Ha Hb.
    apply reverse_lookup_Some in Ha as [Ha Hi].
    apply reverse_lookup_Some in Hb as [Hb Hj].
    refine (proj1 (chain_sorted _ _ _ _ _ _ _ Hch _ Hb Ha)). lia.
  - apply Forall_reverse. eapply chain_bounded; [|exact Hch]. exact Hl.
  - rewrite automation_worker_unfold. cbv zeta.
    intros H. apply (f_equal reverse) in H. rewrite reverse_involutive in H.
    revert H. apply cleanup_trace.
Qed.

Lemma completed_monotone_bounded_witness :
  only_stops stop_after_first_search
  /\ map completed (history stopped_run) = [0; 0; 0; 1; 1; 1]
  /\ Forall (fun x => completed x <= total x) (history stopped_run).
Proof.
  split; [apply only_stops_oracle|]. split; [vm_compute; reflexivity|].
  exact (proj1 (proj2 (completed_monotone_bounded sample_env stop_after_first_search
                         firefox_thread started_state (only_stops_oracle _)))).
Defined.

Lemma cleanup_final (T : nat) (m : Machine) :
  fst (cleanup T m) = Val tt
  /\ shared (snd (cleanup T m))
     = mkRunState false
         (if Nat.eqb (local_completed m) T
          then "Automation completed" else "Automation stopped")
         (progress (shared m)) "" "" (completed (shared m)) (total (shared m))
  /\ effects (snd (cleanup T m)) = effects m
  /\ local_completed (snd (cleanup T m)) = local_completed m
  /\ trace (snd (cleanup T m)) = shared (snd (cleanup T m)) :: trace m.
Proof. unfold cleanup, locked. cbn. repeat split; reflexivity. Qed.


(** ** The total of a run *)

Lemma effective_profiles_length (profiles : list Profile) :
  length (effective_profiles profiles) = Nat.max 1 (length profiles).
Proof. destruct profiles as [|p [|q ps]]; reflexivity. Qed.

Lemma chain_total (T c : nat) (tr : list RunState) :
  chain T c tr -> Forall (fun s => total s = T) tr.
Proof.
  revert c. induction tr as [|s tr IH]; cbn; intros c; [constructor|].
  intros (Ht & _ & Hrest). constructor; [exact Ht|]. apply (IH _ Hrest).
Qed.

Lemma start_reply_total (env : Env) (data : StartRequest) (g : Globals)
    (resp : Response) (th : Thread) :
  reply (start_automation env data g) = Val resp ->
  spawned (start_automation env data g) = Some th ->
  exists msg names warning,
    body resp = StartedBody msg (total (state (globals_after
                                                 (start_automation env data g))))
                            names warning.
Proof.
  unfold start_automation.
  destruct (is_running (state g)); [discriminate|].
  destruct (truthy (fruits data)); cbn [negb]; [|discriminate].
  destruct (Qltb (default 3.0%Q (delay data)) 0.5);
    (destruct (String.eqb (default "chrome" (browser data)) "chrome"
               && negb (truthy (resolve_profiles env g (default "chrome" (browser data))
                                  (selectedProfiles data) (useDefaultIfNoProfile data))));
     [discriminate|]);
    (match goal with
     | |- context [match ?x with Val _ => _ | Exc _ => _ end] => destruct x
     end);
    cbn; try discriminate; intros [= <-] _; cbn; eauto.
Qed.

(** The first state a worker publishes is that of its reset block,
    whatever the state it is entered on and whatever the other threads
    do. *)
Lemma worker_first_state (env : Env) (world : World) (fruits : list string)
    (delay : Q) (browser : string) (profiles : list Profile) (s : RunState) :
  exists rest,
    history (snd (automation_worker env world fruits delay browser profiles (enter s)))
    = set_progress 0.0 (set_completed 0 (set_total (worker_total fruits profiles) s))
      :: rest.
Proof.
  set (first := set_progress 0.0
                  (set_completed 0 (set_total (worker_total fruits profiles) s))).
  assert (Hlast : exists new,
            trace (snd (automation_worker env world fruits delay browser profiles
                                          (enter s)))
            = new ++ [first]).
  { apply (worker_invariant env world (fun _ m => exists new, trace m = new ++ [first])
             (fun _ => True) (worker_total fruits profiles)); try trivial.
    - intros _ m (new & Hnew). unfold env_turn. cbn [trace].
      exists (reverse (interference world (clock m) (shared m)) ++ new).
      rewrite Hnew, app_assoc. reflexivity.
    - intros _ m (new & Hnew). exists (shared m :: new). cbn. rewrite Hnew. reflexivity.
    - intros _ key m (new & Hnew). unfold bump, env_turn. cbn [trace emit snd].
      exists (reverse (interference world (clock m) (shared m)) ++ new).
      rewrite Hnew, app_assoc. reflexivity.
    - intros _ e m _ H. destruct e; exact H.
    - unfold reset, env_turn, snapshot. cbn [trace shared enter].
      eexists. reflexivity. }
  destruct Hlast as (new & Hnew). exists (reverse new).
  unfold history. rewrite Hnew, reverse_app. reflexivity.
Qed.

(** C1. When a start request is accepted (no run active, some terms
    given, profile resolution succeeded), the [total] of the state it
    leaves is the number of terms times the larger of 1 and the number of
    resolved profiles, and it is the total the response reports. The
    worker computes the same number from its own arguments: whatever state
    the thread is entered on and whatever the other threads do, the first
    state it publishes, at its reset block, has this total and no search
    counted; and every state of a run that nothing but stop requests
    disturbs has this total. *)
Theorem start_total (env : Env) (data : StartRequest) (g : Globals) :
  let b := default "chrome" (browser data) in
  let profiles :=
    resolve_profiles env g b (selectedProfiles data) (useDefaultIfNoProfile data) in
  let out := start_automation env data g in
  let n := length (fruits data) * Nat.max 1 (length profiles) in
  is_running (state g) = false ->
  fruits data <> [] ->
  (b = "chrome" -> profiles <> []) ->
  total (state (globals_after out)) = n
  /\ (forall resp, reply out = Val resp ->
        exists msg names warning, body resp = StartedBody msg n names warning)
  /\ exists th,
       spawned out = Some th
       /\ th_fruits th = fruits data
       /\ th_profiles th = profiles
       /\ forall (env' : Env) (world : World) (s : RunState),
            (exists first rest,
               history (run_thread env' world th s) = first :: rest
               /\ total first = n
               /\ completed first = 0)
            /\ (only_stops world ->
                Forall (fun x => total x = n) (history (run_thread env' world th s))).
Proof.
  intros b profiles out n Hrun Hfruits Hres.
  apply truthy_nonempty in Hfruits.
  assert (Hsel : String.eqb b "chrome" && negb (truthy profiles) = false).
  { destruct (String.eqb b "chrome") eqn:Hb; [|reflexivity].
    apply String.eqb_eq in Hb. apply Hres, truthy_nonempty in Hb.
    rewrite Hb. reflexivity. }
  pose proof (start_accepts env data g Hrun Hfruits Hsel) as Hth.
  destruct (start_spawned env data g _ Hth) as (_ & _ & _ & _ & _ & _ & Hstate).
  fold b profiles out in Hth, Hstate.
  assert (Htotal : total (state (globals_after out)) = n).
  { rewrite Hstate. cbn. rewrite truthy_length. reflexivity. }
  split; [exact Htotal|]. split.
  - intros resp Hresp. rewrite <- Htotal.
    eapply start_reply_total; eassumption.
  - eexists. split; [exact Hth|]. cbn [th_fruits th_profiles].
    assert (Hw : worker_total (fruits data) profiles = n).
    { unfold worker_total. rewrite effective_profiles_length. reflexivity. }
    split; [reflexivity|]. split; [reflexivity|].
    intros env' world s. unfold run_thread.
    cbn [th_fruits th_delay th_browser th_profiles]. split.
    + destruct (worker_first_state env' world (fruits data)
                  (if Qltb (default 3.0%Q (delay data)) 0.5
                   then 3.0%Q else default 3.0%Q (delay data))
                  b profiles s) as (rest & Hhistory).
      eexists _, rest. split; [exact Hhistory|]. cbn [total completed set_progress
        set_completed set_total]. split; [exact Hw|reflexivity].
    + intros Hstops. unfold history. apply Forall_reverse.
      destruct (worker_counting env' world (fruits data)
                  (if Qltb (default 3.0%Q (delay data)) 0.5
                   then 3.0%Q else default 3.0%Q (delay data))
                  b profiles s Hstops)
        as [_ (_ & _ & _ & Hch & _)].
      rewrite Hw in Hch. eapply chain_total, Hch.
Qed.

Lemma start_total_witness :
  is_running (state idle_globals) = false
  /\ fruits sample_request <> []
  /\ total (state (globals_after (start_automation sample_env sample_request idle_globals)))
     = 2
  /\ exists th first rest,
       spawned (start_automation sample_env sample_request idle_globals) = Some th
       /\ total initial_state = 0
       /\ history (run_thread sample_env undisturbed th initial_state) = first :: rest
       /\ total first = 2.
Proof.
  split; [reflexivity|]. split; [discriminate|].
  destruct (start_total sample_env sample_request idle_globals)
    as (Htotal & _ & th & Hth & _ & _ & Hrun);
    [reflexivity|discriminate|discriminate|].
  split; [exact Htotal|].
  destruct (Hrun sample_env undisturbed initial_state)
    as ((first & rest & Hhistory & Hfirst & _) & _).
  exists th, first, rest. split; [exact Hth|]. split; [reflexivity|].
  split; [exact Hhistory|exact Hfirst].
Defined.

(** ** Division by the total *)

Lemma worker_call_fruits (th : Thread) : worker_call th -> th_fruits th <> [].
Proof.
  intros [env data g Hth | json_loads env oracle disk s filename delay browser names m Hcli].
  - destruct (start_spawned env data g th Hth) as (_ & Hfruits & _ & -> & _).
    apply truthy_nonempty, Hfruits.
  - unfold search_from_file in Hcli.
    destruct (fst (load_from_file json_loads filename disk)) as [loaded|e];
      [|discriminate].
    destruct (truthy (default [] loaded)) eqn:Hfruits; cbn [negb] in Hcli;
      [|discriminate].
    injection Hcli as <- _. apply truthy_nonempty, Hfruits.
Qed.

Lemma worker_total_positive (fruits : list string) (profiles : list Profile) :
  fruits <> [] -> 1 <= worker_total fruits profiles.
Proof.
  intros Hfruits. unfold worker_total. rewrite effective_profiles_length.
  destruct fruits as [|f fruits]; [congruence|]. cbn [length]. lia.
Qed.

Lemma truediv_defined (c T : nat) : 1 <= T -> exists q, truediv c T = Val q.
Proof. destruct T as [|T]; [lia|]. intros _. cbn. eauto. Qed.

Lemma worker_no_division_error (env : Env) (world : World) (fruits : list string)
    (delay : Q) (browser : string) (profiles : list Profile) (s : RunState) :
  1 <= worker_total fruits profiles ->
  no_division_error
    (snd (automation_worker env world fruits delay browser profiles (enter s))).
Proof.
  intros Hpos.
  apply (worker_invariant env world (fun _ => no_division_error)
           (fun e => e <> ZeroDivisionError) (worker_total fruits profiles)).
  - auto.
  - intros _ m Hm. exact Hm.
  - intros _ m Hm. exact Hm.
  - intros _ e m He Hm [Heq|Hin]; [subst e; exact He | exact (Hm Hin)].
  - intros _ f m _ Hm. exact Hm.
  - intros _ key m Hm. unfold no_division_error, bump, env_turn. cbn.
    intros [Heq|Hin]; first [discriminate | exact (Hm Hin)].
  - intros _ e m He Hm. unfold no_division_error.
    destruct e; cbn; intros [Heq|Hin]; try discriminate; try exact (Hm Hin).
    congruence.
  - intros []; discriminate.
  - discriminate.
  - lia.
  - discriminate.
  - reflexivity.
  - unfold reset, no_division_error, env_turn. cbn. tauto.
Qed.

(** C9. On every path that calls the worker (an accepted start request,
    CLI mode) the list of terms is not empty, so the worker's total is at
    least 1, the division of the progress computation is defined for every
    count, and no run ever reports a division error. *)
Theorem division_well_defined (th : Thread) :
  worker_call th ->
  th_fruits th <> []
  /\ 1 <= worker_total (th_fruits th) (th_profiles th)
  /\ (forall c, exists q,
        truediv c (worker_total (th_fruits th) (th_profiles th)) = Val q)
  /\ forall env oracle s, no_division_error (run_thread env oracle th s).
Proof.
  intros Hcall. apply worker_call_fruits in Hcall.
  pose proof (worker_total_positive _ (th_profiles th) Hcall) as Hpos.
  repeat split; [exact Hcall|exact Hpos| |].
  - intros c. apply truediv_defined, Hpos.
  - intros env oracle s. apply worker_no_division_error, Hpos.
Qed.

Lemma division_well_defined_witness :
  worker_call sample_thread
  /\ 1 <= worker_total (th_fruits sample_thread) (th_profiles sample_thread).
Proof.
  assert (Hcall : worker_call sample_thread).
  { apply (call_from_start _ sample_env sample_request idle_globals). reflexivity. }
  split; [exact Hcall|].
  apply (division_well_defined sample_thread Hcall).
Defined.

(** ** Runs without profiles *)

(** The lines of the launcher are no launch and no key stroke. *)
Lemma print_all_run (msgs : list Message) (m : Machine) :
  print_all msgs m
  = (Val tt, mkMachine (shared m) (local_completed m) (trace m)
                       (map EPrint (reverse msgs) ++ effects m) (clock m)).
Proof.
  revert m. induction msgs as [|msg rest IH]; intros m.
  - destruct m; reflexivity.
  - cbn [print_all]. unfold bind. cbn [emit]. rewrite IH.
    cbn [shared local_completed trace effects clock].
    rewrite reverse_cons, map_app, <- app_assoc. reflexivity.
Qed.

Lemma launches_prints (msgs : list Message) (es : list Effect) :
  launches (map EPrint msgs ++ es) = launches es.
Proof. induction msgs as [|msg msgs IH]; [reflexivity|exact IH]. Qed.

Lemma typed_terms_prints (msgs : list Message) (es : list Effect) :
  typed_terms (map EPrint msgs ++ es) = typed_terms es.
Proof. induction msgs as [|msg msgs IH]; [reflexivity|exact IH]. Qed.

Lemma submitted_prints (msgs : list Message) (es : list Effect) :
  submitted (map EPrint msgs ++ es) = submitted es.
Proof. induction msgs as [|msg msgs IH]; [reflexivity|exact IH]. Qed.

Section Quiet.
Variable env : Env.
Variable world : World.
Variable delay : Q.
Hypothesis Halone : alone world.
Hypothesis Hunfailing : unfailing world.
Hypothesis Hpauses : pauses_return env world delay.

Lemma env_turn_quiet (m : Machine) : env_turn world m = tick m.
Proof. apply env_turn_alone, Halone. Qed.

Lemma read_quiet (m : Machine) :
  read_is_running world m = (Val (is_running (shared m)), tick m).
Proof. unfold read_is_running, yielding. rewrite env_turn_quiet. reflexivity. Qed.

Lemma sleep_quiet (q : Q) (m : Machine) :
  sleep_raises env q = false ->
  sleep env world q m = (Val tt, tick (snd (emit (ESleep q) m))).
Proof.
  intros Hq. unfold sleep, yielding. rewrite Hq. cbn.
  rewrite env_turn_quiet. reflexivity.
Qed.

Lemma pyautogui_quiet (a : InputAction) (m : Machine) :
  pyautogui world a m = (Val tt, tick (snd (emit (EInput a) m))).
Proof.
  unfold pyautogui, yielding. rewrite Hunfailing. cbn.
  rewrite env_turn_quiet. reflexivity.
Qed.

Lemma launch_quiet (browser : string) (dir : option string) (m : Machine) :
  launch env world browser dir m
  = (Val tt,
     tick (mkMachine (shared m) (local_completed m) (trace m)
             (map EPrint (reverse (launch_browser_prints env browser dir))
              ++ ELaunch browser dir (snd (launch_browser env browser dir))
                 :: effects m)
             (clock m))).
Proof.
  unfold launch, yielding, bind. cbn [emit]. rewrite print_all_run.
  rewrite env_turn_quiet. reflexivity.
Qed.

Lemma with_lock_quiet {A} (body : M A) (m : Machine) :
  with_lock world body m = (fst (body m), tick (snapshot (snd (body m)))).
Proof.
  unfold with_lock, locked, yielding. destruct (body m) as [r m'].
  rewrite env_turn_quiet. reflexivity.
Qed.

Lemma advance_refl (m : Machine) : is_running (shared m) = true -> advance [] m m.
Proof.
  intros Hrun. repeat split; try reflexivity; [exact Hrun|].
  exists []. split; [reflexivity|constructor].
Qed.

Lemma advance_trans (done1 done2 : list string) (m1 m2 m3 : Machine) :
  advance done1 m1 m2 -> advance done2 m2 m3 -> advance (done1 ++ done2) m1 m3.
Proof.
  intros (Hr1 & Hp1 & Hl1 & Ht1 & Hs1 & new1 & Htr1 & Hn1)
         (Hr2 & Hp2 & Hl2 & Ht2 & Hs2 & new2 & Htr2 & Hn2).
  repeat split.
  - exact Hr2.
  - congruence.
  - congruence.
  - rewrite Ht2, Ht1, reverse_app, app_assoc. reflexivity.
  - rewrite Hs2, Hs1, length_app. lia.
  - exists (new2 ++ new1). split.
    + rewrite Htr2, Htr1, app_assoc. reflexivity.
    + apply Forall_app. split; [|exact Hn1].
      rewrite <- Hp1. exact Hn2.
Qed.

(** An uninterrupted search of one term. *)
Lemma search_quiet (T : nat) (fruit : string) (m : Machine) :
  is_running (shared m) = true -> T <> 0 ->
  exists m', search env world delay T fruit m = (Val Next, m') /\ advance [fruit] m m'.
Proof.
  intros Hrun HT. destruct T as [|T]; [congruence|].
  destruct Hpauses as (_ & H05 & H03 & H02 & Hpause).
  unfold search, bind.
  rewrite read_quiet, Hrun. cbv beta iota. cbn [negb].
  rewrite with_lock_quiet. cbn [fst snd assign bind].
  rewrite pyautogui_quiet. cbv beta iota.
  rewrite (sleep_quiet _ _ H05). cbv beta iota.
  rewrite pyautogui_quiet. cbv beta iota.
  rewrite (sleep_quiet _ _ H03). cbv beta iota.
  rewrite pyautogui_quiet. cbv beta iota.
  rewrite (sleep_quiet _ _ H02). cbv beta iota.
  rewrite pyautogui_quiet. cbv beta iota.
  cbn [get_completed set_local_completed].
  rewrite with_lock_quiet. cbn [fst snd assign bind get_completed lift truediv].
  cbn [random_uniform]. rewrite (sleep_quiet _ _ (Hpause _)). cbv beta iota.
  eexists. split; [reflexivity|].
  unfold advance. cbn [emit snd tick snapshot shared effects trace launches
    typed_terms submitted is_running current_profile set_progress set_completed
    set_status set_current_search].
  rewrite Hrun.
  repeat split.
  eexists [_; _]. split; [reflexivity|].
  repeat constructor.
Qed.

Lemma fruits_quiet (T : nat) (fruits : list string) (m : Machine) :
  is_running (shared m) = true -> fruits = [] \/ T <> 0 ->
  exists m', for_each (search env world delay T) fruits m = (Val tt, m')
             /\ advance fruits m m'.
Proof.
  revert m. induction fruits as [|fruit fruits IH]; intros m Hrun HT.
  - exists m. split; [reflexivity|apply advance_refl, Hrun].
  - destruct HT as [|HT]; [discriminate|].
    destruct (search_quiet T fruit m Hrun HT) as (m1 & Hsearch & Hadv1).
    destruct (IH m1 (proj1 Hadv1) (or_intror HT)) as (m2 & Hloop & Hadv2).
    exists m2. split.
    + cbn [for_each]. unfold bind. rewrite Hsearch. exact Hloop.
    + apply (advance_trans [fruit] fruits m m1 m2 Hadv1 Hadv2).
Qed.

(** An uninterrupted visit of a profile that has a name. *)
Lemma visit_quiet (fruits : list string) (browser : string) (T : nat) (p : Profile)
    (n : string) (m : Machine) :
  name p = Some n -> is_running (shared m) = true -> fruits = [] \/ T <> 0 ->
  exists m',
    visit env world fruits delay browser T p m = (Val Next, m')
    /\ is_running (shared m') = true
    /\ launches (effects m')
       = (browser, directory p, snd (launch_browser env browser (directory p)))
         :: launches (effects m)
    /\ typed_terms (effects m') = reverse fruits ++ typed_terms (effects m)
    /\ submitted (effects m') = length fruits + submitted (effects m)
    /\ exists new,
         trace m' = new ++ trace m
         /\ new <> []
         /\ Forall (fun x => current_profile x = n) new.
Proof.
  intros Hname Hrun HT. unfold visit, bind.
  rewrite read_quiet, Hrun. cbv beta iota. cbn [negb].
  unfold getitem_name. rewrite Hname. cbn [ret].
  rewrite with_lock_quiet. cbn [fst snd assign bind].
  rewrite launch_quiet. cbv beta iota.
  rewrite (sleep_quiet _ _ (proj1 Hpauses)). cbv beta iota.
  match goal with
  | |- context [for_each _ fruits ?m0] =>
      destruct (fruits_quiet T fruits m0) as (m1 & Hloop & Hadv);
        [cbn; exact Hrun | exact HT | rewrite Hloop]
  end.
  destruct Hadv as (Hr & Hp & Hl & Ht & Hs & new & Htr & Hnew).
  cbn [emit snd tick snapshot shared effects trace launches typed_terms submitted
       current_profile set_status set_current_profile] in Hp, Hl, Ht, Hs, Htr, Hnew.
  rewrite launches_prints in Hl. rewrite typed_terms_prints in Ht.
  rewrite submitted_prints in Hs.
  cbn [launches typed_terms submitted] in Hl, Ht, Hs.
  exists m1. split; [reflexivity|]. repeat split; try assumption.
  exists (new ++ [set_status ("Opening browser for profile: " +:+ n)
                      (set_current_profile n (shared m))]).
  rewrite Htr, <- app_assoc. split; [reflexivity|]. split.
  - destruct new; discriminate.
  - apply Forall_app. split; [exact Hnew|repeat constructor].
Qed.


(** An uninterrupted run of the worker without profiles. *)
Lemma worker_dummy_quiet (fruits : list string) (browser : string) (s : RunState) :
  is_running s = true ->
  let m := snd (automation_worker env world fruits delay browser [] (enter s)) in
  launches (effects m) = [(browser, None, snd (launch_browser env browser None))]
  /\ typed_terms (effects m) = reverse fruits
  /\ submitted (effects m) = length fruits
  /\ exists first mid last,
       history m = first :: mid ++ [last]
       /\ mid <> []
       /\ Forall (fun x => current_profile x = "Default") mid.
Proof.
  intros Hrun m. subst m. rewrite automation_worker_unfold. cbv zeta.
  set (T := worker_total fruits []).
  assert (HT : fruits = [] \/ T <> 0).
  { destruct fruits as [|f fruits]; [left; reflexivity|right].
    pose proof (worker_total_positive (f :: fruits) [] ltac:(discriminate)).
    subst T. lia. }
  unfold reset. rewrite env_turn_quiet.
  match goal with
  | |- context [caught _ ?m0] =>
      destruct (visit_quiet fruits browser T dummy_profile "Default" m0 eq_refl)
        as (m1 & Hvisit & Hr & Hl & Ht & Hs & new & Htr & Hne & Hnew);
        [cbn; exact Hrun | exact HT |];
      assert (Hcaught : caught (for_each (visit env world fruits delay browser T)
                                         (effective_profiles [])) m0 = m1)
  end.
  { unfold caught. cbn [effective_profiles truthy for_each]. unfold bind.
    rewrite Hvisit. reflexivity. }
  rewrite Hcaught. cbn in Hl, Ht, Hs, Htr.
  destruct (cleanup_final T m1) as (_ & _ & Heffects & _ & Htrace).
  rewrite Heffects, Hl, Ht, Hs, app_nil_r, Nat.add_0_r. repeat split.
  unfold history. rewrite Htrace, Htr.
  eexists _, (reverse new), _. split; [|split].
  - rewrite reverse_cons, reverse_app, reverse_singleton, <- app_assoc. reflexivity.
  - intros H. apply Hne. apply (f_equal reverse) in H.
    rewrite reverse_involutive in H. exact H.
  - apply Forall_reverse, Hnew.
Qed.
End Quiet.

Lemma dict_get_cases (P : string -> Prop) (d : list (string * string))
    (k dflt : string) :
  P dflt -> Forall P (map snd d) -> P (dict_get d k dflt).
Proof.
  intros Hdflt. induction d as [|[k' v] d IH]; cbn; intros Hd; [exact Hdflt|].
  apply Forall_cons in Hd as [Hv Hd].
  destruct (String.eqb k' k); [exact Hv | apply IH, Hd].
Qed.

(** Without a profile directory, no command of the launcher selects a
    profile, on any platform and for any browser name. *)
Lemma launch_without_profile (env : Env) (browser : string) :
  Forall (fun c => selects_profile c = false)
         (snd (launch_browser env browser None)).
Proof.
  unfold launch_browser. cbn [truthy_opt]. rewrite andb_false_r.
  destruct (system env); unfold spawn.
  - destruct (popen env _); cbn [snd]; repeat constructor;
      apply (dict_get_cases
               (fun v => selects_profile (mkCommand (Line v) true) = false));
      repeat constructor.
  - destruct (popen env _); cbn [snd]; repeat constructor;
      apply (dict_get_cases
               (fun v => selects_profile
                           (mkCommand (Argv ["open"; "-a"; v]) false) = false));
      repeat constructor.
  - destruct (popen env _); cbn [snd]; repeat constructor;
      apply (dict_get_cases
               (fun v => selects_profile (mkCommand (Argv (split v)) false) = false));
      repeat constructor.
  - constructor.
Qed.

(** C10, as the code has it. A worker called with an empty profile list
    runs on the single dummy profile named "Default" with no directory.
    When nothing cuts the run short or meddles with it ([is_running] is
    true at entry; no other thread writes the state while the worker
    runs: no stop request arrives, no start request is accepted, no other
    worker is alive; no pyautogui call fails; [time.sleep] accepts every
    pause), [launch_browser] is called exactly once, without a profile
    directory and so with no profile-selection argument; the terms are
    typed and submitted once each, in order; and every state published
    between the reset and the clean-up shows the profile "Default". *)
Theorem dummy_profile_run (env : Env) (world : World) (s : RunState)
    (fruits : list string) (delay : Q) (browser : string) :
  is_running s = true ->
  alone world ->
  unfailing world ->
  pauses_return env world delay ->
  let m := run_thread env world (mkThread fruits delay browser []) s in
  effective_profiles [] = [mkProfile (Some "Default") None None]
  /\ (exists calls,
        launches (effects m) = [(browser, None, calls)]
        /\ Forall (fun c => selects_profile c = false) calls)
  /\ reverse (typed_terms (effects m)) = fruits
  /\ submitted (effects m) = length fruits
  /\ exists first mid last,
       history m = first :: mid ++ [last]
       /\ mid <> []
       /\ Forall (fun x => current_profile x = "Default") mid.
Proof.
  intros Hrun Halone Hunfailing Hpauses m. subst m. unfold run_thread.
  cbn [th_fruits th_delay th_browser th_profiles].
  destruct (worker_dummy_quiet env world delay Halone Hunfailing Hpauses fruits browser
              s Hrun)
    as (Hl & Ht & Hs & Hh).
  split; [reflexivity|]. split; [|split; [|split]].
  - eexists. split; [exact Hl|apply launch_without_profile].
  - rewrite Ht. apply reverse_involutive.
  - exact Hs.
  - exact Hh.
Qed.

(** The sample run that nothing disturbs meets these conditions. *)
Lemma undisturbed_pauses : pauses_return sample_env undisturbed 3.0.
Proof. repeat split; intros; vm_compute; reflexivity. Qed.

Lemma dummy_profile_run_witness :
  is_running started_state = true
  /\ alone undisturbed
  /\ unfailing undisturbed
  /\ pauses_return sample_env undisturbed 3.0
  /\ submitted (effects (run_thread sample_env undisturbed firefox_thread started_state))
     = 2.
Proof.
  assert (Halone : alone undisturbed) by (intros k s; reflexivity).
  assert (Hunfailing : unfailing undisturbed) by (intros k; reflexivity).
  split; [reflexivity|]. split; [exact Halone|]. split; [exact Hunfailing|].
  split; [exact undisturbed_pauses|].
  exact (proj1 (proj2 (proj2 (proj2
           (dummy_profile_run sample_env undisturbed started_state
              ["apple"; "banana"] 3.0%Q "firefox" eq_refl Halone Hunfailing
              undisturbed_pauses))))).
Defined.

(** C10 as stated fails: on this run without profiles a stop request
    arrives after the first of two searches; the browser was launched,
    but one search only is performed, not one per term. *)
Lemma stopped_run_misses_terms :
  th_profiles firefox_thread = []
  /\ length (launches (effects stopped_run)) = 1
  /\ submitted (effects stopped_run) = 1
  /\ submitted (effects stopped_run) <> length (th_fruits firefox_thread).
Proof. vm_compute. repeat split; discriminate. Qed.

(** ** Persistence *)

Section Documents.
Context {A : Type}.
Variable json_dumps : A -> string.
Variable json_loads : string -> option A.

(** What is assumed of the [json] module: the text it writes is valid
    UTF-8 (it is ASCII, [ensure_ascii] being on) and reads back as the
    value written. *)
Hypothesis dumps_utf8 : forall v, utf8_valid (json_dumps v) = true.
Hypothesis loads_dumps : forall v, json_loads (json_dumps v) = Some v.

(** A save that succeeds followed by a load of the same key returns the
    value saved. *)
Lemma save_then_load (filename : string) (data : A) (disk : gmap string Node) :
  disk !! filename <> Some Unopenable ->
  fst (load_from_file json_loads filename
         (fst (save_to_file json_dumps filename data disk)))
  = Val (Some data).
Proof.
  intros Hopen. unfold save_to_file, open_write.
  destruct (disk !! filename) as [[bytes|]|] eqn:Hfile; [|congruence|];
    cbn [fst]; unfold load_from_file, load_attempt, path_exists, open_read;
    rewrite lookup_insert_eq; unfold read_text, json_load;
    rewrite dumps_utf8, loads_dumps; reflexivity.
Qed.

(** Saving one key leaves the others alone. *)
Lemma save_other_key (filename other : string) (data : A) (disk : gmap string Node) :
  filename <> other ->
  fst (save_to_file json_dumps filename data disk) !! other = disk !! other.
Proof.
  intros Hne. unfold save_to_file, open_write.
  destruct (disk !! filename) as [[bytes|]|]; cbn [fst]; [|reflexivity|];
    rewrite !lookup_insert_ne by exact Hne; reflexivity.
Qed.
End Documents.

(** A key that was never saved, a file [open] refuses, and a file that is
    text but not JSON all load as [None]. *)
Lemma load_missing {A} (json_loads : string -> option A) (filename : string)
    (disk : gmap string Node) :
  disk !! filename = None ->
  fst (load_from_file json_loads filename disk) = Val None.
Proof.
  intros Hnone. unfold load_from_file, load_attempt, path_exists.
  rewrite Hnone. reflexivity.
Qed.

Lemma load_unopenable {A} (json_loads : string -> option A) (filename : string)
    (disk : gmap string Node) :
  disk !! filename = Some Unopenable ->
  fst (load_from_file json_loads filename disk) = Val None.
Proof.
  intros Hfile. unfold load_from_file, load_attempt, path_exists, open_read.
  rewrite Hfile. reflexivity.
Qed.

Lemma load_not_json {A} (json_loads : string -> option A) (filename : string)
    (disk : gmap string Node) (bytes : string) :
  disk !! filename = Some (File bytes) ->
  utf8_valid bytes = true ->
  json_loads bytes = None ->
  fst (load_from_file json_loads filename disk) = Val None.
Proof.
  intros Hfile Hutf8 Hjson.
  unfold load_from_file, load_attempt, path_exists, open_read, read_text, json_load.
  rewrite Hfile, Hutf8, Hjson. reflexivity.
Qed.

(** A file that is not UTF-8 makes the load raise, whatever the JSON
    parser would do: the exception of the decoder is not among those
    [load_from_file] catches. *)
Lemma load_not_utf8 {A} (json_loads : string -> option A) (filename : string)
    (disk : gmap string Node) (bytes : string) :
  disk !! filename = Some (File bytes) ->
  utf8_valid bytes = false ->
  fst (load_from_file json_loads filename disk) = Exc UnicodeDecodeError.
Proof.
  intros Hfile Hutf8.
  unfold load_from_file, load_attempt, path_exists, open_read, read_text.
  rewrite Hfile, Hutf8. reflexivity.
Qed.

(** C8, where the code departs from it. With a [fruits.json] that is
    corrupt in that it is not UTF-8, [load_from_file] and the handler of
    [GET /api/load] raise [UnicodeDecodeError] instead of giving [None]
    and the empty list. *)
Theorem load_corrupt_file_raises (json_loads : string -> option (list string)) :
  path_exists corrupt_disk "fruits.json" = true
  /\ fst (load_from_file json_loads "fruits.json" corrupt_disk) = Exc UnicodeDecodeError
  /\ load_fruits json_loads corrupt_disk = Exc UnicodeDecodeError.
Proof.
  assert (Hfile : corrupt_disk !! "fruits.json"
                  = Some (File (String (ascii_of_nat 255) EmptyString)))
    by apply lookup_singleton_eq.
  assert (Hload : fst (load_from_file json_loads "fruits.json" corrupt_disk)
                  = Exc UnicodeDecodeError)
    by (apply (load_not_utf8 json_loads _ _ _ Hfile); reflexivity).
  split; [unfold path_exists; rewrite Hfile; reflexivity|].
  split; [exact Hload|].
  unfold load_fruits. rewrite Hload. reflexivity.
Qed.

(** * Further properties of the code *)

(** ** The browser launcher *)

Lemma spawn_outcome (env : Env) (cmd : Command) :
  snd (spawn env cmd) = [cmd]
  /\ (fst (spawn env cmd) = Some cmd /\ popen env cmd = Started
      \/ fst (spawn env cmd) = None /\ popen env cmd <> Started).
Proof.
  unfold spawn. destruct (popen env cmd) eqn:Hp; cbn; split; try reflexivity;
    first [left; split; reflexivity | right; split; [reflexivity|discriminate]].
Qed.

Lemma try_chrome_cmds_outcome (env : Env) (dir : string) (cmds : list string) :
  let r := try_chrome_cmds env dir cmds in
  let mk := fun c => mkCommand (Argv [c; profile_flag dir]) false in
  (exists n, snd r = map mk (take n cmds))
  /\ match fst r with
     | Some h =>
         popen env h = Started
         /\ exists before, snd r = before ++ [h]
                           /\ Forall (fun c => popen env c = FileNotFound) before
     | None => Forall (fun c => popen env c <> Started) (snd r)
     end.
Proof.
  cbv zeta. induction cmds as [|c cmds [[n Hn] IH]]; cbn [try_chrome_cmds].
  - split; [exists 0; reflexivity|constructor].
  - destruct (popen env (mkCommand (Argv [c; profile_flag dir]) false)) eqn:Hp.
    + split; [exists 1; reflexivity|]. cbn. split; [exact Hp|].
      exists []. split; [reflexivity|constructor].
    + destruct (try_chrome_cmds env dir cmds) as [handle tried]. cbn in *.
      split; [exists (S n); cbn; rewrite Hn; reflexivity|].
      destruct handle as [h|].
      * destruct IH as (Hh & before & Hbefore & Hmissing). split; [exact Hh|].
        exists (mkCommand (Argv [c; profile_flag dir]) false :: before).
        rewrite Hbefore. split; [reflexivity|]. constructor; assumption.
      * constructor; [rewrite Hp; discriminate|exact IH].
    + split; [exists 1; reflexivity|]. cbn. repeat constructor.
      rewrite Hp. discriminate.
Qed.

(** X1. The launcher passes [--profile-directory=<dir>] in every command
    it issues when the browser is "chrome" and the directory is a
    non-empty string, and in no command otherwise (another browser, no
    directory, an empty one). *)
Theorem launch_profile_argument (env : Env) (browser : string) (dir : option string) :
  let calls := snd (launch_browser env browser dir) in
  if String.eqb browser "chrome" && truthy_opt dir
  then Forall (fun c => In (profile_flag (default "" dir)) (words c)) calls
  else Forall (fun c => selects_profile c = false) calls.
Proof.
  cbv zeta. destruct (String.eqb browser "chrome" && truthy_opt dir) eqn:Hwith.
  - unfold launch_browser. rewrite Hwith.
    destruct (system env).
    + rewrite (proj1 (spawn_outcome _ _)). constructor; [|constructor].
      cbn. right. right. left. reflexivity.
    + rewrite (proj1 (spawn_outcome _ _)). constructor; [|constructor].
      cbn. do 4 right. left. reflexivity.
    + destruct (try_chrome_cmds_outcome env (default "" dir) chrome_cmds)
        as [[n Hn] _].
      rewrite Hn. apply Forall_map, Forall_forall. intros c _.
      cbn. right. left. reflexivity.
    + constructor.
  - assert (Hsame : launch_browser env browser dir = launch_browser env browser None).
    { unfold launch_browser. rewrite Hwith. cbn [truthy_opt].
      rewrite andb_false_r. reflexivity. }
    rewrite Hsame. apply launch_without_profile.
Qed.

(** X2. The launcher returns a handle exactly when the last [Popen] call
    it made started a process, every call before that one having failed
    with [FileNotFoundError]; when it returns [None], no call it made
    started a process. *)
Theorem launch_handle_started (env : Env) (browser : string) (dir : option string) :
  match fst (launch_browser env browser dir) with
  | Some h =>
      popen env h = Started
      /\ exists before,
           snd (launch_browser env browser dir) = before ++ [h]
           /\ Forall (fun c => popen env c = FileNotFound) before
  | None =>
      Forall (fun c => popen env c <> Started) (snd (launch_browser env browser dir))
  end.
Proof.
  assert (Hspawn : forall cmd,
    match fst (spawn env cmd) with
    | Some h =>
        popen env h = Started
        /\ exists before, snd (spawn env cmd) = before ++ [h]
                          /\ Forall (fun c => popen env c = FileNotFound) before
    | None => Forall (fun c => popen env c <> Started) (snd (spawn env cmd))
    end).
  { intros cmd. destruct (spawn_outcome env cmd) as [Hcalls [[Hh Hp]|[Hh Hp]]];
      rewrite Hh, Hcalls.
    - split; [exact Hp|]. exists []. split; [reflexivity|constructor].
    - repeat constructor. exact Hp. }
  unfold launch_browser.
  destruct (system env);
    destruct (String.eqb browser "chrome" && truthy_opt dir);
    try apply Hspawn; try (cbn; constructor).
  apply (try_chrome_cmds_outcome env (default "" dir) chrome_cmds).
Qed.

(** X3. On Linux, Chrome with a profile is looked for under the names
    google-chrome, google-chrome-stable, chromium-browser and chromium,
    in this order and each with the profile argument; the calls made are
    an initial segment of these four, and all four are made, to no
    avail, when none of the programs exists. *)
Theorem launch_linux_candidates (env : Env) (d : string) :
  system env = Linux ->
  d <> "" ->
  let candidates :=
    map (fun c => mkCommand (Argv [c; "--profile-directory=" +:+ d]) false)
        ["google-chrome"; "google-chrome-stable"; "chromium-browser"; "chromium"] in
  (exists n, snd (launch_browser env "chrome" (Some d)) = take n candidates)
  /\ (Forall (fun c => popen env c = FileNotFound) candidates ->
      launch_browser env "chrome" (Some d) = (None, candidates)).
Proof.
  intros Hsys Hd. cbv zeta. unfold launch_browser. rewrite Hsys.
  assert (Htruthy : truthy_opt (Some d) = true) by (destruct d; [congruence|reflexivity]).
  rewrite Htruthy. cbn [String.eqb Ascii.eqb Bool.eqb andb default from_option id].
  change (if String.eqb "chrome" "chrome" && true then ?a else ?b) with a.
  split.
  - destruct (try_chrome_cmds_outcome env d chrome_cmds) as [[n Hn] _].
    exists n. rewrite Hn. unfold chrome_cmds, profile_flag.
    rewrite firstn_map. reflexivity.
  - intros Hmissing. cbn [map] in Hmissing.
    apply Forall_cons in Hmissing as [H1 Hmissing].
    apply Forall_cons in Hmissing as [H2 Hmissing].
    apply Forall_cons in Hmissing as [H3 Hmissing].
    apply Forall_cons in Hmissing as [H4 _].
    unfold chrome_cmds. cbn [try_chrome_cmds map]. unfold profile_flag.
    rewrite H1, H2, H3, H4. reflexivity.
Qed.

Lemma launch_linux_candidates_witness :
  system sample_env = Linux
  /\ "Profile 1" <> ""
  /\ exists n,
       snd (launch_browser sample_env "chrome" (Some "Profile 1"))
       = take n (map (fun c => mkCommand (Argv [c; "--profile-directory=Profile 1"]) false)
                     ["google-chrome"; "google-chrome-stable"; "chromium-browser";
                      "chromium"]).
Proof.
  split; [reflexivity|]. split; [discriminate|].
  exact (proj1 (launch_linux_candidates sample_env "Profile 1" eq_refl
                  ltac:(discriminate))).
Defined.

(** ** The start handler *)

(** The reply to a request that passes the three checks. *)
Lemma start_reply_accepted (env : Env) (data : StartRequest) (g : Globals) :
  let d := default 3.0%Q (delay data) in
  let b := default "chrome" (browser data) in
  let ps := resolve_profiles env g b (selectedProfiles data) (useDefaultIfNoProfile data) in
  let n := length (fruits data) * (if truthy ps then length ps else 1) in
  let w1 := if Qltb d 0.5
            then Some "Delay was below minimum (0.5s), set to 3.0s" else None in
  let w2 := match system env with
            | Linux =>
                if negb (truthy_opt (DISPLAY env))
                then Some ("Warning: No display detected. Automation may fail on "
                           +:+ "headless systems.")
                else w1
            | _ => w1
            end in
  is_running (state g) = false ->
  truthy (fruits data) = true ->
  String.eqb b "chrome" && negb (truthy ps) = false ->
  reply (start_automation env data g)
  = if truthy ps && String.eqb b "chrome"
    then match names_of ps with
         | Val ns => Val (mkResponse 202 (StartedBody "Automation started" n (Some ns) w2))
         | Exc e => Exc e
         end
    else Val (mkResponse 202 (StartedBody "Automation started" n None w2)).
Proof.
  cbv zeta. intros Hrun Hfruits Hsel. unfold start_automation.
  rewrite Hrun, Hfruits. cbn [negb].
  destruct (Qltb (default 3.0%Q (delay data)) 0.5); rewrite Hsel;
    (destruct (truthy _ && String.eqb _ "chrome");
     [destruct (names_of _)|]);
    destruct (system env); try reflexivity;
    destruct (truthy_opt (DISPLAY env)); reflexivity.
Qed.

Lemma refuse_shape (g : Globals) (msg : string) :
  refuse g msg = mkStartOutcome (Val (mkResponse 400 (ErrorBody msg))) g None.
Proof. reflexivity. Qed.

(** X4. A start request is refused exactly when a run is active, or it
    has no terms, or the browser is Chrome, discovery (if the request
    reaches it) returns, and no profile can be resolved. A refused
    request gets a 400 reply, changes nothing and starts nothing. When
    the request reaches discovery (terms given, no run active, Chrome,
    no selection in the body or in memory, [useDefaultIfNoProfile]) and
    discovery raises, the exception escapes the handler: no reply of its
    own, nothing changed, nothing started. Any other request starts one
    thread, records it in [worker_thread], keeps the remembered
    selection, and leaves the state reset: [is_running] true, the status
    "Starting automation...", [progress] and [completed] 0, [total] the
    number of terms times the number of profiles (times 1 without
    profiles), [current_search] and [current_profile] as they were. *)
Theorem start_refused_iff (raised : option exn) (env : Env) (data : StartRequest)
    (g : Globals) :
  let b := default "chrome" (browser data) in
  let ps := resolve_profiles env g b (selectedProfiles data) (useDefaultIfNoProfile data) in
  let out := start_automation_served raised env data g in
  if is_running (state g) || negb (truthy (fruits data))
  then exists msg, out = mkStartOutcome (Val (mkResponse 400 (ErrorBody msg))) g None
  else
    match (if reaches_discovery data g then raised else None) with
    | Some e => out = mkStartOutcome (Exc e) g None
    | None =>
        if String.eqb b "chrome" && negb (truthy ps)
        then exists msg,
               out = mkStartOutcome (Val (mkResponse 400 (ErrorBody msg))) g None
        else exists th,
               spawned out = Some th
               /\ worker_thread (globals_after out) = Some th
               /\ selected_profiles_memory (globals_after out)
                  = selected_profiles_memory g
               /\ state (globals_after out)
                  = mkRunState true "Starting automation..." 0
                      (current_search (state g)) (current_profile (state g)) 0
                      (length (fruits data) * (if truthy ps then length ps else 1))
               /\ th_fruits th = fruits data
               /\ th_profiles th = ps
    end.
Proof.
  cbv zeta.
  assert (Hserved : start_automation_served raised env data g
                    = match (if reaches_discovery data g then raised else None) with
                      | Some e => mkStartOutcome (Exc e) g None
                      | None => start_automation env data g
                      end).
  { unfold start_automation_served.
    destruct raised as [e|]; destruct (reaches_discovery data g); reflexivity. }
  assert (Hearly : is_running (state g) || negb (truthy (fruits data)) = true ->
                   reaches_discovery data g = false).
  { unfold reaches_discovery.
    destruct (is_running (state g)); [reflexivity|].
    destruct (truthy (fruits data)); [discriminate|reflexivity]. }
  rewrite Hserved. clear Hserved.
  destruct (is_running (state g)) eqn:Hrun; cbn [orb] in *.
  { rewrite Hearly by reflexivity.
    eexists. unfold start_automation. rewrite Hrun. apply refuse_shape. }
  destruct (truthy (fruits data)) eqn:Hfruits; cbn [orb negb] in *.
  2: { rewrite Hearly by reflexivity.
       eexists. unfold start_automation. rewrite Hrun, Hfruits. apply refuse_shape. }
  clear Hearly.
  destruct (if reaches_discovery data g then raised else None) as [e|]; [reflexivity|].
  destruct (String.eqb (default "chrome" (browser data)) "chrome" && _) eqn:Hsel.
  { eexists. rewrite start_refuses_no_profiles by assumption. apply refuse_shape. }
  pose proof (start_accepts env data g Hrun Hfruits Hsel) as Hth.
  destruct (start_spawned env data g _ Hth) as (_ & _ & _ & _ & Hw & Hmem & Hstate).
  eexists. split; [exact Hth|]. rewrite Hw, Hmem, Hstate. repeat split; reflexivity.
Qed.

(** X5. For a browser other than Chrome, profiles play no part: whatever
    the request selects and whatever selection is remembered, an accepted
    request runs without profiles, counts one search per term, and its
    202 reply has no [profiles_in_use] field. *)
Theorem start_other_browser (env : Env) (data : StartRequest) (g : Globals) :
  is_running (state g) = false ->
  fruits data <> [] ->
  String.eqb (default "chrome" (browser data)) "chrome" = false ->
  exists th warning,
    spawned (start_automation env data g) = Some th
    /\ th_profiles th = []
    /\ total (state (globals_after (start_automation env data g)))
       = length (fruits data)
    /\ reply (start_automation env data g)
       = Val (mkResponse 202
                (StartedBody "Automation started" (length (fruits data)) None warning)).
Proof.
  intros Hrun Hfruits Hb. apply truthy_nonempty in Hfruits.
  assert (Hps : resolve_profiles env g (default "chrome" (browser data))
                  (selectedProfiles data) (useDefaultIfNoProfile data) = []).
  { unfold resolve_profiles. rewrite Hb. reflexivity. }
  assert (Hsel : String.eqb (default "chrome" (browser data)) "chrome"
                 && negb (truthy (resolve_profiles env g (default "chrome" (browser data))
                                    (selectedProfiles data) (useDefaultIfNoProfile data)))
                 = false) by (rewrite Hb; reflexivity).
  pose proof (start_accepts env data g Hrun Hfruits Hsel) as Hth.
  destruct (start_spawned env data g _ Hth) as (_ & _ & _ & _ & _ & _ & Hstate).
  pose proof (start_reply_accepted env data g Hrun Hfruits Hsel) as Hreply.
  rewrite Hps in Hth, Hstate, Hreply. cbn [truthy andb] in Hstate, Hreply.
  rewrite Nat.mul_1_r in Hstate, Hreply.
  eexists _, _. split; [exact Hth|]. split; [reflexivity|].
  split; [rewrite Hstate; reflexivity|]. exact Hreply.
Qed.

Lemma start_other_browser_witness :
  is_running (state idle_globals) = false
  /\ fruits firefox_request <> []
  /\ selectedProfiles firefox_request <> []
  /\ exists th,
       spawned (start_automation sample_env firefox_request idle_globals) = Some th
       /\ th_profiles th = [].
Proof.
  split; [reflexivity|]. split; [discriminate|]. split; [discriminate|].
  destruct (start_other_browser sample_env firefox_request idle_globals)
    as (th & w & Hth & Hps & _); [reflexivity|discriminate|reflexivity|].
  exists th. split; assumption.
Defined.

Lemma names_of_all (ps : list Profile) :
  match names_of ps with
  | Val ns => map Some ns = map name ps
  | Exc e => e = KeyError "name" /\ exists p, In p ps /\ name p = None
  end.
Proof.
  induction ps as [|p ps IH]; cbn; [reflexivity|].
  destruct (name p) as [n|] eqn:Hn.
  - destruct (names_of ps) as [ns|e]; cbn.
    + rewrite IH. reflexivity.
    + destruct IH as [He (q & Hq & Hname)]. split; [exact He|].
      exists q. split; [right; exact Hq|exact Hname].
  - split; [reflexivity|]. exists p. split; [left; reflexivity|exact Hn].
Qed.

(** X6. An accepted request for Chrome lists the names of the profiles it
    runs on, in order, in [profiles_in_use]. When one of these profiles
    has no name, the handler raises [KeyError] instead of replying, after
    it has set the state to running and started the thread. *)
Theorem start_profiles_in_use (env : Env) (data : StartRequest) (g : Globals) :
  let ps := resolve_profiles env g "chrome" (selectedProfiles data)
              (useDefaultIfNoProfile data) in
  let out := start_automation env data g in
  is_running (state g) = false ->
  fruits data <> [] ->
  default "chrome" (browser data) = "chrome" ->
  ps <> [] ->
  (exists th, spawned out = Some th /\ th_profiles th = ps)
  /\ is_running (state (globals_after out)) = true
  /\ match reply out with
     | Val resp =>
         exists ns total_searches warning,
           map Some ns = map name ps
           /\ resp = mkResponse 202
                       (StartedBody "Automation started" total_searches (Some ns) warning)
     | Exc e => e = KeyError "name" /\ exists p, In p ps /\ name p = None
     end.
Proof.
  cbv zeta. intros Hrun Hfruits Hb Hps.
  apply truthy_nonempty in Hfruits. apply truthy_nonempty in Hps.
  assert (Hsel : String.eqb (default "chrome" (browser data)) "chrome"
                 && negb (truthy (resolve_profiles env g (default "chrome" (browser data))
                                    (selectedProfiles data) (useDefaultIfNoProfile data)))
                 = false) by (rewrite Hb, Hps; reflexivity).
  pose proof (start_accepts env data g Hrun Hfruits Hsel) as Hth.
  destruct (start_spawned env data g _ Hth) as (_ & _ & _ & _ & _ & _ & Hstate).
  pose proof (start_reply_accepted env data g Hrun Hfruits Hsel) as Hreply.
  rewrite Hb in Hth, Hreply. rewrite Hps in Hreply. cbn [andb String.eqb] in Hreply.
  split; [eexists; split; [exact Hth|reflexivity]|].
  split; [rewrite Hstate; reflexivity|].
  rewrite Hreply.
  change (String.eqb "chrome" "chrome") with true. cbv iota.
  pose proof (names_of_all (resolve_profiles env g "chrome" (selectedProfiles data)
                              (useDefaultIfNoProfile data))) as Hnames.
  destruct (names_of _) as [ns|e]; [|exact Hnames].
  eexists ns, _, _. split; [exact Hnames|reflexivity].
Qed.

Lemma start_profiles_in_use_witness :
  is_running (state idle_globals) = false
  /\ fruits nameless_request <> []
  /\ reply (start_automation sample_env nameless_request idle_globals)
     = Exc (KeyError "name")
  /\ is_running (state (globals_after
                          (start_automation sample_env nameless_request idle_globals)))
     = true.
Proof.
  split; [reflexivity|]. split; [discriminate|].
  destruct (start_profiles_in_use sample_env nameless_request idle_globals)
    as (_ & Hstate & Hreply); [reflexivity|discriminate|reflexivity|discriminate|].
  split; [reflexivity|exact Hstate].
Defined.

Lemma start_accepted_conditions (env : Env) (data : StartRequest) (g : Globals)
    (resp : Response) :
  reply (start_automation env data g) = Val resp -> code resp = 202 ->
  is_running (state g) = false
  /\ truthy (fruits data) = true
  /\ String.eqb (default "chrome" (browser data)) "chrome"
     && negb (truthy (resolve_profiles env g (default "chrome" (browser data))
                        (selectedProfiles data) (useDefaultIfNoProfile data)))
     = false.
Proof.
  intros Hreply Hcode.
  destruct (start_reply_warning env data g resp Hreply Hcode) as [[th Hth] _].
  destruct (start_spawned env data g th Hth) as (Hrun & Hfruits & Hres & _).
  repeat split; [exact Hrun|exact Hfruits|].
  destruct (String.eqb _ "chrome"); [|reflexivity].
  rewrite (Hres eq_refl). reflexivity.
Qed.

(** X7. The [warning] of a 202 reply. On Linux without [DISPLAY] it is
    the no-display warning, also when the delay was replaced: the delay
    warning is overwritten. Otherwise it is the delay warning when the
    delay (3.0 if absent) is below 0.5, and there is no warning field
    when it is not. *)
Theorem start_warning (env : Env) (data : StartRequest) (g : Globals)
    (resp : Response) :
  reply (start_automation env data g) = Val resp ->
  code resp = 202 ->
  let headless :=
    match system env with Linux => negb (truthy_opt (DISPLAY env)) | _ => false end in
  response_warning resp
  = if headless
    then Some "Warning: No display detected. Automation may fail on headless systems."
    else if Qlt_le_dec (default 3.0%Q (delay data)) 0.5
         then Some "Delay was below minimum (0.5s), set to 3.0s"
         else None.
Proof.
  intros Hreply Hcode.
  destruct (start_accepted_conditions env data g resp Hreply Hcode)
    as (Hrun & Hfruits & Hsel).
  pose proof (start_reply_accepted env data g Hrun Hfruits Hsel) as Hr.
  rewrite Hreply in Hr. cbv zeta in Hr |- *.
  assert (Hdelay : (if Qltb (default 3.0%Q (delay data)) 0.5
                    then Some "Delay was below minimum (0.5s), set to 3.0s" else None)
                   = (if Qlt_le_dec (default 3.0%Q (delay data)) 0.5
                      then Some "Delay was below minimum (0.5s), set to 3.0s" else None)).
  { destruct (Qlt_le_dec (default 3.0%Q (delay data)) 0.5) as [Hlt|Hge].
    - apply Qltb_lt in Hlt. rewrite Hlt. reflexivity.
    - apply Qltb_ge in Hge. rewrite Hge. reflexivity. }
  rewrite <- Hdelay. clear Hdelay.
  destruct (truthy _ && String.eqb _ "chrome");
    [destruct (names_of _); [|discriminate]|];
    injection Hr as ->; unfold response_warning; cbn [body];
    destruct (system env); try reflexivity;
    destruct (truthy_opt (DISPLAY env)); reflexivity.
Qed.

Lemma start_warning_witness :
  reply (start_automation headless_env sample_request idle_globals) = Val headless_reply
  /\ code headless_reply = 202
  /\ (default 3.0 (delay sample_request) < 0.5)%Q
  /\ response_warning headless_reply
     = Some "Warning: No display detected. Automation may fail on headless systems.".
Proof.
  split; [reflexivity|]. split; [reflexivity|]. split; [reflexivity|].
  exact (start_warning headless_env sample_request idle_globals headless_reply
           eq_refl eq_refl).
Defined.

(** X8. The guard of the start handler reads [is_running] only. After a
    stop request, a start request that has terms and resolvable profiles
    is accepted at once, whether or not the thread recorded in
    [worker_thread] has left its loops; the reference to that thread is
    replaced. *)
Theorem start_after_stop (env : Env) (data : StartRequest) (g : Globals) :
  let g1 := snd (stop_automation g) in
  let b := default "chrome" (browser data) in
  let ps := resolve_profiles env g b (selectedProfiles data) (useDefaultIfNoProfile data) in
  fruits data <> [] ->
  (b = "chrome" -> ps <> []) ->
  exists th,
    spawned (start_automation env data g1) = Some th
    /\ worker_thread (globals_after (start_automation env data g1)) = Some th
    /\ is_running (state (globals_after (start_automation env data g1))) = true.
Proof.
  cbv zeta. intros Hfruits Hres. apply truthy_nonempty in Hfruits.
  assert (Hidle : is_running (state (snd (stop_automation g))) = false).
  { destruct g as [[run st pr cs cp c t] mem w]. destruct run; reflexivity. }
  assert (Hsame : resolve_profiles env (snd (stop_automation g))
                    (default "chrome" (browser data)) (selectedProfiles data)
                    (useDefaultIfNoProfile data)
                  = resolve_profiles env g (default "chrome" (browser data))
                      (selectedProfiles data) (useDefaultIfNoProfile data))
    by reflexivity.
  assert (Hsel : String.eqb (default "chrome" (browser data)) "chrome"
                 && negb (truthy (resolve_profiles env (snd (stop_automation g))
                                    (default "chrome" (browser data))
                                    (selectedProfiles data) (useDefaultIfNoProfile data)))
                 = false).
  { rewrite Hsame. destruct (String.eqb _ "chrome") eqn:Hb; [|reflexivity].
    apply String.eqb_eq in Hb. apply Hres, truthy_nonempty in Hb.
    rewrite Hb. reflexivity. }
  pose proof (start_accepts env data _ Hidle Hfruits Hsel) as Hth.
  destruct (start_spawned env data _ _ Hth) as (_ & _ & _ & _ & Hw & _ & Hstate).
  eexists. split; [exact Hth|]. split; [exact Hw|]. rewrite Hstate. reflexivity.
Qed.

Lemma start_after_stop_witness :
  is_running (state busy_globals) = true
  /\ worker_thread busy_globals <> None
  /\ fruits sample_request <> []
  /\ exists th,
       spawned (start_automation sample_env sample_request
                  (snd (stop_automation busy_globals))) = Some th.
Proof.
  split; [reflexivity|]. split; [discriminate|]. split; [discriminate|].
  destruct (start_after_stop sample_env sample_request busy_globals)
    as (th & Hth & _); [discriminate|discriminate|].
  exists th. exact Hth.
Defined.

(** ** Saving and loading the terms *)

(** X9. After [POST /api/save] with a list of terms, [GET /api/load]
    answers with that list, provided the file could be opened for
    writing and the [json] module reads back what it wrote for this
    list. *)
Theorem save_load_fruits (json_dumps : list string -> string)
    (json_loads : string -> option (list string)) (terms : list string)
    (disk : gmap string Node) :
  disk !! "fruits.json" <> Some Unopenable ->
  utf8_valid (json_dumps terms) = true ->
  json_loads (json_dumps terms) = Some terms ->
  load_fruits json_loads (snd (save_fruits json_dumps terms disk))
  = Val (mkResponse 200 (FruitsBody terms)).
Proof.
  intros Hopen Hutf8 Hloads. unfold save_fruits, load_fruits, save_to_file, open_write.
  destruct (disk !! "fruits.json") as [[bytes|]|] eqn:Hfile; [|congruence|];
    cbn [fst snd]; unfold load_from_file, load_attempt, path_exists, open_read;
    rewrite lookup_insert_eq; unfold read_text, json_load;
    rewrite Hutf8, Hloads; reflexivity.
Qed.

Lemma save_load_fruits_witness :
  (∅ : gmap string Node) !! "fruits.json" <> Some Unopenable
  /\ utf8_valid (print_terms ["apple"; "banana"]) = true
  /\ sample_loads (print_terms ["apple"; "banana"]) = Some ["apple"; "banana"]
  /\ load_fruits sample_loads (snd (save_fruits print_terms ["apple"; "banana"] ∅))
     = Val (mkResponse 200 (FruitsBody ["apple"; "banana"])).
Proof.
  assert (Hopen : (∅ : gmap string Node) !! "fruits.json" <> Some Unopenable)
    by (rewrite lookup_empty; discriminate).
  split; [exact Hopen|]. split; [reflexivity|]. split; [reflexivity|].
  apply (save_load_fruits print_terms sample_loads ["apple"; "banana"] ∅ Hopen);
    reflexivity.
Defined.

(** X10. [GET /api/load] answers with the empty list when [fruits.json]
    does not exist, cannot be opened, or holds text that is not JSON. *)
Theorem load_fruits_absent (json_loads : string -> option (list string))
    (disk : gmap string Node) :
  (disk !! "fruits.json" = None
   \/ disk !! "fruits.json" = Some Unopenable
   \/ exists bytes, disk !! "fruits.json" = Some (File bytes)
                    /\ utf8_valid bytes = true /\ json_loads bytes = None) ->
  load_fruits json_loads disk = Val (mkResponse 200 (FruitsBody [])).
Proof.
  intros Hcase. unfold load_fruits.
  assert (Hload : fst (load_from_file json_loads "fruits.json" disk) = Val None).
  { destruct Hcase as [Hnone|[Hdenied|(bytes & Hfile & Hutf8 & Hjson)]].
    - apply load_missing, Hnone.
    - apply load_unopenable, Hdenied.
    - apply (load_not_json json_loads _ _ bytes Hfile Hutf8 Hjson). }
  rewrite Hload. reflexivity.
Qed.

Lemma load_fruits_absent_witness :
  locked_disk !! "fruits.json" = Some Unopenable
  /\ load_fruits sample_loads locked_disk = Val (mkResponse 200 (FruitsBody [])).
Proof.
  assert (Hfile : locked_disk !! "fruits.json" = Some Unopenable)
    by apply lookup_singleton_eq.
  split; [exact Hfile|].
  apply (load_fruits_absent sample_loads locked_disk). right. left. exact Hfile.
Defined.

(** X11. When [fruits.json] cannot be opened for writing, [POST
    /api/save] writes nothing, the error goes to the console only, and
    the reply still says that the terms were saved. *)
Theorem save_fruits_silent_failure (json_dumps : list string -> string)
    (terms : list string) (disk : gmap string Node) :
  disk !! "fruits.json" = Some Unopenable ->
  save_fruits json_dumps terms disk
  = (mkResponse 200 (MessageBody ("Saved " +:+ pretty (length terms) +:+ " fruits")),
     disk)
  /\ snd (save_to_file json_dumps "fruits.json" terms disk)
     = [MsgSaveError "fruits.json" (IOError "Permission denied")].
Proof.
  intros Hfile. unfold save_fruits, save_to_file, open_write. rewrite Hfile.
  split; reflexivity.
Qed.

Lemma save_fruits_silent_failure_witness :
  locked_disk !! "fruits.json" = Some Unopenable
  /\ snd (save_fruits print_terms ["apple"; "banana"] locked_disk) = locked_disk.
Proof.
  assert (Hfile : locked_disk !! "fruits.json" = Some Unopenable)
    by apply lookup_singleton_eq.
  split; [exact Hfile|].
  rewrite (proj1 (save_fruits_silent_failure print_terms ["apple"; "banana"]
                    locked_disk Hfile)).
  reflexivity.
Defined.

(** ** Applying and restoring a profile selection *)

Lemma validate_filter (available selected : list Profile) (valid : list Profile)
    (invalid : list string) :
  validate available selected valid invalid
  = (valid ++ List.filter (known_directory available) selected,
     invalid ++ map (fun p => default "Unknown" (name p))
                    (List.filter (fun p => negb (known_directory available p)) selected)).
Proof.
  revert valid invalid. induction selected as [|p selected IH]; intros valid invalid.
  - cbn. rewrite !app_nil_r. reflexivity.
  - cbn [validate List.filter]. destruct (known_directory available p); cbn [negb].
    + rewrite IH, <- app_assoc. reflexivity.
    + rewrite IH, <- app_assoc. reflexivity.
Qed.

Lemma known_directory_spec (available : list Profile) (p : Profile) :
  known_directory available p = true
  <-> exists q, In q available /\ directory q = directory p.
Proof.
  unfold known_directory. rewrite bool_decide_eq_true, list_elem_of_In, in_map_iff.
  split; intros (q & H1 & H2); exists q; split; assumption.
Qed.

Lemma filter_all {A} (f : A -> bool) (l : list A) :
  Forall (fun x => f x = true) l -> List.filter f l = l.
Proof.
  induction 1 as [|x l Hx _ IH]; cbn; [reflexivity|]. rewrite Hx, IH. reflexivity.
Qed.

Lemma filter_none {A} (f : A -> bool) (l : list A) :
  List.filter (fun x => negb (f x)) l = [] <-> Forall (fun x => f x = true) l.
Proof.
  induction l as [|x l IH]; cbn; [split; [constructor|reflexivity]|].
  destruct (f x) eqn:Hx; cbn.
  - rewrite IH. split; [constructor; assumption|apply Forall_inv_tail].
  - split; [discriminate|]. intros H. apply Forall_inv in H. congruence.
Qed.

Lemma apply_profiles_unfold (json_dumps : list Profile -> string) (env : Env)
    (selected : list Profile) (g : Globals) (disk : gmap string Node) :
  let valid := List.filter (known_directory (available_profiles env)) selected in
  let invalid :=
    map (fun p => default "Unknown" (name p))
        (List.filter (fun p => negb (known_directory (available_profiles env) p))
                     selected) in
  apply_profiles json_dumps env selected g disk
  = (mkApplyReply ("Applied " +:+ pretty (length valid) +:+ " profiles") valid
       (if truthy invalid
        then Some ("Invalid profiles ignored: " +:+ join ", " invalid) else None),
     mkGlobals (state g) valid (worker_thread g),
     fst (save_to_file json_dumps "selected_profiles.json" valid disk)).
Proof.
  cbv zeta. unfold apply_profiles. rewrite validate_filter. reflexivity.
Qed.

(** X12. [POST /api/apply-profiles] keeps, in the order of the request,
    exactly the selected profiles whose directory is that of a discovered
    profile; this list is what the reply returns, what is remembered and
    what [GET /api/selected-profiles] then shows. The run state and the
    thread reference are untouched, and the reply has a warning exactly
    when some selected profile was ignored. *)
Theorem apply_profiles_keeps_known (json_dumps : list Profile -> string) (env : Env)
    (selected : list Profile) (g : Globals) (disk : gmap string Node) :
  let r := fst (fst (apply_profiles json_dumps env selected g disk)) in
  let g' := snd (fst (apply_profiles json_dumps env selected g disk)) in
  ap_selected r = List.filter (known_directory (available_profiles env)) selected
  /\ Forall (fun p => exists q, In q (available_profiles env)
                                /\ directory q = directory p) (ap_selected r)
  /\ get_selected_profiles g' = ap_selected r
  /\ state g' = state g
  /\ worker_thread g' = worker_thread g
  /\ (ap_warning r = None
      <-> Forall (fun p => exists q, In q (available_profiles env)
                                     /\ directory q = directory p) selected).
Proof.
  cbv zeta. rewrite apply_profiles_unfold. cbn [fst snd ap_selected ap_warning].
  repeat split.
  - apply List.Forall_forall. intros p Hp. apply filter_In in Hp as [_ Hp].
    apply known_directory_spec, Hp.
  - intros Hwarn. apply List.Forall_forall. intros p Hp.
    apply known_directory_spec.
    destruct (map _ _) eqn:Hmap; [|discriminate].
    apply map_eq_nil in Hmap.
    apply (proj1 (filter_none _ _)) in Hmap.
    rewrite List.Forall_forall in Hmap. apply Hmap, Hp.
  - intros Hall.
    assert (Hnone : List.filter
                      (fun p => negb (known_directory (available_profiles env) p))
                      selected = []).
    { apply filter_none. eapply Forall_impl; [exact Hall|].
      intros p Hp. apply known_directory_spec, Hp. }
    rewrite Hnone. reflexivity.
Qed.

(** X13. Applying a selection is idempotent: applying the selection that
    was kept changes neither the remembered selection nor the file, and
    gives no warning. *)
Theorem apply_profiles_idempotent (json_dumps : list Profile -> string) (env : Env)
    (selected : list Profile) (g : Globals) (disk : gmap string Node) :
  let once := apply_profiles json_dumps env selected g disk in
  let kept := ap_selected (fst (fst once)) in
  let twice := apply_profiles json_dumps env kept (snd (fst once)) (snd once) in
  ap_selected (fst (fst twice)) = kept
  /\ ap_warning (fst (fst twice)) = None
  /\ snd (fst twice) = snd (fst once)
  /\ snd twice = snd once.
Proof.
  cbv zeta. rewrite !apply_profiles_unfold. cbn [fst snd ap_selected ap_warning state
                                                  worker_thread].
  set (known := known_directory (available_profiles env)).
  assert (Hall : Forall (fun p => known p = true) (List.filter known selected)).
  { apply List.Forall_forall. intros p Hp. apply filter_In in Hp as [_ Hp]. exact Hp. }
  assert (Hkept : List.filter known (List.filter known selected)
                  = List.filter known selected) by (apply filter_all, Hall).
  assert (Hnone : List.filter (fun p => negb (known p)) (List.filter known selected)
                  = []) by (apply filter_none, Hall).
  rewrite Hkept, Hnone. repeat split.
  unfold save_to_file, open_write.
  destruct (disk !! "selected_profiles.json") as [[bytes|]|] eqn:Hfile; cbn [fst].
  - rewrite lookup_insert_eq. cbn [fst]. rewrite !insert_insert_eq. reflexivity.
  - rewrite Hfile. reflexivity.
  - rewrite lookup_insert_eq. cbn [fst]. rewrite !insert_insert_eq. reflexivity.
Qed.

(** X14. A process started after a selection was applied finds that
    selection in [selected_profiles_memory], provided the file could be
    written and the [json] module reads back what it wrote for the list
    that was kept. *)
Theorem startup_restores_selection (json_dumps : list Profile -> string)
    (json_loads : string -> option (list Profile)) (env : Env)
    (selected : list Profile) (g : Globals) (disk : gmap string Node) :
  let once := apply_profiles json_dumps env selected g disk in
  let kept := ap_selected (fst (fst once)) in
  disk !! "selected_profiles.json" <> Some Unopenable ->
  utf8_valid (json_dumps kept) = true ->
  json_loads (json_dumps kept) = Some kept ->
  startup json_loads (snd once) = Val (mkGlobals initial_state kept None)
  /\ selected_profiles_memory (snd (fst once)) = kept.
Proof.
  cbv zeta. rewrite apply_profiles_unfold. cbn [fst snd ap_selected].
  set (kept := List.filter _ selected). intros Hopen Hutf8 Hloads.
  split; [|reflexivity]. unfold startup.
  assert (Hload : fst (load_from_file json_loads "selected_profiles.json"
                         (fst (save_to_file json_dumps "selected_profiles.json" kept disk)))
                  = Val (Some kept)).
  { unfold save_to_file, open_write.
    destruct (disk !! "selected_profiles.json") as [[bytes|]|] eqn:Hfile;
      [|congruence|];
      cbn [fst]; unfold load_from_file, load_attempt, path_exists, open_read;
      rewrite lookup_insert_eq; unfold read_text, json_load;
      rewrite Hutf8, Hloads; reflexivity. }
  rewrite Hload. cbn [default from_option]. unfold id.
  destruct kept; reflexivity.
Qed.

Lemma startup_restores_selection_witness :
  (∅ : gmap string Node) !! "selected_profiles.json" <> Some Unopenable
  /\ startup sample_profiles_loads
       (snd (apply_profiles sample_profiles_dumps sample_env
               [stale_profile; work_profile] idle_globals ∅))
     = Val (mkGlobals initial_state [work_profile] None).
Proof.
  assert (Hopen : (∅ : gmap string Node) !! "selected_profiles.json" <> Some Unopenable)
    by (rewrite lookup_empty; discriminate).
  split; [exact Hopen|].
  exact (proj1 (startup_restores_selection sample_profiles_dumps sample_profiles_loads
                  sample_env [stale_profile; work_profile] idle_globals ∅ Hopen
                  eq_refl eq_refl)).
Defined.

(** X15. A start request for Chrome that names no profiles runs on the
    selection applied before, when that selection kept some profile. *)
Theorem start_uses_applied_selection (json_dumps : list Profile -> string) (env : Env)
    (selected : list Profile) (g : Globals) (disk : gmap string Node)
    (data : StartRequest) :
  let g' := snd (fst (apply_profiles json_dumps env selected g disk)) in
  let kept := List.filter (known_directory (available_profiles env)) selected in
  is_running (state g) = false ->
  fruits data <> [] ->
  default "chrome" (browser data) = "chrome" ->
  selectedProfiles data = [] ->
  kept <> [] ->
  exists th,
    spawned (start_automation env data g') = Some th
    /\ th_profiles th = kept
    /\ total (state (globals_after (start_automation env data g')))
       = length (fruits data) * length kept.
Proof.
  cbv zeta. rewrite apply_profiles_unfold. cbn [fst snd].
  set (kept := List.filter _ selected). intros Hrun Hfruits Hb Hreq Hkept.
  apply truthy_nonempty in Hfruits. apply truthy_nonempty in Hkept.
  set (g' := mkGlobals (state g) kept (worker_thread g)).
  assert (Hps : resolve_profiles env g' (default "chrome" (browser data))
                  (selectedProfiles data) (useDefaultIfNoProfile data) = kept).
  { unfold resolve_profiles. rewrite Hb, Hreq. cbn. rewrite Hkept. reflexivity. }
  assert (Hsel : String.eqb (default "chrome" (browser data)) "chrome"
                 && negb (truthy (resolve_profiles env g' (default "chrome" (browser data))
                                    (selectedProfiles data) (useDefaultIfNoProfile data)))
                 = false) by (rewrite Hps, Hkept, andb_false_r; reflexivity).
  pose proof (start_accepts env data g' Hrun Hfruits Hsel) as Hth.
  destruct (start_spawned env data g' _ Hth) as (_ & _ & _ & _ & _ & _ & Hstate).
  rewrite Hps in Hth, Hstate. rewrite Hkept in Hstate.
  eexists. split; [exact Hth|]. split; [reflexivity|].
  rewrite Hstate. reflexivity.
Qed.

Lemma start_uses_applied_selection_witness :
  is_running (state idle_globals) = false
  /\ fruits sample_request <> []
  /\ selectedProfiles sample_request = []
  /\ exists th,
       spawned (start_automation sample_env sample_request
                  (snd (fst (apply_profiles sample_profiles_dumps sample_env
                               [stale_profile; work_profile] idle_globals ∅))))
       = Some th
       /\ th_profiles th = [work_profile].
Proof.
  split; [reflexivity|]. split; [discriminate|]. split; [reflexivity|].
  destruct (start_uses_applied_selection sample_profiles_dumps sample_env
              [stale_profile; work_profile] idle_globals ∅ sample_request)
    as (th & Hth & Hps & _);
    [reflexivity|discriminate|reflexivity|reflexivity|discriminate|].
  exists th. split; [exact Hth|exact Hps].
Defined.

(** ** Runs that do nothing, and runs that nothing disturbs *)

Lemma env_turn_idle (oracle : Oracle) (m : Machine) :
  is_running (shared m) = false -> env_turn oracle m = tick m.
Proof. intros Hidle. rewrite env_turn_oracle, Hidle, andb_false_r. reflexivity. Qed.

Lemma effective_profiles_cons (profiles : list Profile) :
  exists p rest, effective_profiles profiles = p :: rest.
Proof. destruct profiles as [|p rest]; cbn; eauto. Qed.

(** A worker entered while [is_running] is false leaves both loops at the
    first check. *)
Lemma worker_idle (env : Env) (oracle : Oracle) (fruits : list string) (delay : Q)
    (browser : string) (profiles : list Profile) (s : RunState) :
  is_running s = false ->
  let m := snd (automation_worker env oracle fruits delay browser profiles (enter s)) in
  let T := worker_total fruits profiles in
  effects m = []
  /\ shared m
     = mkRunState false
         (if Nat.eqb 0 T then "Automation completed" else "Automation stopped")
         0.0 "" "" 0 T
  /\ length (history m) = 2.
Proof.
  intros Hidle. cbv zeta. rewrite automation_worker_unfold. cbv zeta.
  set (T := worker_total fruits profiles).
  destruct (effective_profiles_cons profiles) as (p & rest & ->).
  assert (Hbody : caught (for_each (visit env oracle fruits delay browser T) (p :: rest))
                    (reset oracle T (enter s))
                  = tick (reset oracle T (enter s))).
  { unfold caught. cbn [for_each]. unfold bind at 1. unfold visit, bind at 1.
    unfold read_is_running, yielding.
    assert (Hflag : is_running (shared (reset oracle T (enter s))) = false).
    { unfold reset. rewrite env_turn_idle by exact Hidle. exact Hidle. }
    rewrite env_turn_idle by exact Hflag. rewrite Hflag. reflexivity. }
  rewrite Hbody.
  assert (Hreset : reset oracle T (enter s)
                   = tick (snapshot (mkMachine (set_progress 0.0 (set_completed 0
                                                  (set_total T s))) 0 [] [] 0))).
  { unfold reset. apply env_turn_idle. exact Hidle. }
  rewrite Hreset.
  match goal with
  | |- context [cleanup T ?m0] =>
      destruct (cleanup_final T m0) as (_ & Hshared & Heffects & _ & Htrace)
  end.
  split; [exact Heffects|]. split; [exact Hshared|].
  unfold history. rewrite length_reverse, Htrace. reflexivity.
Qed.

(** X16. CLI mode never sets [is_running]: run in a process whose state
    is idle, as it is when the module is loaded, [search_from_file] calls
    the worker, which leaves its loops at the first check. No browser is
    launched and nothing is typed; the state ends with the status
    "Automation stopped" and no search completed. *)
Theorem cli_mode_inert (json_loads : string -> option (list string)) (env : Env)
    (oracle : Oracle) (disk : gmap string Node) (s : RunState) (filename : string)
    (delay : Q) (browser : string) (profile_names : option (list string))
    (th : Thread) (m : Machine) :
  is_running s = false ->
  search_from_file json_loads env oracle disk s filename delay browser profile_names
  = Val (Some (th, m)) ->
  th_fruits th <> []
  /\ effects m = []
  /\ completed (shared m) = 0
  /\ status (shared m) = "Automation stopped"
  /\ is_running (shared m) = false.
Proof.
  intros Hidle Hcli. unfold search_from_file in Hcli.
  destruct (fst (load_from_file json_loads filename disk)) as [loaded|e];
    [|discriminate].
  destruct (truthy (default [] loaded)) eqn:Hfruits; cbn [negb] in Hcli;
    [|discriminate].
  injection Hcli as <- <-. cbn [th_fruits]. unfold run_thread.
  cbn [th_fruits th_delay th_browser th_profiles].
  apply truthy_nonempty in Hfruits.
  match goal with
  | |- context [automation_worker env _ ?f ?d ?b ?ps (enter s)] =>
      destruct (worker_idle env oracle f d b ps s Hidle) as (Heffects & Hshared & _);
        pose proof (worker_total_positive f ps Hfruits) as Hpos
  end.
  split; [exact Hfruits|]. split; [exact Heffects|]. rewrite Hshared. cbn.
  repeat split.
  destruct (worker_total _ _); [lia|reflexivity].
Qed.

Lemma cli_mode_inert_witness :
  is_running initial_state = false
  /\ exists th m,
       search_from_file sample_loads sample_env undisturbed fruits_disk initial_state
         "fruits.json" 3.0%Q "firefox" None = Val (Some (th, m))
       /\ th_fruits th = ["apple"; "banana"]
       /\ effects m = [].
Proof.
  split; [reflexivity|].
  eexists _, _. split; [reflexivity|]. split; [reflexivity|].
  eapply (cli_mode_inert sample_loads sample_env undisturbed fruits_disk initial_state
            "fruits.json" 3.0%Q "firefox" None); reflexivity.
Defined.



(** ** Properties kept around the counting of a search *)

Lemma passive_silent (msg : Message) : passive (EPrint msg) -> silent (EPrint msg).
Proof. destruct msg; cbn; intros H; first [reflexivity | destruct H]. Qed.

Lemma launch_prints_silent (env : Env) (browser : string) (dir : option string) :
  Forall (fun msg => silent (EPrint msg)) (launch_browser_prints env browser dir).
Proof.
  eapply List.Forall_impl; [|apply launch_prints_passive].
  intros msg. apply passive_silent.
Qed.

Section Ambient.
Variable env : Env.
Variable world : World.
Variable P : Machine -> Prop.
Hypothesis HP : ambient world P.

Lemma ambient_read (Qe : exn -> Machine -> Prop) :
  triple P (read_is_running world) (fun _ => P) Qe.
Proof. intros m Hm. cbn. apply HP, Hm. Qed.

Lemma ambient_sleep (q : Q) (Qe : exn -> Machine -> Prop) :
  (forall e m, P m -> Qe e m) ->
  triple P (sleep env world q) (fun _ => P) Qe.
Proof.
  intros HQe m Hm. unfold sleep, yielding. destruct (sleep_raises env q); cbn.
  - apply HQe, HP, Hm.
  - apply HP. apply (proj1 (proj2 HP) (ESleep q) m I Hm).
Qed.

Lemma ambient_sleep_returns (q : Q) (Qe : exn -> Machine -> Prop) :
  sleep_raises env q = false ->
  triple P (sleep env world q) (fun _ => P) Qe.
Proof.
  intros Hq m Hm. unfold sleep, yielding. rewrite Hq. cbn.
  apply HP. apply (proj1 (proj2 HP) (ESleep q) m I Hm).
Qed.

Lemma ambient_prints (msgs : list Message) (m : Machine) :
  Forall (fun msg => silent (EPrint msg)) msgs ->
  P m ->
  fst (print_all msgs m) = Val tt /\ P (snd (print_all msgs m)).
Proof.
  intros Hmsgs. revert m. induction Hmsgs as [|msg rest Hmsg _ IH]; intros m Hm.
  - split; [reflexivity|exact Hm].
  - cbn [print_all]. unfold bind. cbn [emit].
    apply IH. apply (proj1 (proj2 HP) (EPrint msg) m Hmsg Hm).
Qed.

Lemma ambient_launch (browser : string) (dir : option string)
    (Qe : exn -> Machine -> Prop) :
  triple P (launch env world browser dir) (fun _ => P) Qe.
Proof.
  intros m Hm. unfold launch, yielding, bind. cbn [emit].
  destruct (ambient_prints (launch_browser_prints env browser dir) _
              (launch_prints_silent env browser dir)
              (proj1 (proj2 HP)
                 (ELaunch browser dir (snd (launch_browser env browser dir))) m I Hm))
    as [Hval Hinv].
  destruct (print_all _ _) as [[[]|e] m']; [|discriminate].
  apply HP, Hinv.
Qed.

Lemma ambient_pyautogui (a : InputAction) (Qe : exn -> Machine -> Prop) :
  (forall e m, P m -> Qe e m) ->
  triple P (pyautogui world a) (fun _ => P) Qe.
Proof.
  intros HQe m Hm. unfold pyautogui, yielding.
  destruct (fault world (clock m)) as [f|].
  - apply HQe. apply HP, Hm.
  - cbn [emit]. apply HP. apply (proj1 (proj2 HP) (EInput a) m I Hm).
Qed.

Lemma ambient_name (p : Profile) (Qe : exn -> Machine -> Prop) :
  (forall e m, P m -> Qe e m) ->
  triple P (getitem_name p) (fun _ => P) Qe.
Proof.
  intros HQe m Hm. unfold getitem_name.
  destruct (name p); cbn; [exact Hm|apply HQe, Hm].
Qed.

Lemma ambient_lock (f g : RunState -> RunState) (Qe : exn -> Machine -> Prop) :
  benign f -> benign g ->
  triple P (with_lock world (bind (assign f) (fun _ => assign g))) (fun _ => P) Qe.
Proof.
  intros Hf Hg m Hm. unfold with_lock, yielding, locked, bind. cbn [assign].
  destruct HP as (Hturn & _ & Hassign & Hsnap).
  apply Hturn, Hsnap.
  apply (Hassign g _ Hg (Hassign f m Hf Hm)).
Qed.

Lemma ambient_random (Qe : exn -> Machine -> Prop) :
  triple P (random_uniform world)
         (fun j m => P m /\ exists k, j = uniform world k) Qe.
Proof. intros m Hm. split; [exact Hm|]. exists (clock m). reflexivity. Qed.
End Ambient.

Lemma benign_status (v : string) : benign (set_status v).
Proof. intros s. repeat split. Qed.

Lemma benign_current_search (v : string) : benign (set_current_search v).
Proof. intros s. repeat split. Qed.

Lemma benign_current_profile (v : string) : benign (set_current_profile v).
Proof. intros s. repeat split. Qed.

(** A search in three phases: [P0] before the check of [is_running], [P]
    from there to the counting, [P'] after it, through the pause that
    ends the search. *)
Lemma search_phases (env : Env) (world : World) (P0 P P' : Machine -> Prop)
    (Qe : exn -> Machine -> Prop) (delay : Q) (T : nat) (fruit : string) :
  ambient world P ->
  triple P0 (read_is_running world) (fun r m => if r then P m else P0 m) Qe ->
  (forall e m, P m -> Qe e m) ->
  triple (stepped P)
         (with_lock world
            (bind get_completed (fun c' =>
             bind (assign (set_completed c')) (fun _ =>
             bind (lift (truediv c' T)) (fun q =>
             assign (set_progress (float_mul q 100)))))))
         (fun _ => P') Qe ->
  (forall k, triple P' (sleep env world (py_max 0.1 (float_add delay (uniform world k))))
                    (fun _ => P') Qe) ->
  triple P0 (search env world delay T fruit)
         (fun f m => match f with Next => P' m | Break => P0 m end) Qe.
Proof.
  intros HP Hread HQe Hcount Hpause. unfold search.
  eapply triple_bind; [exact Hread|].
  intros [|]; cbn [negb]; [|intros m Hm; exact Hm].
  eapply triple_bind;
    [apply (ambient_lock world P HP);
       [apply benign_current_search|apply benign_status]|].
  intros ?. eapply triple_bind; [apply (ambient_pyautogui world P HP), HQe|].
  intros ?. eapply triple_bind; [apply (ambient_sleep env world P HP), HQe|].
  intros ?. eapply triple_bind; [apply (ambient_pyautogui world P HP), HQe|].
  intros ?. eapply triple_bind; [apply (ambient_sleep env world P HP), HQe|].
  intros ?. eapply triple_bind; [apply (ambient_pyautogui world P HP), HQe|].
  intros ?. eapply triple_bind; [apply (ambient_sleep env world P HP), HQe|].
  intros ?. eapply triple_bind; [apply (ambient_pyautogui world P HP), HQe|].
  intros ?.
  apply (triple_bind P (fun c m => P m /\ c = local_completed m));
    [intros m Hm; split; [exact Hm|reflexivity]|].
  intros c.
  apply (triple_bind _ (fun _ => stepped P));
    [intros m [Hm Hc]; exists m; split; [exact Hm|rewrite Hc; reflexivity]|].
  intros ?. eapply triple_bind; [exact Hcount|].
  intros ?. eapply triple_bind; [apply (ambient_random world P')|].
  intros j.
  apply (triple_bind _ (fun _ => P'));
    [intros m [Hm [k ->]]; apply Hpause, Hm|].
  intros ? m Hm. exact Hm.
Qed.

(** A property that every search keeps is kept by a visit, by the pass
    over the profiles, and by the whole run. *)
Section Kept.
Variable env : Env.
Variable world : World.
Variable P : Machine -> Prop.
Variable fruits : list string.
Variable delay : Q.
Variable browser : string.
Variable T : nat.
Hypothesis HP : ambient world P.
Hypothesis P_print : forall msg m, P m -> P (snd (emit (EPrint msg) m)).
Hypothesis P_search :
  forall fruit rest, fruits = fruit :: rest ->
    forall x, triple P (search env world delay T x) (fun _ => P) (fun _ => P).
Hypothesis P_cleanup : forall m, P m -> P (snd (cleanup T m)).

Lemma kept_fruits :
  triple P (for_each (search env world delay T) fruits) (fun _ => P) (fun _ => P).
Proof.
  destruct fruits as [|fruit rest] eqn:Hfruits; [intros m Hm; exact Hm|].
  rewrite <- Hfruits.
  apply (triple_for_each (fun _ => P)); [|trivial].
  intros x l'. eapply triple_conseq; [apply (P_search fruit rest eq_refl x)|auto..].
  intros [|]; auto.
Qed.

Lemma kept_visit (p : Profile) :
  triple P (visit env world fruits delay browser T p) (fun _ => P) (fun _ => P).
Proof.
  unfold visit.
  eapply triple_bind; [apply (ambient_read world P HP)|].
  intros [|]; cbn [negb]; [|intros m Hm; exact Hm].
  eapply triple_bind; [apply (ambient_name P); auto|].
  intros n. eapply triple_bind;
    [apply (ambient_lock world P HP);
       [apply benign_current_profile|apply benign_status]|].
  intros ?. eapply triple_bind; [apply (ambient_launch env world P HP)|].
  intros ?. eapply triple_bind; [apply (ambient_sleep env world P HP); auto|].
  intros ?. eapply triple_bind; [apply kept_fruits|].
  intros ? m Hm. exact Hm.
Qed.

Lemma kept_caught (profiles : list Profile) (m : Machine) :
  P m -> P (caught (for_each (visit env world fruits delay browser T) profiles) m).
Proof.
  intros Hm. unfold caught.
  assert (Hloop : triple P (for_each (visit env world fruits delay browser T) profiles)
                         (fun _ => P) (fun _ => P)).
  { apply (triple_for_each (fun _ => P)); [|trivial].
    intros p l'. eapply triple_conseq; [apply (kept_visit p)|auto..].
    intros [|]; auto. }
  specialize (Hloop m Hm).
  destruct (for_each _ profiles m) as [[[]|e] m']; [exact Hloop|].
  destruct e; cbn [handler]; apply P_print, Hloop.
Qed.
End Kept.

Lemma worker_kept (env : Env) (world : World) (P : Machine -> Prop)
    (fruits : list string) (delay : Q) (browser : string) (profiles : list Profile)
    (s : RunState) :
  let T := worker_total fruits profiles in
  ambient world P ->
  (forall msg m, P m -> P (snd (emit (EPrint msg) m))) ->
  (fruits <> [] ->
   forall x, triple P (search env world delay T x) (fun _ => P) (fun _ => P)) ->
  (forall m, P m -> P (snd (cleanup T m))) ->
  P (reset world T (enter s)) ->
  P (snd (automation_worker env world fruits delay browser profiles (enter s))).
Proof.
  intros T HP Hprint Hsearch Hcleanup Hreset.
  rewrite automation_worker_unfold. cbv zeta. fold T.
  apply Hcleanup. apply kept_caught; try assumption.
  intros fruit rest Hfruits. apply Hsearch. rewrite Hfruits. discriminate.
Qed.

(** ** After a stop *)

Lemma winding_down_turn (world : World) (slack : nat) (m : Machine) :
  only_stops world ->
  slack <= 1 -> winding_down slack m -> winding_down slack (env_turn world m).
Proof.
  intros Hw Hslack (Hc & Hall & Hset).
  destruct (env_turn_only_stops world m Hw) as [->|[Hrun ->]];
    [exact (conj Hc (conj Hall Hset))|].
  unfold winding_down, stop_state. rewrite Hrun.
  cbn [shared local_completed trace settled completed set_status set_is_running
       is_running].
  split; [exact Hc|]. split; [|split; [|exact Hset]].
  - constructor; [intros _; split; [reflexivity|cbn; lia]|].
    eapply List.Forall_impl; [|exact Hall].
    intros s' H Hs'. destruct (H Hs') as [H1 H2]. split; [reflexivity|exact H2].
  - eapply List.Forall_impl; [|exact Hall].
    intros s' H Hs'. destruct (H Hs') as [H1 H2]. split; [reflexivity|lia].
Qed.

Lemma winding_down_snapshot (slack : nat) (m : Machine) :
  slack <= 1 -> winding_down slack m -> winding_down slack (snapshot m).
Proof.
  intros Hslack (Hc & Hall & Hset). unfold winding_down, snapshot.
  cbn [shared local_completed trace settled].
  split; [exact Hc|]. split; [|split; [|exact Hset]].
  - constructor; [intros H; split; [exact H|lia]|exact Hall].
  - eapply List.Forall_impl; [|exact Hall].
    intros s' H Hs'. destruct (H Hs') as [H1 H2]. split; [exact H1|lia].
Qed.

Lemma winding_down_ambient (world : World) (slack : nat) :
  only_stops world ->
  slack <= 1 -> ambient world (winding_down slack).
Proof.
  intros Hw Hslack. split; [|split; [|split]].
  - intros m. apply winding_down_turn; assumption.
  - intros e m _ H. exact H.
  - intros f m Hf (Hc & Hall & Hset). unfold winding_down. cbn.
    destruct (Hf (shared m)) as (-> & -> & _). auto.
  - intros m. apply winding_down_snapshot, Hslack.
Qed.

Lemma winding_down_read (world : World) (Qe : exn -> Machine -> Prop) :
  only_stops world ->
  triple (winding_down 1) (read_is_running world)
         (fun r m => if r then winding_down 0 m else winding_down 1 m) Qe.
Proof.
  intros Hw m Hm. unfold read_is_running, yielding.
  destruct (is_running (shared m)) eqn:Hrun.
  - apply winding_down_turn; [exact Hw|lia|].
    destruct Hm as (Hc & Hall & Hset). split; [exact Hc|]. split; [|exact Hset].
    eapply List.Forall_impl; [|exact Hall].
    intros s' H Hs'. destruct (H Hs') as [H1 _]. congruence.
  - apply winding_down_turn; [exact Hw|lia|exact Hm].
Qed.

Lemma winding_down_count (world : World) (T : nat) :
  only_stops world ->
  triple (stepped (winding_down 0))
         (with_lock world
            (bind get_completed (fun c' =>
             bind (assign (set_completed c')) (fun _ =>
             bind (lift (truediv c' T)) (fun q =>
             assign (set_progress (float_mul q 100)))))))
         (fun _ => winding_down 1) (fun _ => winding_down 1).
Proof.
  intros Hw m1 (m & (Hc & Hall & Hset) & ->). unfold with_lock, yielding, locked, bind.
  cbn [get_completed assign local_completed shared trace effects clock].
  destruct T as [|T]; cbn [lift truediv assign];
    (apply winding_down_turn; [exact Hw|lia|]); (apply winding_down_snapshot; [lia|]);
    (split; [reflexivity|]); (split; [|exact Hset]);
    (eapply List.Forall_impl; [|exact Hall]);
    intros s' H Hs'; destruct (H Hs') as [H1 H2];
    (split; [exact H1|cbn [local_completed]; lia]).
Qed.

Lemma winding_down_weaken (m : Machine) : winding_down 0 m -> winding_down 1 m.
Proof.
  intros (Hc & Hall & Hset). split; [exact Hc|]. split; [|exact Hset].
  eapply List.Forall_impl; [|exact Hall].
  intros s' H Hs'. destruct (H Hs') as [H1 H2]. split; [exact H1|lia].
Qed.

Lemma winding_down_search (env : Env) (world : World) (delay : Q) (T : nat)
    (fruit : string) :
  only_stops world ->
  triple (winding_down 1) (search env world delay T fruit)
         (fun _ => winding_down 1) (fun _ => winding_down 1).
Proof.
  intros Hw. eapply triple_conseq.
  - apply (search_phases env world (winding_down 1) (winding_down 0) (winding_down 1)
             (fun _ => winding_down 1)).
    + apply winding_down_ambient; [exact Hw|lia].
    + apply winding_down_read, Hw.
    + intros _. apply winding_down_weaken.
    + apply winding_down_count, Hw.
    + intros k. apply ambient_sleep; [|auto].
      apply winding_down_ambient; [exact Hw|lia].
  - auto.
  - intros [|] m Hm; exact Hm.
  - auto.
Qed.

Lemma winding_down_cleanup (T : nat) (m : Machine) :
  winding_down 1 m -> winding_down 1 (snd (cleanup T m)).
Proof.
  intros (Hc & Hall & Hset). unfold cleanup, locked, bind.
  cbn [get_completed assign snd].
  apply winding_down_snapshot; [lia|].
  split; [exact Hc|]. split; [|exact Hset].
  eapply List.Forall_impl; [|exact Hall].
  intros s' H Hs'. destruct (H Hs') as [H1 H2]. split; [reflexivity|exact H2].
Qed.

Lemma winding_down_reset (world : World) (T : nat) (s : RunState) :
  only_stops world ->
  winding_down 1 (reset world T (enter s)).
Proof.
  intros Hw. unfold reset.
  apply winding_down_turn; [exact Hw|lia|]. apply winding_down_snapshot; [lia|].
  repeat split; constructor.
Qed.

Lemma settled_lookup (tr : list RunState) (i j : nat) (a b : RunState) :
  settled tr -> i <= j -> tr !! i = Some b -> tr !! j = Some a ->
  is_running a = false ->
  is_running b = false /\ completed b <= completed a + 1.
Proof.
  revert i j. induction tr as [|s tr IH]; intros i j Hset Hij Hb Ha Hidle;
    [discriminate|].
  destruct Hset as [Hhead Hrest].
  destruct i as [|i].
  - injection Hb as <-. destruct j as [|j].
    + injection Ha as <-. split; [exact Hidle|lia].
    + cbn in Ha. exact (Forall_lookup_1 _ _ _ _ Hhead Ha Hidle).
  - destruct j as [|j]; [lia|]. cbn in Ha, Hb.
    apply (IH i j Hrest ltac:(lia) Hb Ha Hidle).
Qed.

(** X18. In a run that nothing but stop requests disturbs (no start
    request is accepted and no other worker is alive before the worker
    has returned): once a visible state has [is_running] false, whether
    by a stop request or by the clean-up, every later visible state has it
    false too, and shows at most one search more than that state: the
    worker finishes the search it is in, if it has already passed the
    check, and starts no other. *)
Theorem stop_latency (env : Env) (world : World) (th : Thread) (s : RunState) :
  only_stops world ->
  let h := history (run_thread env world th s) in
  forall i j a b, i <= j -> h !! i = Some a -> h !! j = Some b ->
    is_running a = false ->
    is_running b = false /\ completed b <= completed a + 1.
Proof.
  intros Hw.
  destruct th as [fruits delay browser profiles]. unfold run_thread, history.
  cbn [th_fruits th_delay th_browser th_profiles].
  assert (Hfinal : winding_down 1
            (snd (automation_worker env world fruits delay browser profiles (enter s)))).
  { apply worker_kept.
    - apply winding_down_ambient; [exact Hw|lia].
    - intros msg m H. exact H.
    - intros _ x. apply winding_down_search, Hw.
    - apply winding_down_cleanup.
    - apply winding_down_reset, Hw. }
  destruct Hfinal as (_ & _ & Hset).
  intros i j a b Hij Ha Hb Hidle.
  apply reverse_lookup_Some in Ha as [Ha Hi].
  apply reverse_lookup_Some in Hb as [Hb Hj].
  refine (settled_lookup _ _ _ a b Hset _ Hb Ha Hidle). lia.
Qed.

Lemma stop_latency_witness :
  let h := history (run_thread sample_env stop_during_first_search firefox_thread
                               started_state) in
  only_stops stop_during_first_search
  /\ exists a b,
       h !! 3 = Some a /\ h !! 4 = Some b
       /\ is_running a = false
       /\ completed b = completed a + 1
       /\ is_running b = false.
Proof.
  cbv zeta. split; [apply only_stops_oracle|]. eexists _, _.
  split; [vm_compute; reflexivity|]. split; [vm_compute; reflexivity|].
  split; [reflexivity|]. split; [reflexivity|].
  refine (proj1 (stop_latency sample_env stop_during_first_search firefox_thread
                   started_state (only_stops_oracle _) 3 4 _ _ _ _ _ _));
    [lia | vm_compute; reflexivity | vm_compute; reflexivity | reflexivity].
Defined.

(** ** The progress shown *)

Lemma proportional_turn (world : World) (T : nat) (m : Machine) :
  only_stops world ->
  proportional T m -> proportional T (env_turn world m).
Proof.
  intros Hw (Ht & Hfit & Hall).
  destruct (env_turn_only_stops world m Hw) as [->|[Hrun ->]];
    [exact (conj Ht (conj Hfit Hall))|].
  unfold proportional, stop_state. rewrite Hrun. cbn [shared trace].
  assert (Hnew : fits (set_status "Stopping automation..."
                         (set_is_running false (shared m)))) by exact Hfit.
  split; [exact Ht|]. split; [exact Hnew|]. constructor; [exact Hnew|exact Hall].
Qed.

Lemma proportional_snapshot (T : nat) (m : Machine) :
  proportional T m -> proportional T (snapshot m).
Proof.
  intros (Ht & Hfit & Hall). unfold proportional, snapshot. cbn.
  split; [exact Ht|]. split; [exact Hfit|]. constructor; assumption.
Qed.

Lemma proportional_ambient (world : World) (T : nat) :
  only_stops world -> ambient world (proportional T).
Proof.
  intros Hw. split; [|split; [|split]].
  - intros m. apply proportional_turn, Hw.
  - intros e m _ H. exact H.
  - intros f m Hf (Ht & Hfit & Hall). unfold proportional, fits in *. cbn.
    destruct (Hf (shared m)) as (_ & -> & -> & ->). auto.
  - intros m. apply proportional_snapshot.
Qed.

Lemma proportional_count (world : World) (T : nat) :
  only_stops world ->
  T <> 0 ->
  triple (stepped (proportional T))
         (with_lock world
            (bind get_completed (fun c' =>
             bind (assign (set_completed c')) (fun _ =>
             bind (lift (truediv c' T)) (fun q =>
             assign (set_progress (float_mul q 100)))))))
         (fun _ => proportional T) (fun _ => proportional T).
Proof.
  intros Hw HT m1 (m & (Ht & Hfit & Hall) & ->). unfold with_lock, yielding, locked, bind.
  cbn [get_completed assign local_completed shared trace effects clock].
  destruct T as [|T]; [congruence|]. cbn [lift truediv assign].
  apply proportional_turn; [exact Hw|]. apply proportional_snapshot.
  unfold proportional, fits, percent.
  cbn [shared trace total completed progress set_progress set_completed].
  rewrite Ht. split; [reflexivity|]. split; [apply Qeq_refl|exact Hall].
Qed.

Lemma proportional_search (env : Env) (world : World) (delay : Q) (T : nat)
    (fruit : string) :
  only_stops world ->
  T <> 0 ->
  triple (proportional T) (search env world delay T fruit)
         (fun _ => proportional T) (fun _ => proportional T).
Proof.
  intros Hw HT. eapply triple_conseq.
  - apply (search_phases env world (proportional T) (proportional T) (proportional T)
             (fun _ => proportional T)).
    + apply proportional_ambient, Hw.
    + intros m Hm.
      pose proof (ambient_read world _ (proportional_ambient world T Hw)
                    (fun _ => proportional T) m Hm) as H.
      destruct (read_is_running world m) as [[[|]|e] m']; exact H.
    + auto.
    + apply proportional_count; assumption.
    + intros k. apply ambient_sleep; [|auto]. apply proportional_ambient, Hw.
  - auto.
  - intros [|] m Hm; exact Hm.
  - auto.
Qed.

Lemma proportional_cleanup (T : nat) (m : Machine) :
  proportional T m -> proportional T (snd (cleanup T m)).
Proof.
  intros (Ht & Hfit & Hall). unfold cleanup, locked, bind.
  cbn [get_completed assign snd].
  apply proportional_snapshot.
  split; [exact Ht|]. split; [exact Hfit|exact Hall].
Qed.

Lemma proportional_reset (world : World) (T : nat) (s : RunState) :
  only_stops world ->
  proportional T (reset world T (enter s)).
Proof.
  intros Hw. unfold reset. apply proportional_turn; [exact Hw|].
  apply proportional_snapshot.
  split; [reflexivity|]. split; [|constructor].
  unfold fits, percent, float_mul.
  cbn [shared progress completed total set_progress set_completed set_total].
  reflexivity.
Qed.

Lemma chain_facts (T c : nat) (tr : list RunState) :
  c <= T -> chain T c tr -> Forall (fun s => total s = T /\ completed s <= T) tr.
Proof.
  revert c. induction tr as [|s tr IH]; cbn; intros c Hle; [constructor|].
  intros (Ht & Hc & Hrest). constructor; [split; [exact Ht|lia]|].
  apply (IH (completed s)); [lia|exact Hrest].
Qed.

(** Rounding to an integer stays between the integers around. *)
Lemma round_half_even_nonneg (q : Q) : (0 <= q)%Q -> (0 <= round_half_even q)%Z.
Proof.
  intros Hq. unfold round_half_even.
  assert (Hf : (0 <= Qfloor q)%Z).
  { change 0%Z with (Qfloor 0). apply Qfloor_resp_le, Hq. }
  destruct (Qcompare _ _); [destruct (Z.even _)| |]; lia.
Qed.

Lemma round_half_even_le (q : Q) (N : Z) :
  (q <= inject_Z N)%Q -> (round_half_even q <= N)%Z.
Proof.
  intros Hq. unfold round_half_even.
  assert (Hf : (Qfloor q <= N)%Z).
  { rewrite <- (Qfloor_Z N). apply Qfloor_resp_le, Hq. }
  assert (Hhalf : (Qfloor q = N -> q - inject_Z (Qfloor q) < 1 # 2)%Q).
  { intros ->. apply Qle_lt_trans with (y := 0%Q); [|reflexivity].
    apply (Qplus_le_l _ _ (inject_Z N)). ring_simplify. exact Hq. }
  destruct (Qcompare (q - inject_Z (Qfloor q)) (1 # 2)) eqn:Hcmp.
  - apply Qeq_alt in Hcmp.
    destruct (Z.even _); [exact Hf|].
    destruct (Z.eq_dec (Qfloor q) N) as [Heq|]; [|lia].
    apply Hhalf in Heq. rewrite Hcmp in Heq. discriminate.
  - exact Hf.
  - apply Qgt_alt in Hcmp.
    destruct (Z.eq_dec (Qfloor q) N) as [Heq|]; [|lia].
    apply Hhalf in Heq. exfalso. apply (Qlt_irrefl (1 # 2)).
    eapply Qlt_trans; eassumption.
Qed.

Lemma pow2_pos (e : Z) : (0 < pow2 e)%Q.
Proof. unfold pow2. apply Qpower_0_lt. reflexivity. Qed.

Lemma pow2_neg_int (e : Z) : (e <= 0)%Z -> (pow2 e * inject_Z (2 ^ (- e)) == 1)%Q.
Proof.
  intros He. unfold pow2.
  rewrite (Zpower_Qpower 2 (- e)) by lia.
  change (inject_Z 2) with 2%Q.
  rewrite <- Qpower_plus by discriminate.
  replace (e + - e)%Z with 0%Z by lia. reflexivity.
Qed.

(** The exponent of a positive number that is at most an integer below
    [2^51] is not positive: the number is rounded on a grid that contains
    the integers. *)
Lemma binade_small (q : Q) (K : Z) :
  (0 < Qnum q)%Z -> (q <= inject_Z K)%Q -> (Z.log2 K <= 50)%Z -> (binade q <= 0)%Z.
Proof.
  intros Hpos Hq HK. unfold binade.
  assert (HKpos : (0 < K)%Z).
  { destruct (Z_lt_le_dec 0 K) as [|Hle]; [assumption|exfalso].
    assert (H : (q <= 0)%Q).
    { eapply Qle_trans; [exact Hq|]. change 0%Q with (inject_Z 0).
      rewrite <- Zle_Qle. exact Hle. }
    unfold Qle in H. cbn in H. lia. }
  assert (Hn : (Qnum q <= K * Zpos (Qden q))%Z).
  { unfold Qle in Hq. cbn in Hq. lia. }
  assert (Hlog : (Z.log2 (Qnum q) <= Z.log2 K + Z.log2 (Zpos (Qden q)) + 1)%Z).
  { eapply Z.le_trans; [apply Z.log2_le_mono, Hn|].
    apply Z.log2_mul_above; lia. }
  destruct (Qle_bool _ _); lia.
Qed.

(** Rounding to a float keeps a number between 0 and such an integer. *)
Lemma round64_between (q : Q) (K : Z) :
  (0 <= q)%Q -> (q <= inject_Z K)%Q -> (Z.log2 K <= 50)%Z ->
  (0 <= round64 q)%Q /\ (round64 q <= inject_Z K)%Q.
Proof.
  intros Hlow Hhigh HK. unfold round64.
  destruct (Qnum q) as [|n|n] eqn:Hnum.
  - split; [apply Qle_refl|].
    eapply Qle_trans; [|exact Hhigh]. exact Hlow.
  - assert (He : (binade q <= 0)%Z).
    { apply (binade_small q K); [rewrite Hnum; reflexivity|assumption..]. }
    set (e := binade q) in *.
    pose proof (pow2_pos e) as Hpow.
    assert (Hscaled : (q / pow2 e <= inject_Z (K * 2 ^ (- e)))%Q).
    { apply Qle_shift_div_r; [exact Hpow|].
      rewrite inject_Z_mult, <- Qmult_assoc, (Qmult_comm (inject_Z (2 ^ (- e)))),
        (pow2_neg_int e He), Qmult_1_r. exact Hhigh. }
    assert (Hzero : (0 <= q / pow2 e)%Q).
    { apply Qle_shift_div_l; [exact Hpow|]. rewrite Qmult_0_l. exact Hlow. }
    pose proof (round_half_even_nonneg _ Hzero) as Hm0.
    pose proof (round_half_even_le _ _ Hscaled) as Hm1.
    set (m := round_half_even (q / pow2 e)) in *.
    split.
    + apply Qmult_le_0_compat; [|apply Qlt_le_weak, Hpow].
      change 0%Q with (inject_Z 0). rewrite <- Zle_Qle. exact Hm0.
    + apply Qle_trans with (y := (inject_Z (K * 2 ^ (- e)) * pow2 e)%Q).
      * apply Qmult_le_compat_r; [|apply Qlt_le_weak, Hpow].
        rewrite <- Zle_Qle. exact Hm1.
      * rewrite inject_Z_mult, <- Qmult_assoc, (Qmult_comm (inject_Z (2 ^ (- e)))),
          (pow2_neg_int e He), Qmult_1_r. apply Qle_refl.
  - exfalso. unfold Qle in Hlow. cbn in Hlow. rewrite Hnum in Hlow. lia.
Qed.

Lemma percent_bounds (c T : nat) :
  c <= T -> T <> 0 -> (0 <= percent c T)%Q /\ (percent c T <= 100)%Q.
Proof.
  intros Hle HT. unfold percent, float_mul.
  assert (Hpos : (0 < inject_Z (Z.of_nat T))%Q).
  { change 0%Q with (inject_Z 0). rewrite <- Zlt_Qlt. lia. }
  assert (Hlow : (0 <= inject_Z (Z.of_nat c) / inject_Z (Z.of_nat T))%Q).
  { apply Qle_shift_div_l; [exact Hpos|]. rewrite Qmult_0_l.
    change 0%Q with (inject_Z 0). rewrite <- Zle_Qle. lia. }
  assert (Hhigh : (inject_Z (Z.of_nat c) / inject_Z (Z.of_nat T) <= inject_Z 1)%Q).
  { apply Qle_shift_div_r; [exact Hpos|]. rewrite Qmult_1_l.
    rewrite <- Zle_Qle. lia. }
  destruct (round64_between _ 1 Hlow Hhigh ltac:(cbn; lia)) as [Hq0 Hq1].
  set (x := round64 _) in *.
  apply (round64_between (x * 100) 100).
  - apply Qmult_le_0_compat; [exact Hq0|discriminate].
  - apply (Qle_trans _ (inject_Z 1 * 100)%Q); [|discriminate].
    apply Qmult_le_compat_r; [exact Hq1|discriminate].
  - cbn. lia.
Qed.

(** X19. In a run with terms to search that nothing but stop requests
    disturbs (no start request is accepted and no other worker is alive
    before the worker has returned), every visible state shows as
    [progress] the float that [(completed / total) * 100] evaluates to on
    its own counters: the quotient rounded to a float, and its product
    with 100 rounded again; a value between 0 and 100. A stop request and
    the clean-up leave it as it is. *)
Theorem progress_proportional (env : Env) (world : World) (th : Thread)
    (s : RunState) :
  only_stops world ->
  th_fruits th <> [] ->
  Forall (fun x => fits x /\ (0 <= progress x)%Q /\ (progress x <= 100)%Q)
         (history (run_thread env world th s)).
Proof.
  intros Hw.
  destruct th as [fruits delay browser profiles]. unfold run_thread, history.
  cbn [th_fruits th_delay th_browser th_profiles]. intros Hfruits.
  pose proof (worker_total_positive fruits profiles Hfruits) as Hpos.
  assert (Hfinal : proportional (worker_total fruits profiles)
            (snd (automation_worker env world fruits delay browser profiles (enter s)))).
  { apply worker_kept.
    - apply proportional_ambient, Hw.
    - intros msg m H. exact H.
    - intros _ x. apply proportional_search; [exact Hw|lia].
    - apply proportional_cleanup.
    - apply proportional_reset, Hw. }
  destruct Hfinal as (_ & _ & Hfits).
  destruct (worker_counting env world fruits delay browser profiles s Hw)
    as [_ (_ & _ & Hl & Hch & _)].
  pose proof (chain_facts _ _ _ Hl Hch) as Hfacts.
  apply Forall_reverse.
  rewrite List.Forall_forall in *. intros x Hx.
  specialize (Hfits x Hx). destruct (Hfacts x Hx) as [Ht Hc].
  split; [exact Hfits|].
  unfold fits in Hfits. rewrite Hfits, Ht.
  apply percent_bounds; [exact Hc|lia].
Qed.

Lemma progress_proportional_witness :
  only_stops undisturbed
  /\ th_fruits three_terms_thread <> []
  /\ (exists x, history (run_thread sample_env undisturbed three_terms_thread
                                    started_state) !! 3 = Some x
                /\ completed x = 1 /\ total x = 3
                /\ (progress x == 2345624805922133 # 70368744177664)%Q
                /\ ~ (progress x == 100 # 3)%Q)
  /\ Forall (fun x => fits x /\ (0 <= progress x)%Q /\ (progress x <= 100)%Q)
            (history (run_thread sample_env undisturbed three_terms_thread
                                 started_state)).
Proof.
  split; [apply only_stops_oracle|]. split; [discriminate|].
  split; [eexists; split; [vm_compute; reflexivity|];
          split; [reflexivity|]; split; [reflexivity|];
          split; [reflexivity|discriminate]|].
  apply (progress_proportional sample_env undisturbed three_terms_thread
           started_state (only_stops_oracle _)).
  discriminate.
Defined.

(** ** A failure ends the run *)

Lemma ahead_mono (T k k' : nat) (m : Machine) :
  k' <= k -> ahead T k m -> ahead T k' m.
Proof. intros Hle [Hp Hl]. split; [exact Hp|lia]. Qed.

Lemma ahead_turn (world : World) (T k : nat) (m : Machine) :
  ahead T k m -> ahead T k (env_turn world m).
Proof. intros H. exact H. Qed.

Lemma handler_lines_silent (e : Effect) (es : list Effect) :
  silent e -> handler_lines (e :: es) = handler_lines es.
Proof.
  unfold handler_lines. destruct e as [| | |msg]; cbn [prints]; try reflexivity.
  cbn [silent List.filter]. intros ->. reflexivity.
Qed.

Lemma ahead_ambient (world : World) (T k : nat) : ambient world (ahead T k).
Proof.
  split; [|split; [|split]].
  - intros m. apply ahead_turn.
  - intros e m He [Hp Hl]. split; [|exact Hl].
    cbn [emit snd effects]. rewrite (handler_lines_silent e _ He). exact Hp.
  - intros f m _ H. exact H.
  - intros m H. exact H.
Qed.

Lemma ahead_count (world : World) (T k : nat) :
  triple (stepped (ahead T (S k)))
         (with_lock world
            (bind get_completed (fun c' =>
             bind (assign (set_completed c')) (fun _ =>
             bind (lift (truediv c' T)) (fun q =>
             assign (set_progress (float_mul q 100)))))))
         (fun _ => ahead T k) (fun _ => ahead T 1).
Proof.
  intros m1 (m & [Hp Hl] & ->). unfold with_lock, yielding, locked, bind.
  cbn [get_completed assign local_completed shared trace effects clock].
  destruct T as [|T]; [lia|]. cbn [lift truediv assign].
  apply ahead_turn. split; [exact Hp|]. cbn [snapshot local_completed]. lia.
Qed.

Lemma ahead_search (env : Env) (world : World) (delay : Q) (T k : nat)
    (fruit : string) :
  pauses_return env world delay ->
  triple (ahead T (S k)) (search env world delay T fruit)
         (fun f m => match f with Next => ahead T k m | Break => ahead T (S k) m end)
         (fun _ => ahead T 1).
Proof.
  intros Hpauses.
  apply (search_phases env world (ahead T (S k)) (ahead T (S k)) (ahead T k)).
  - apply ahead_ambient.
  - intros m Hm.
    pose proof (ambient_read world _ (ahead_ambient world T (S k))
                  (fun _ => ahead T 1) m Hm) as H.
    destruct (read_is_running world m) as [[[|]|e] m']; exact H.
  - intros _ m. apply ahead_mono. lia.
  - apply ahead_count.
  - intros j. apply ambient_sleep_returns; [apply ahead_ambient|apply Hpauses].
Qed.

Lemma ahead_fruits (env : Env) (world : World) (delay : Q) (T r : nat)
    (fruits : list string) :
  pauses_return env world delay ->
  triple (ahead T (length fruits + r)) (for_each (search env world delay T) fruits)
         (fun _ => ahead T r) (fun _ => ahead T 1).
Proof.
  intros Hpauses.
  apply (triple_for_each (fun l => ahead T (length l + r))); [|trivial].
  intros x l'. eapply triple_conseq;
    [apply (ahead_search env world delay T (length l' + r) x Hpauses)|..].
  - trivial.
  - intros [|] m; [trivial|]. apply ahead_mono. lia.
  - trivial.
Qed.

Lemma ahead_visit (env : Env) (world : World) (fruits : list string) (delay : Q)
    (browser : string) (T r : nat) (p : Profile) :
  pauses_return env world delay ->
  fruits <> [] ->
  triple (ahead T (length fruits + r)) (visit env world fruits delay browser T p)
         (fun f m => match f with Next => ahead T r m | Break => ahead T 0 m end)
         (fun _ => ahead T 1).
Proof.
  intros Hpauses Hfruits.
  assert (Hpos : 1 <= length fruits + r).
  { destruct fruits; [congruence|cbn; lia]. }
  pose proof (ahead_ambient world T (length fruits + r)) as HP.
  assert (HQe : forall (e : exn) m, ahead T (length fruits + r) m -> ahead T 1 m).
  { intros _ m. apply ahead_mono, Hpos. }
  unfold visit.
  eapply triple_bind; [apply (ambient_read world _ HP)|].
  intros [|]; cbn [negb]; [|intros m; apply ahead_mono; lia].
  eapply triple_bind; [apply (ambient_name _ p), HQe|].
  intros n. eapply triple_bind;
    [apply (ambient_lock world _ HP);
       [apply benign_current_profile|apply benign_status]|].
  intros ?. eapply triple_bind; [apply (ambient_launch env world _ HP)|].
  intros ?. eapply triple_bind; [apply (ambient_sleep env world _ HP), HQe|].
  intros ?. eapply triple_bind; [apply ahead_fruits, Hpauses|].
  intros ? m Hm. exact Hm.
Qed.

Lemma ahead_profiles (env : Env) (world : World) (fruits : list string) (delay : Q)
    (browser : string) (T : nat) (profiles : list Profile) :
  pauses_return env world delay ->
  fruits <> [] ->
  triple (ahead T (length fruits * length profiles))
         (for_each (visit env world fruits delay browser T) profiles)
         (fun _ => ahead T 0) (fun _ => ahead T 1).
Proof.
  intros Hpauses Hfruits.
  apply (triple_for_each (fun l => ahead T (length fruits * length l))).
  - intros p l'. eapply triple_conseq;
      [apply (ahead_visit env world fruits delay browser T
                (length fruits * length l') p Hpauses Hfruits)|..].
    + intros m. apply ahead_mono. cbn [length]. lia.
    + trivial.
    + trivial.
  - intros m. apply ahead_mono. lia.
Qed.

(** X20. Take a run with terms to search in which [time.sleep] accepts
    every pause, in any world: whatever the other threads do to the
    state, and whatever the launcher prints ("Error launching browser:
    ..."). Its handler prints at most one line, when the body of the
    worker raised (the failsafe, another failure of pyautogui, a profile
    without a name). That line is then the last effect of the run:
    nothing is launched, typed, printed or waited for after it; and the
    clean-up leaves the status "Automation stopped". When nothing but
    stop requests has disturbed the run, [completed] is then below
    [total]. *)
Theorem failure_ends_run (env : Env) (world : World) (th : Thread) (s : RunState) :
  th_fruits th <> [] ->
  pauses_return env world (th_delay th) ->
  let m := run_thread env world th s in
  handler_lines (effects m) = []
  \/ exists msg rest,
       effects m = EPrint msg :: rest
       /\ handler_line msg = true
       /\ handler_lines rest = []
       /\ status (shared m) = "Automation stopped"
       /\ (only_stops world -> completed (shared m) < total (shared m)).
Proof.
  destruct th as [fruits delay browser profiles]. unfold run_thread.
  cbn [th_fruits th_delay th_browser th_profiles]. intros Hfruits Hpauses.
  rewrite automation_worker_unfold. cbv zeta.
  set (T := worker_total fruits profiles) in *.
  assert (Hreset : ahead T (length fruits * length (effective_profiles profiles))
                     (reset world T (enter s))).
  { unfold reset. apply ahead_turn. split; [reflexivity|]. cbn. subst T.
    unfold worker_total. lia. }
  pose proof (ahead_profiles env world fruits delay browser T
                (effective_profiles profiles) Hpauses Hfruits _ Hreset) as Hloop.
  assert (Hcount : only_stops world ->
            counting T T (caught (for_each (visit env world fruits delay browser T)
                                           (effective_profiles profiles))
                                 (reset world T (enter s)))).
  { intros Hw. apply (worker_counting env world fruits delay browser profiles s Hw). }
  unfold caught in *.
  destruct (for_each _ (effective_profiles profiles) (reset world T (enter s)))
    as [[[]|e] m'].
  - left. destruct (cleanup_final T m') as (_ & _ & -> & _). exact (proj1 Hloop).
  - right. destruct Hloop as [Hp Hl].
    assert (Hhandler : exists msg,
               effects (snd (handler e m')) = EPrint msg :: effects m'
               /\ handler_line msg = true
               /\ local_completed (snd (handler e m')) = local_completed m'
               /\ shared (snd (handler e m')) = shared m').
    { destruct e; eexists; repeat split; reflexivity. }
    destruct Hhandler as (msg & Heffects & Hline & Hlocal & Hsame).
    destruct (cleanup_final T (snd (handler e m'))) as (_ & Hshared & Heff & _).
    exists msg, (effects m'). rewrite Heff, Hshared, Heffects, Hlocal, Hsame.
    split; [reflexivity|]. split; [exact Hline|]. split; [exact Hp|].
    cbn [status completed total].
    destruct (Nat.eqb_spec (local_completed m') T); [lia|].
    split; [reflexivity|].
    intros Hw. destruct (Hcount Hw) as (Ht & Hc & _).
    rewrite Hsame in Ht, Hc. rewrite Hlocal in Hc. lia.
Qed.

Lemma failure_ends_run_witness :
  th_fruits sample_thread <> []
  /\ pauses_return sample_env failsafe_at_typing (th_delay sample_thread)
  /\ handler_lines (effects (run_thread sample_env failsafe_at_typing sample_thread
                                        started_state)) = [MsgFailsafe]
  /\ (handler_lines (effects (run_thread sample_env failsafe_at_typing sample_thread
                                         started_state)) = []
      \/ exists msg rest,
           effects (run_thread sample_env failsafe_at_typing sample_thread
                               started_state) = EPrint msg :: rest
           /\ handler_line msg = true
           /\ handler_lines rest = []
           /\ status (shared (run_thread sample_env failsafe_at_typing sample_thread
                                         started_state)) = "Automation stopped"
           /\ (only_stops failsafe_at_typing ->
               completed (shared (run_thread sample_env failsafe_at_typing
                                             sample_thread started_state))
               < total (shared (run_thread sample_env failsafe_at_typing
                                           sample_thread started_state)))).
Proof.
  assert (Hpauses : pauses_return sample_env failsafe_at_typing (th_delay sample_thread)).
  { repeat split; intros; reflexivity. }
  split; [discriminate|]. split; [exact Hpauses|]. split; [vm_compute; reflexivity|].
  apply (failure_ends_run sample_env failsafe_at_typing sample_thread started_state);
    [discriminate|exact Hpauses].
Defined.

(** ** A profile without a name in the worker *)




(** ** The two stored documents *)

Lemma load_from_file_lookup {A} (json_loads : string -> option A) (filename : string)
    (disk disk' : gmap string Node) :
  disk' !! filename = disk !! filename ->
  load_from_file json_loads filename disk' = load_from_file json_loads filename disk.
Proof.
  intros H. unfold load_from_file, load_attempt, path_exists, open_read.
  rewrite H. reflexivity.
Qed.

Lemma save_to_file_lookup {A} (json_dumps : A -> string) (filename other : string)
    (data : A) (disk : gmap string Node) :
  filename <> other ->
  fst (save_to_file json_dumps filename data disk) !! other = disk !! other.
Proof.
  intros Hne. unfold save_to_file, open_write.
  destruct (disk !! filename) as [[bytes|]|]; cbn [fst]; [|reflexivity|];
    rewrite !lookup_insert_ne by exact Hne; reflexivity.
Qed.

(** X22. The terms and the profile selection are stored apart: applying a
    selection changes nothing in what [GET /api/load] answers, and saving
    terms changes nothing in the selection that the next start of the
    server restores. *)
Theorem stores_independent
    (dumps_fruits : list string -> string) (loads_fruits : string -> option (list string))
    (dumps_profiles : list Profile -> string)
    (loads_profiles : string -> option (list Profile))
    (env : Env) (selected : list Profile) (g : Globals) (fruits : list string)
    (disk : gmap string Node) :
  load_fruits loads_fruits (snd (apply_profiles dumps_profiles env selected g disk))
  = load_fruits loads_fruits disk
  /\ startup loads_profiles (snd (save_fruits dumps_fruits fruits disk))
     = startup loads_profiles disk.
Proof.
  split.
  - assert (H : snd (apply_profiles dumps_profiles env selected g disk) !! "fruits.json"
                = disk !! "fruits.json").
    { unfold apply_profiles.
      destruct (validate (available_profiles env) selected [] []) as [valid invalid].
      cbn [snd]. apply save_to_file_lookup. discriminate. }
    unfold load_fruits.
    rewrite (load_from_file_lookup loads_fruits "fruits.json" disk _ H). reflexivity.
  - assert (H : snd (save_fruits dumps_fruits fruits disk) !! "selected_profiles.json"
                = disk !! "selected_profiles.json").
    { unfold save_fruits.
      pose proof (save_to_file_lookup dumps_fruits "fruits.json" "selected_profiles.json"
                    fruits disk ltac:(discriminate)) as H.
      destruct (save_to_file dumps_fruits "fruits.json" fruits disk) as [disk' msgs].
      exact H. }
    unfold startup.
    rewrite (load_from_file_lookup loads_profiles "selected_profiles.json" disk _ H).
    reflexivity.
Qed.

(** ** Discovery of the Chrome profiles *)

Section Discovery.
Import ChromeProfileManager.
Context {Path : Type} `{Pathlib Path}.
Variable json_loads : string -> option Json.
Variable w : World Path.

Local Open Scope path_scope.

Lemma find_exists (self_platform : Platform) (base : Path) :
  _find_chrome_user_data_dir w self_platform = Some base -> exists_ w base = true.
Proof.
  unfold _find_chrome_user_data_dir. destruct self_platform.
  - destruct (LOCALAPPDATA w) as [local_appdata|]; [|discriminate].
    destruct (truthy_str local_appdata); [|discriminate].
    destruct (exists_ w _) eqn:Hex; [|discriminate].
    intros Hfind. injection Hfind as <-. exact Hex.
  - destruct (exists_ w _) eqn:Hex; [|discriminate].
    intros Hfind. injection Hfind as <-. exact Hex.
  - intros Hfind. apply List.find_some in Hfind. apply Hfind.
  - discriminate.
Qed.

Lemma scan_items_filter (base : Path) (items profile_dirs : list string) :
  scan_items w base items profile_dirs
  = profile_dirs ++ List.filter (profile_directory w base) items.
Proof.
  revert profile_dirs. induction items as [|item_name rest IH]; intros profile_dirs.
  - cbn. rewrite app_nil_r. reflexivity.
  - cbn [scan_items List.filter]. rewrite IH.
    destruct (profile_directory w base item_name);
      [rewrite <- app_assoc|]; reflexivity.
Qed.

Lemma build_appends (base : Path) (cache : Json) (profile_dirs : list string)
    (profiles result : list Discovered) :
  Forall (fun d => truthy_str d = true) profile_dirs ->
  build json_loads w base cache profile_dirs profiles = Returns result ->
  exists new,
    result = profiles ++ new
    /\ map directory new = profile_dirs
    /\ Forall (fun p => path p = str (base / directory p) /\ truth (name p) = true) new.
Proof.
  intros Hdirs. revert profiles result.
  induction Hdirs as [|profile_dir rest Hdir _ IH]; intros profiles result.
  - cbn. intros Hres. injection Hres as <-. exists []. rewrite app_nil_r.
    repeat split. constructor.
  - cbn [build].
    destruct (cache_name cache profile_dir) as [name1|e]; [|discriminate].
    destruct (prefs_name json_loads w (base / profile_dir) name1) as [name2|e];
      [|discriminate].
    intros Hres. destruct (IH _ _ Hres) as (new & Hresult & Hmap & Hall).
    eexists (_ :: new). rewrite Hresult, <- app_assoc. split; [reflexivity|].
    split; [cbn; rewrite Hmap; reflexivity|].
    constructor; [|exact Hall]. cbn. split; [reflexivity|].
    destruct (truth name2) eqn:Htruth; [exact Htruth|exact Hdir].
Qed.

Lemma scanned_names (base : Path) (items : list string) (default_found : bool) :
  Forall (fun d => truthy_str d = true)
         ((if default_found then ["Default"] else [])
          ++ List.filter (profile_directory w base) items).
Proof.
  apply Forall_app. split; [destruct default_found; repeat constructor|].
  apply List.Forall_forall. intros d Hd. apply List.filter_In in Hd as [_ Hd].
  unfold profile_directory in Hd. apply andb_true_iff in Hd as [_ Hd].
  destruct d; [discriminate|reflexivity].
Qed.

(** X23. What [GET /api/profiles] lists, when it answers. Without a user
    data directory the list is empty. Otherwise the directory found
    exists, and the list has one entry for [Default], first, when that is
    a directory, then one for each directory whose name starts with
    "Profile ", in the order in which the operating system lists them;
    each entry has the path of its directory and a name that is never
    empty: the directory name stands in when the metadata gives none. *)
Theorem discovered_profiles (profiles : list Discovered) (notices : list Notice) :
  get_profiles json_loads w = (Returns profiles, notices) ->
  match _find_chrome_user_data_dir w (system_name w) with
  | None => profiles = []
  | Some base =>
      exists_ w base = true
      /\ exists items,
           entry w base = Some (Directory (Some items))
           /\ map directory profiles
              = (if is_dir w (base / "Default") then ["Default"] else [])
                ++ List.filter (profile_directory w base) items
           /\ Forall (fun p => path p = str (base / directory p)
                               /\ truth (name p) = true) profiles
  end.
Proof.
  unfold get_profiles, init, get_available_profiles. cbn [user_data_dir].
  destruct (_find_chrome_user_data_dir w (system_name w)) as [base|] eqn:Hfind;
    [|intros Hres; injection Hres as <- _; reflexivity].
  pose proof (find_exists _ _ Hfind) as Hbase. rewrite Hbase. cbn [negb].
  destruct (read_info_cache json_loads w base) as [[cache|e] notices'];
    [|discriminate].
  intros Hres. injection Hres as Hcollect _. split; [reflexivity|].
  unfold collect, scan, iterdir in Hcollect.
  destruct (entry w base) as [[[items|]|content]|] eqn:Hentry; try discriminate.
  exists items. split; [reflexivity|].
  rewrite scan_items_filter in Hcollect.
  destruct (build_appends _ _ _ _ _ (scanned_names base items _) Hcollect)
    as (new & -> & Hdirs & Hall).
  cbn [app]. split; [|exact Hall]. rewrite Hdirs.
  unfold exists_, is_dir. destruct (entry w (base / "Default")) as [[l|c]|]; reflexivity.
Qed.

Lemma load_json_cases (p : Path) (bytes : string) :
  entry w p = Some (Regular (File bytes)) ->
  load_json json_loads w p
  = if utf8_valid bytes
    then match json_loads bytes with
         | Some v => Val v
         | None => Exc JSONDecodeError
         end
    else Exc UnicodeDecodeError.
Proof.
  intros Hentry. unfold load_json, read_text, json_load. rewrite Hentry.
  destruct (utf8_valid bytes); reflexivity.
Qed.

(** X24. A [Local State] file that is not valid UTF-8, or that holds
    JSON other than an object, makes [get_available_profiles] raise
    ([UnicodeDecodeError], [AttributeError]): the except clause names
    [JSONDecodeError], [KeyError] and [IOError] only. A file that is not
    JSON at all is reported on the console, and discovery goes on as with
    an empty cache. *)
Theorem local_state_must_be_object (self : Manager Path) (base : Path) (bytes : string) :
  user_data_dir self = Some base ->
  exists_ w base = true ->
  entry w (base / "Local State") = Some (Regular (File bytes)) ->
  (utf8_valid bytes = false ->
   fst (get_available_profiles json_loads w self) = Raises (Builtin UnicodeDecodeError))
  /\ (forall v, utf8_valid bytes = true -> json_loads bytes = Some v ->
                (forall items, v <> JDict items) ->
                exists msg,
                  fst (get_available_profiles json_loads w self)
                  = Raises (AttributeError msg))
  /\ (utf8_valid bytes = true -> json_loads bytes = None ->
      get_available_profiles json_loads w self
      = (collect json_loads w base (JDict []), [NoticeLocalState JSONDecodeError])).
Proof.
  intros Hself Hbase Hentry.
  unfold get_available_profiles. rewrite Hself, Hbase. cbn [negb].
  unfold read_info_cache.
  assert (Hex : exists_ w (base / "Local State") = true)
    by (unfold exists_; rewrite Hentry; reflexivity).
  rewrite Hex, (load_json_cases _ _ Hentry).
  split; [|split].
  - intros ->. reflexivity.
  - intros v -> -> Hshape.
    destruct v; try (eexists; reflexivity).
    destruct (Hshape items eq_refl).
  - intros -> ->. reflexivity.
Qed.
End Discovery.

Lemma discovered_profiles_witness :
  ChromeProfileManager.get_profiles sample_json (sample_world (File "{local state}"))
  = (ChromeProfileManager.Returns
       [ChromeProfileManager.mkDiscovered (ChromeProfileManager.JStr "Me") "Default"
          "/home/u/.config/google-chrome/Default";
        ChromeProfileManager.mkDiscovered (ChromeProfileManager.JStr "Work") "Profile 1"
          "/home/u/.config/google-chrome/Profile 1"], [])
  /\ ChromeProfileManager.exists_ (sample_world (File "{local state}")) chrome_dir = true.
Proof.
  split; [vm_compute; reflexivity|].
  exact (proj1 (discovered_profiles sample_json (sample_world (File "{local state}"))
                  _ _ eq_refl)).
Defined.

Lemma local_state_must_be_object_witness :
  exists msg,
    fst (ChromeProfileManager.get_available_profiles sample_json
           (sample_world (File "[]"))
           (ChromeProfileManager.init (sample_world (File "[]"))))
    = ChromeProfileManager.Raises (ChromeProfileManager.AttributeError msg).
Proof.
  assert (Hself : ChromeProfileManager.user_data_dir
                    (ChromeProfileManager.init (sample_world (File "[]")))
                  = Some chrome_dir) by (vm_compute; reflexivity).
  assert (Hbase : ChromeProfileManager.exists_ (sample_world (File "[]")) chrome_dir
                  = true) by (vm_compute; reflexivity).
  assert (Hentry : ChromeProfileManager.entry (sample_world (File "[]"))
                     (ChromeProfileManager.joinpath chrome_dir "Local State")
                   = Some (ChromeProfileManager.Regular (File "[]")))
    by (vm_compute; reflexivity).
  apply (proj1 (proj2 (local_state_must_be_object sample_json (sample_world (File "[]"))
                         (ChromeProfileManager.init (sample_world (File "[]")))
                         chrome_dir "[]" Hself Hbase Hentry))
           (ChromeProfileManager.JList []) eq_refl eq_refl).
  discriminate.
Defined.
